(** * pyrevit.revit.db.query: a shallow embedding of the query helpers

    The module [pyrevitlib/pyrevit/revit/db/query.py] is a flat set of
    helpers that call into the Revit document model and post-process what
    comes back.  The helpers are embedded as functions over an explicit
    model of the host objects they touch: records for documents, elements,
    parameters and categories, the results of the host's collectors as
    lists, Python exceptions as an error monad. *)

From Stdlib Require Import ZArith List String Ascii Bool Lia Permutation SpecFloat.
Import ListNotations.

Open Scope Z_scope.
Open Scope list_scope.
Open Scope string_scope.

Set Implicit Arguments.

(** ** Exceptions and the error monad *)

(** The exceptions the module raises itself or lets escape.  A failure of
    the host API (a .NET exception) carries its type name and message. *)
Inductive exn : Type :=
| PyRevitException (msg : string)
| TypeError
| AttributeError
| UnboundLocalError
| IndexError
| HostException (type_name : string) (msg : string).

Inductive result (A : Type) : Type :=
| Ok (a : A)
| Raise (e : exn).

Arguments Ok {A} a.
Arguments Raise {A} e.

Definition bind {A B : Type} (m : result A) (k : A -> result B) : result B :=
  match m with
  | Ok a => k a
  | Raise e => Raise e
  end.

Notation "x <- m ;; k" := (bind m (fun x => k))
  (at level 61, m at next level, right associativity).

(** [try: body except Exception as err: handler(err)] *)
Definition try_except {A : Type} (body : result A) (handler : exn -> result A)
  : result A :=
  match body with
  | Ok a => Ok a
  | Raise e => handler e
  end.

(** [str(err)] of a caught exception, as [str.format] renders it: the
    message of a [PyRevitException] or of a host exception; for an error
    the interpreter raised itself the text is the interpreter's,
    [python_text]. *)
Definition exn_text (python_text : exn -> string) (e : exn) : string :=
  match e with
  | PyRevitException msg => msg
  | HostException _ msg => msg
  | _ => python_text e
  end.

Definition is_PyRevitException (e : exn) : bool :=
  match e with
  | PyRevitException _ => true
  | _ => false
  end.

(** ** Strings: the [in] operator *)

Fixpoint starts_with (needle hay : string) : bool :=
  match needle, hay with
  | EmptyString, _ => true
  | String _ _, EmptyString => false
  | String a needle', String b hay' =>
      Ascii.eqb a b && starts_with needle' hay'
  end.

(** [needle in hay] on two Python strings. *)
Fixpoint str_contains (needle hay : string) : bool :=
  starts_with needle hay ||
  match hay with
  | EmptyString => false
  | String _ hay' => str_contains needle hay'
  end.

(** What "is a substring of" means, independently of the scan above. *)
Definition is_substring (needle hay : string) : Prop :=
  exists pre post, hay = pre ++ needle ++ post.

(** ** Python values *)

(** Revit doubles are IEEE binary64 numbers. *)
Definition Double : Type := spec_float.

Definition float_of_int (z : Z) : Double := binary_normalize 53 1024 z 0 false.

(** [ElementId], by its [IntegerValue]. *)
Definition ElementId : Type := Z.

(** The plain values a parameter holds and a query is made with. *)
Inductive pyval : Type :=
| PyNone
| PyInt (z : Z)
| PyFloat (d : Double)
| PyStr (s : string)
| PyElementId (id : ElementId).

(** [d == z] for a float and an integer: the two are compared as numbers,
    the integer is not rounded. *)
Definition float_eq_int (d : Double) (z : Z) : bool :=
  match d with
  | S754_zero _ => Z.eqb z 0
  | S754_finite s m e =>
      let v := if s then Z.neg m else Z.pos m in
      if Z.leb 0 e then Z.eqb z (v * 2 ^ e) else Z.eqb v (z * 2 ^ (- e))
  | _ => false
  end.

(** [a == b] *)
Definition py_eq (a b : pyval) : bool :=
  match a, b with
  | PyNone, PyNone => true
  | PyInt x, PyInt y => Z.eqb x y
  | PyInt x, PyFloat d => float_eq_int d x
  | PyFloat d, PyInt x => float_eq_int d x
  | PyFloat x, PyFloat y => SFeqb x y
  | PyStr s, PyStr t => String.eqb s t
  | PyElementId i, PyElementId j => Z.eqb i j
  | _, _ => false
  end.

Definition is_None (v : pyval) : bool :=
  match v with PyNone => true | _ => false end.

(** [isinstance(v, str)] *)
Definition isinstance_str (v : pyval) : bool :=
  match v with PyStr _ => true | _ => false end.

(** [item in container]: in a string only a string can be looked for, and
    the other plain values are no containers. *)
Definition py_in (item container : pyval) : result bool :=
  match container, item with
  | PyStr hay, PyStr needle => Ok (str_contains needle hay)
  | _, _ => Raise TypeError
  end.

(** Truth value of a string, of a list, of a .NET enum value. *)
Definition str_truthy (s : string) : bool :=
  match s with EmptyString => false | _ => true end.

Definition list_truthy {A : Type} (l : list A) : bool :=
  match l with [] => false | _ => true end.

(** The type of a returned object, as far as the properties tell them
    apart. *)
Inductive pytype : Type :=
| T_NoneType | T_bool | T_Workset.

Class PyTyped (A : Type) : Type := type_of : A -> pytype.

#[export] Instance PyTyped_bool : PyTyped bool := fun _ => T_bool.

#[export] Instance PyTyped_option (A : Type) `{PyTyped A} : PyTyped (option A) :=
  fun o => match o with Some a => type_of a | None => T_NoneType end.

(** ** Dictionaries

    A [dict] keeps one entry per key; assigning to a key that is present
    replaces the value and keeps the key.  The entries are listed in the
    order the keys came in; nothing below depends on that order but up to
    permutation. *)
Section Dict.
Variables K V : Type.
Variable same_key : K -> K -> bool.

Fixpoint dict_set (d : list (K * V)) (k : K) (v : V) : list (K * V) :=
    match d with
    | [] => [(k, v)]
    | (k', v') :: d' =>
        if same_key k' k then (k', v) :: d' else (k', v') :: dict_set d' k v
    end.

Fixpoint dict_get (d : list (K * V)) (k : K) : option V :=
    match d with
    | [] => None
    | (k', v') :: d' => if same_key k' k then Some v' else dict_get d' k
    end.
End Dict.

(** A list comprehension whose condition may raise. *)
Fixpoint filterM {A : Type} (f : A -> result bool) (l : list A)
  : result (list A) :=
  match l with
  | [] => Ok []
  | x :: l' =>
      b <- f x ;;
      rest <- filterM f l' ;;
      Ok (if b then x :: rest else rest)
  end.

Fixpoint mapM {A B : Type} (f : A -> result B) (l : list A)
  : result (list B) :=
  match l with
  | [] => Ok []
  | x :: l' =>
      y <- f x ;;
      rest <- mapM f l' ;;
      Ok (y :: rest)
  end.

(** ** The host object model

    What the module reads of the Revit API objects it is handed.  An object
    is a record of the members the helpers look at; a collector is the list
    it yields.  The document an element belongs to ([element.Document]) is
    passed next to the element. *)

Inductive storage_type : Type :=
| ST_None | ST_Integer | ST_Double | ST_String | ST_ElementId.

Definition storage_type_eqb (a b : storage_type) : bool :=
  match a, b with
  | ST_None, ST_None | ST_Integer, ST_Integer | ST_Double, ST_Double
  | ST_String, ST_String | ST_ElementId, ST_ElementId => true
  | _, _ => false
  end.

(** [DB.BuiltInCategory] and [DB.BuiltInParameter] values, by their integer. *)
Definition BuiltInCategory : Type := Z.
Definition BuiltInParameter : Type := Z.

(** [DB.Parameter] *)
Module Param.
Record t : Type := {
    Definition_Name : string;
    Definition_Id : Z;
    StorageType : storage_type;
    AsDouble : Double;
    AsInteger : Z;
    AsString : option string;
    AsElementId : ElementId
  }.
End Param.

Module Category.
#[warnings="-register-all"]
Inductive t : Type :=
    Build { Name : string; Id : ElementId; SubCategories : list t }.
End Category.

(** The host classes the helpers test with [isinstance]. *)
Inductive element_class : Type :=
| Cls_Element
| Cls_View | Cls_ViewDrafting | Cls_ViewPlan | Cls_ViewSection
| Cls_Room | Cls_Area | Cls_Space.

Module Element.
Record t : Type := {
    Id : ElementId;
    Class : element_class;
    Name : string;
    ViewName : string;
    Category : option Category.t;
    Parameters : list Param.t;
    IsElementType : bool;
    Area : Double
  }.
End Element.

Module ViewSheet.
Record t : Type := {
    AsElement : Element.t;
    SheetNumber : string;
    IsPlaceholder : bool;
    GetAllViewports : list ElementId
  }.
End ViewSheet.

Module ScheduleSheetInstance.
Record t : Type := {
    OwnerViewId : ElementId;
    ScheduleId : ElementId
  }.
End ScheduleSheetInstance.

(** What [doc.GetElement] hands back, by the class of the object. *)
Inductive host_object : Type :=
| H_Element (e : Element.t)
| H_ViewSheet (s : ViewSheet.t)
| H_ViewSchedule (e : Element.t) (IsTitleblockRevisionSchedule : bool)
| H_Viewport (e : Element.t) (ViewId : ElementId).

Module XYZ.
Record t : Type := { X : Double; Y : Double; Z : Double }.
End XYZ.

(** A curve is a handle into the host's geometry kernel. *)
Module Curve.
Record t : Type := { handle : Z }.
End Curve.

Inductive SetComparisonResult : Type :=
| Overlap | Subset | Superset | Disjoint | Equal
| LeftEmpty | RightEmpty | BothEmpty.

Definition SetComparisonResult_eqb (a b : SetComparisonResult) : bool :=
  match a, b with
  | Overlap, Overlap | Subset, Subset | Superset, Superset
  | Disjoint, Disjoint | Equal, Equal | LeftEmpty, LeftEmpty
  | RightEmpty, RightEmpty | BothEmpty, BothEmpty => true
  | _, _ => false
  end.

Module Grid.
Record t : Type := { Id : ElementId; Curve : Curve.t }.
End Grid.

Module Workset.
Record t : Type := { Name : string }.
End Workset.

#[export] Instance PyTyped_Workset : PyTyped Workset.t := fun _ => T_Workset.

Module FamilyType.
Record t : Type := { Name : string }.
End FamilyType.

Module FamilyParameter.
Record t : Type := { Definition_Name : string }.
End FamilyParameter.

Module InternalDefinition.
Record t : Type := { Name : string; Id : ElementId }.
End InternalDefinition.

Module ExternalDefinition.
Record t : Type := { Name : string; GUID : string }.
End ExternalDefinition.

Module DefinitionFile.
  (** [Groups], each by its [Definitions]. *)
Record t : Type := { Groups : list (list ExternalDefinition.t) }.
End DefinitionFile.

(** A parameter binding, as a handle. *)
Definition Binding : Type := Z.

(** A linked document, as far as the module reads one: its grids. *)
Module LinkedDocument.
Record t : Type := {
    (** which document object it is: two link instances of one model give
        the same document *)
    handle : Z;
    Grids : list Grid.t
  }.
End LinkedDocument.

Module Document.
Record t : Type := {
    PathName : string;
    IsFamilyDocument : bool;
    (** every element, types and instances *)
    Elements : list Element.t;
    (** the elements a view shows, types left out *)
    ElementsInView : ElementId -> list Element.t;
    (** category [OST_Sheets], types left out *)
    Sheets : list ViewSheet.t;
    (** class [ScheduleSheetInstance] *)
    ScheduleSheetInstances : list ScheduleSheetInstance.t;
    (** [FilteredWorksetCollector(doc).ToWorksets()] *)
    Worksets : list Workset.t;
    (** category [OST_Grids], types left out *)
    Grids : list Grid.t;
    (** [GetLinkDocument()] of every [RevitLinkInstance] *)
    LinkDocuments : list (option LinkedDocument.t);
    GetElement : ElementId -> option host_object;
    Settings_Categories : list Category.t;
    ParameterBindings : list (InternalDefinition.t * Binding);
    FamilyManager_Types : list FamilyType.t;
    FamilyManager_GetParameters : list FamilyParameter.t
  }.
End Document.

Module ModelPath.
  (** A model path, with what [str.format] prints of it. *)
Record t : Type := { ToString : string }.
End ModelPath.

Module ExternalFileReference.
Record t : Type := { ExternalFileReferenceType : Z }.
End ExternalFileReference.

Module TransmissionData.
Record t : Type := {
    GetAllExternalFileReferenceIds : result (list ElementId);
    GetLastSavedReferenceData : ElementId -> result ExternalFileReference.t
  }.
End TransmissionData.

(** [HOST_APP]: the running application and its active document. *)
Module HostApp.
Record t : Type := {
    (** [app.SharedParametersFilename]; empty when none is set *)
    SharedParametersFilename : string;
    (** [app.OpenSharedParameterFile()]; null when it cannot be opened *)
    OpenSharedParameterFile : option DefinitionFile.t;
    (** the active document, if any *)
    doc : option Document.t;
    (** [is_newer_than('2019', or_equal=True)] *)
    is_newer_than_2019 : bool
  }.
End HostApp.

(** [DB]: the static members of the Revit API the module calls. *)
Module RevitAPI.
Record t : Type := {
    BuiltInCategory_GetValues : list BuiltInCategory;
    OST_Views : BuiltInCategory;
    OST_ReferenceViewer : BuiltInCategory;
    OST_Viewers : BuiltInCategory;
    VIEW_DESCRIPTION : BuiltInParameter;
    SHEET_SCHEDULED : BuiltInParameter;
    REFERENCE_VIEWER_TARGET_VIEW : BuiltInParameter;
    (** [curve.Intersect(other, results)]: the comparison result and the
        intersection points written to [results] *)
    Curve_Intersect : Curve.t -> Curve.t -> SetComparisonResult * list XYZ.t;
    ConvertUserVisiblePathToModelPath : string -> option ModelPath.t;
    ReadTransmissionData : ModelPath.t -> result (option TransmissionData.t)
  }.
End RevitAPI.

(** [db]: the wrapper classes of [pyrevit.revit.db] the module builds.
    They are defined outside [query.py]; a wrapper is kept as an abstract
    type with the members the helpers use. *)
Module WrapperAPI.
Record t : Type := {
    ProjectParameter : Type;
    ProjectParameter_new :
      InternalDefinition.t -> Binding -> option ExternalDefinition.t ->
      ProjectParameter;
    name : ProjectParameter -> string;
    param_id : ProjectParameter -> ElementId;
    (** [msp == param_id_or_name] *)
    ProjectParameter_eq : ProjectParameter -> pyval -> bool;
    ExternalRef : Type;
    ExternalRef_new :
      option host_object -> ExternalFileReference.t -> result ExternalRef;
    XYZPoint : Type;
    XYZPoint_new : XYZ.t -> XYZPoint;
    (** whether two wrapped points are one dictionary key *)
    XYZPoint_same_key : XYZPoint -> XYZPoint -> bool
  }.
End WrapperAPI.

(** ** Members of host objects *)

(** [isinstance(element, DB.View)] *)
Definition isinstance_View (c : element_class) : bool :=
  match c with
  | Cls_View | Cls_ViewDrafting | Cls_ViewPlan | Cls_ViewSection => true
  | _ => false
  end.

(** [element.LookupParameter(param_name)]: the first parameter of that
    name, null when there is none.  A null name is refused by the host, a
    name that is not a string by the call itself. *)
Definition LookupParameter (element : Element.t) (param_name : pyval)
  : result (option Param.t) :=
  match param_name with
  | PyStr n =>
      Ok (find (fun p => String.eqb (Param.Definition_Name p) n)
               (Element.Parameters element))
  | PyNone => Raise (HostException "ArgumentNullException" "parameterName")
  | _ => Raise TypeError
  end.

(** [element.Parameter[bip]], null when the element has no such parameter. *)
Definition Parameter_get (element : Element.t) (bip : BuiltInParameter)
  : option Param.t :=
  find (fun p => Z.eqb (Param.Definition_Id p) bip)
       (Element.Parameters element).

(** A member read off something that may be [None]. *)
Definition attr {A B : Type} (o : option A) (member : A -> B) : result B :=
  match o with
  | Some a => Ok (member a)
  | None => Raise AttributeError
  end.

(** Every object [GetElement] returns is an element. *)
Definition element_of (o : host_object) : Element.t :=
  match o with
  | H_Element e => e
  | H_ViewSheet s => ViewSheet.AsElement s
  | H_ViewSchedule e _ => e
  | H_Viewport e _ => e
  end.

Definition attr_IsTitleblockRevisionSchedule (o : option host_object)
  : result bool :=
  match o with
  | Some (H_ViewSchedule _ b) => Ok b
  | _ => Raise AttributeError
  end.

Definition attr_ViewId (o : option host_object) : result ElementId :=
  match o with
  | Some (H_Viewport _ id) => Ok id
  | _ => Raise AttributeError
  end.

(** [doc or HOST_APP.doc] *)
Definition doc_or_active (doc : option Document.t) (HOST_APP : HostApp.t)
  : option Document.t :=
  match doc with
  | Some d => Some d
  | None => HostApp.doc HOST_APP
  end.

(** [DB.FilteredElementCollector(doc)] refuses a null document. *)
Definition FilteredElementCollector (doc : option Document.t)
  : result Document.t :=
  match doc with
  | Some d => Ok d
  | None => Raise (HostException "ArgumentNullException" "document")
  end.

(** ** The query helpers, in the order of the source *)

(** [get_name(element, title_on_sheet=False)] *)
Definition get_name (DB : RevitAPI.t) (HOST_APP : HostApp.t)
    (element : Element.t) (title_on_sheet : bool) : result string :=
  if isinstance_View (Element.Class element) then
    view_name <-
      (if title_on_sheet then
         attr (Parameter_get element (RevitAPI.VIEW_DESCRIPTION DB))
              Param.AsString
       else Ok None) ;;
    match view_name with
    | Some (String c s) => Ok (String c s)
    | _ =>
        if HostApp.is_newer_than_2019 HOST_APP then Ok (Element.Name element)
        else Ok (Element.ViewName element)
    end
  else Ok (Element.Name element).

(** An argument that may or may not be a host element. *)
Inductive pyobj : Type :=
| Obj_value (v : pyval)
| Obj_Element (e : Element.t)
| Obj_Parameter (p : Param.t).

Definition obj_of_parameter (p : option Param.t) : pyobj :=
  match p with
  | Some p => Obj_Parameter p
  | None => Obj_value PyNone
  end.

(** [get_param(element, param_name, default=None)] *)
Definition get_param (element : pyobj) (param_name : pyval) (default : pyobj)
  : pyobj :=
  match element with
  | Obj_Element e =>
      match LookupParameter e param_name with
      | Ok p => obj_of_parameter p
      | Raise _ => default
      end
  | _ => Obj_value PyNone
  end.

(** [get_param_value(targetparam)]: no branch assigns [value] for a
    storage type outside the four tested. *)
Definition get_param_value (targetparam : Param.t) : result pyval :=
  let st := Param.StorageType targetparam in
  if storage_type_eqb st ST_Double then
    Ok (PyFloat (Param.AsDouble targetparam))
  else if storage_type_eqb st ST_Integer then
    Ok (PyInt (Param.AsInteger targetparam))
  else if storage_type_eqb st ST_String then
    Ok (match Param.AsString targetparam with
        | Some s => PyStr s
        | None => PyNone
        end)
  else if storage_type_eqb st ST_ElementId then
    Ok (PyElementId (Param.AsElementId targetparam))
  else Raise UnboundLocalError.

(** [get_all_elements(doc=None)] *)
Definition get_all_elements (HOST_APP : HostApp.t) (doc : option Document.t)
  : result (list Element.t) :=
  d <- FilteredElementCollector (doc_or_active doc HOST_APP) ;;
  Ok (Document.Elements d).

(** The loop of [get_elements_by_parameter] over the elements left, with
    [found_els] as collected so far. *)
Fixpoint get_elements_by_parameter_loop (param_name param_value : pyval)
    (partial : bool) (elements found_els : list Element.t)
  : result (list Element.t) :=
  match elements with
  | [] => Ok found_els
  | element :: rest =>
      targetparam <- LookupParameter element param_name ;;
      match targetparam with
      | Some targetparam =>
          value <- get_param_value targetparam ;;
          contained <-
            (if partial && negb (is_None value) && isinstance_str value
             then py_in param_value value
             else Ok false) ;;
          if contained then
            get_elements_by_parameter_loop param_name param_value partial
              rest (found_els ++ [element])%list
          else if py_eq param_value value then
            get_elements_by_parameter_loop param_name param_value partial
              rest (found_els ++ [element])%list
          else
            get_elements_by_parameter_loop param_name param_value partial
              rest found_els
      | None =>
          get_elements_by_parameter_loop param_name param_value partial
            rest found_els
      end
  end.

(** [get_elements_by_parameter(param_name, param_value, doc=None,
    partial=False)] *)
Definition get_elements_by_parameter (HOST_APP : HostApp.t)
    (param_name param_value : pyval) (doc : option Document.t)
    (partial : bool) : result (list Element.t) :=
  elements <- get_all_elements HOST_APP doc ;;
  get_elements_by_parameter_loop param_name param_value partial elements [].

(** [get_doc_categories(doc=None)]: the categories and, after them, the
    sub-categories of each. *)
Definition get_doc_categories (HOST_APP : HostApp.t) (doc : option Document.t)
  : result (list Category.t) :=
  cats <- attr (doc_or_active doc HOST_APP) Document.Settings_Categories ;;
  Ok (cats ++ flat_map Category.SubCategories cats)%list.

(** What [get_category] and [get_builtincategory] are called with. *)
Inductive category_ref : Type :=
| Cat_name (s : string)
| Cat_id (id : ElementId)
| Cat_builtin (b : BuiltInCategory)
| Cat_object (c : Category.t).

(** [get_category(cat_name_or_builtin, doc=None)] *)
Definition get_category (HOST_APP : HostApp.t)
    (cat_name_or_builtin : category_ref) : result (option Category.t) :=
  all_cats <- get_doc_categories HOST_APP None ;;
  match cat_name_or_builtin with
  | Cat_name n =>
      Ok (find (fun cat => String.eqb (Category.Name cat) n) all_cats)
  | Cat_builtin b =>
      Ok (find (fun cat => Z.eqb (Category.Id cat) b) all_cats)
  | Cat_object c => Ok (Some c)
  | Cat_id _ => Ok None
  end.

(** [get_builtincategory(cat_name_or_id, doc=None)] *)
Definition get_builtincategory (DB : RevitAPI.t) (HOST_APP : HostApp.t)
    (cat_name_or_id : category_ref) : result (option BuiltInCategory) :=
  cat_id <-
    match cat_name_or_id with
    | Cat_name n =>
        cat <- get_category HOST_APP (Cat_name n) ;;
        Ok (option_map Category.Id cat)
    | Cat_id id => Ok (Some id)
    | _ => Ok None
    end ;;
  match cat_id with
  | Some cat_id =>
      if Z.eqb cat_id 0 then Ok None
      else Ok (find (fun bicat => Z.eqb bicat cat_id)
                    (RevitAPI.BuiltInCategory_GetValues DB))
  | None => Ok None
  end.

(** [x in bicats] for what [get_builtincategory] returned. *)
Definition in_bicats (x : option BuiltInCategory) (bicats : list BuiltInCategory)
  : bool :=
  match x with
  | Some b => existsb (Z.eqb b) bicats
  | None => false
  end.

(** [DB.ElementCategoryFilter(bicat)] on an element. *)
Definition passes_category_filter (bicat : BuiltInCategory) (x : Element.t)
  : bool :=
  match Element.Category x with
  | Some c => Z.eqb (Category.Id c) bicat
  | None => false
  end.

(** [get_elements_by_category(element_bicats, elements=None, doc=None)] *)
Definition get_elements_by_category (DB : RevitAPI.t) (HOST_APP : HostApp.t)
    (element_bicats : list BuiltInCategory)
    (elements : option (list Element.t)) (doc : option Document.t)
  : result (list Element.t) :=
  match elements with
  | Some (x0 :: xs) =>
      filterM
        (fun x =>
           cat_name <- attr (Element.Category x) Category.Name ;;
           bicat <- get_builtincategory DB HOST_APP (Cat_name cat_name) ;;
           Ok (in_bicats bicat element_bicats))
        (x0 :: xs)
  | _ =>
      d <- FilteredElementCollector (doc_or_active doc HOST_APP) ;;
      Ok (filter
            (fun x =>
               existsb (fun bicat => passes_category_filter bicat x)
                       element_bicats
               && negb (Element.IsElementType x))
            (Document.Elements d))
  end.

(** What [find_workset] is called with. *)
Inductive name_or_list : Type :=
| Names (l : list string)
| OneName (s : string)
| NotAName.

(** [find_workset(workset_name_or_list, doc=None, partial=True)] *)
Definition find_workset (HOST_APP : HostApp.t)
    (workset_name_or_list : name_or_list) (doc : option Document.t)
    (partial : bool) : result (option Workset.t) :=
  d <- FilteredElementCollector (doc_or_active doc HOST_APP) ;;
  let workset_clctr := Document.Worksets d in
  match workset_name_or_list with
  | Names l =>
      Ok (find (fun workset =>
                  existsb (fun workset_name =>
                             str_contains workset_name (Workset.Name workset))
                          l)
               workset_clctr)
  | OneName workset_name =>
      if partial then
        Ok (find (fun workset =>
                    str_contains workset_name (Workset.Name workset))
                 workset_clctr)
      else
        Ok (find (fun workset =>
                    String.eqb workset_name (Workset.Name workset))
                 workset_clctr)
  | NotAName => Ok None
  end.

(** [model_has_workset(workset_name, partial=False, doc=None)] *)
Definition model_has_workset (HOST_APP : HostApp.t)
    (workset_name : name_or_list) (partial : bool) (doc : option Document.t)
  : result (option Workset.t) :=
  find_workset HOST_APP workset_name doc partial.

(** [get_sharedparam_definition_file()] *)
Definition get_sharedparam_definition_file (HOST_APP : HostApp.t)
  : result DefinitionFile.t :=
  if str_truthy (HostApp.SharedParametersFilename HOST_APP) then
    match HostApp.OpenSharedParameterFile HOST_APP with
    | Some sparamf => Ok sparamf
    | None => Raise (PyRevitException "Failed opening Shared Parameters file.")
    end
  else Raise (PyRevitException "No Shared Parameters file defined.").

(** [get_defined_sharedparams()] *)
Definition get_defined_sharedparams (HOST_APP : HostApp.t)
  : result (list ExternalDefinition.t) :=
  match get_sharedparam_definition_file HOST_APP with
  | Ok f => Ok (List.concat (DefinitionFile.Groups f))
  | Raise (PyRevitException _) => Ok []
  | Raise e => Raise e
  end.

(** [get_project_parameters(doc=None)] *)
Definition get_project_parameters (db : WrapperAPI.t) (HOST_APP : HostApp.t)
    (doc : option Document.t)
  : result (list (WrapperAPI.ProjectParameter db)) :=
  defined <- get_defined_sharedparams HOST_APP ;;
  let shared_params :=
    fold_left (fun d x => dict_set String.eqb d (ExternalDefinition.Name x) x)
              defined [] in
  match doc_or_active doc HOST_APP with
  | Some d =>
      if negb (Document.IsFamilyDocument d) then
        Ok (map (fun kb =>
                   WrapperAPI.ProjectParameter_new db (fst kb) (snd kb)
                     (dict_get String.eqb shared_params
                               (InternalDefinition.Name (fst kb))))
                (Document.ParameterBindings d))
      else Ok []
  | None => Ok []
  end.

(** [get_project_parameter_id(param_name)] *)
Definition get_project_parameter_id (db : WrapperAPI.t) (HOST_APP : HostApp.t)
    (param_name : string) : result ElementId :=
  project_params <- get_project_parameters db HOST_APP None ;;
  match find (fun project_param =>
                String.eqb (WrapperAPI.name db project_param) param_name)
             project_params with
  | Some project_param => Ok (WrapperAPI.param_id db project_param)
  | None => Raise (PyRevitException ("Parameter not found: " ++ param_name))
  end.

(** [get_project_parameter(param_id_or_name, doc=None)] *)
Definition get_project_parameter (db : WrapperAPI.t) (HOST_APP : HostApp.t)
    (param_id_or_name : pyval) (doc : option Document.t)
  : result (option (WrapperAPI.ProjectParameter db)) :=
  pp_list <- get_project_parameters db HOST_APP (doc_or_active doc HOST_APP) ;;
  Ok (find (fun msp => WrapperAPI.ProjectParameter_eq db msp param_id_or_name)
           pp_list).

(** [model_has_parameter(param_id_or_name, doc=None)] *)
Definition model_has_parameter (db : WrapperAPI.t) (HOST_APP : HostApp.t)
    (param_id_or_name : pyval) (doc : option Document.t)
  : result (option (WrapperAPI.ProjectParameter db)) :=
  get_project_parameter db HOST_APP param_id_or_name doc.

(** [get_sheets(include_placeholders=True, include_noappear=True, doc=None)] *)
Definition get_sheets (DB : RevitAPI.t) (HOST_APP : HostApp.t)
    (include_placeholders include_noappear : bool) (doc : option Document.t)
  : result (list ViewSheet.t) :=
  d <- FilteredElementCollector (doc_or_active doc HOST_APP) ;;
  sheets <-
    (if negb include_noappear then
       filterM
         (fun x =>
            n <- attr (Parameter_get (ViewSheet.AsElement x)
                                     (RevitAPI.SHEET_SCHEDULED DB))
                      Param.AsInteger ;;
            Ok (Z.ltb 0 n))
         (Document.Sheets d)
     else Ok (Document.Sheets d)) ;;
  if negb include_placeholders then
    Ok (filter (fun x => negb (ViewSheet.IsPlaceholder x)) sheets)
  else Ok sheets.

(** Truth value of a .NET enum value. *)
Definition enum_truthy (v : Z) : bool := negb (Z.eqb v 0).

(** The loop of [get_links] over the reference ids left. *)
Fixpoint get_links_loop (db : WrapperAPI.t) (d : Document.t)
    (trans_data : TransmissionData.t) (linktype : option Z)
    (external_refs : list ElementId) (links : list (WrapperAPI.ExternalRef db))
  : result (list (WrapperAPI.ExternalRef db)) :=
  match external_refs with
  | [] => Ok links
  | ref_id :: rest =>
      ext_ref <- TransmissionData.GetLastSavedReferenceData trans_data ref_id ;;
      let link := Document.GetElement d ref_id in
      links' <-
        match linktype with
        | Some lt =>
            if enum_truthy lt then
              if Z.eqb (ExternalFileReference.ExternalFileReferenceType ext_ref)
                       lt
              then
                r <- WrapperAPI.ExternalRef_new db link ext_ref ;;
                Ok (links ++ [r])%list
              else Ok links
            else
              r <- WrapperAPI.ExternalRef_new db link ext_ref ;;
              Ok (links ++ [r])%list
        | None =>
            r <- WrapperAPI.ExternalRef_new db link ext_ref ;;
            Ok (links ++ [r])%list
        end ;;
      get_links_loop db d trans_data linktype rest links'
  end.

(** The body of the [try] of [get_links]. *)
Definition get_links_try (DB : RevitAPI.t) (db : WrapperAPI.t)
    (d : Document.t) (model_path : ModelPath.t) (linktype : option Z)
  : result (list (WrapperAPI.ExternalRef db)) :=
  trans_data <- RevitAPI.ReadTransmissionData DB model_path ;;
  match trans_data with
  | Some trans_data =>
      external_refs <-
        TransmissionData.GetAllExternalFileReferenceIds trans_data ;;
      get_links_loop db d trans_data linktype external_refs []
  | None => Raise AttributeError
  end.

(** The message of the error [get_links] raises from its [except]. *)
Definition links_error_message (python_text : exn -> string)
    (model_path : ModelPath.t) (data_err : exn) : string :=
  "Error reading links from model path: " ++ ModelPath.ToString model_path
  ++ " | " ++ exn_text python_text data_err.

(** [get_links(linktype=None, doc=None)]; [python_text] is the
    interpreter's [str] of the errors it raises itself. *)
Definition get_links (python_text : exn -> string) (DB : RevitAPI.t)
    (db : WrapperAPI.t) (HOST_APP : HostApp.t) (linktype : option Z)
    (doc : option Document.t)
  : result (list (WrapperAPI.ExternalRef db)) :=
  match doc_or_active doc HOST_APP with
  | None => Raise AttributeError
  | Some d =>
      let location := Document.PathName d in
      if negb (str_truthy location) then
        Raise (PyRevitException "PathName is empty. Model is not saved.")
      else
        match RevitAPI.ConvertUserVisiblePathToModelPath DB location with
        | None =>
            Raise (PyRevitException "Model is not saved. Can not read links.")
        | Some model_path =>
            try_except (get_links_try DB db d model_path linktype)
              (fun data_err =>
                 Raise (PyRevitException
                          (links_error_message python_text model_path
                             data_err)))
        end
  end.

(** [get_sheet_by_number(sheet_num, doc=None)] *)
Definition get_sheet_by_number (DB : RevitAPI.t) (HOST_APP : HostApp.t)
    (sheet_num : pyval) (doc : option Document.t)
  : result (option ViewSheet.t) :=
  let doc := doc_or_active doc HOST_APP in
  sheets <- get_sheets DB HOST_APP true true doc ;;
  Ok (find (fun x => py_eq (PyStr (ViewSheet.SheetNumber x)) sheet_num) sheets).

(** [BUILTINCATEGORIES_VIEW] *)
Definition BUILTINCATEGORIES_VIEW (DB : RevitAPI.t) : list BuiltInCategory :=
  [RevitAPI.OST_Views DB; RevitAPI.OST_ReferenceViewer DB;
   RevitAPI.OST_Viewers DB].

(** [get_all_referencing_elements_in_view(view)], with [view.Document].
    What the collector yields is a [DB.Element], so the [isinstance] test
    of the condition holds; [get_builtincategory] is handed the category
    object itself. *)
Definition get_all_referencing_elements_in_view (DB : RevitAPI.t)
    (HOST_APP : HostApp.t) (view_Document : Document.t) (view : Element.t)
  : result (list ElementId) :=
  els <-
    filterM
      (fun el =>
         match Element.Category el with
         | Some c =>
             bicat <- get_builtincategory DB HOST_APP (Cat_object c) ;;
             Ok (in_bicats bicat (BUILTINCATEGORIES_VIEW DB))
         | None => Ok false
         end)
      (Document.ElementsInView view_Document (Element.Id view)) ;;
  Ok (map Element.Id els).

(** [get_schedules_on_sheet(viewsheet, doc=None)] *)
Definition get_schedules_on_sheet (HOST_APP : HostApp.t)
    (viewsheet : ViewSheet.t) (doc : option Document.t)
  : result (list ScheduleSheetInstance.t) :=
  d <- FilteredElementCollector (doc_or_active doc HOST_APP) ;;
  filterM
    (fun x =>
       if Z.eqb (ScheduleSheetInstance.OwnerViewId x)
                (Element.Id (ViewSheet.AsElement viewsheet))
       then
         revision <-
           attr_IsTitleblockRevisionSchedule
             (Document.GetElement d (ScheduleSheetInstance.ScheduleId x)) ;;
         Ok (negb revision)
       else Ok false)
    (Document.ScheduleSheetInstances d).

(** [is_sheet_empty(viewsheet)], with [viewsheet.Document] *)
Definition is_sheet_empty (HOST_APP : HostApp.t)
    (viewsheet_Document : Document.t) (viewsheet : ViewSheet.t) : result bool :=
  let sheet_views := ViewSheet.GetAllViewports viewsheet in
  sheet_scheds <-
    get_schedules_on_sheet HOST_APP viewsheet (Some viewsheet_Document) ;;
  if list_truthy sheet_views || list_truthy sheet_scheds then Ok false
  else Ok true.

(** Whether two results of [GetLinkDocument()] are the same object. *)
Definition same_linked_document (a b : option LinkedDocument.t)
  : {a = b} + {a <> b}.
Proof. repeat decide equality. Defined.

(** [get_all_linkeddocs(doc=None)]: a set, one entry for each document the
    link instances give; it is listed without repetition, and nothing is
    said on the order a set is iterated in. *)
Definition get_all_linkeddocs (HOST_APP : HostApp.t) (doc : option Document.t)
  : result (list (option LinkedDocument.t)) :=
  d <- FilteredElementCollector (doc_or_active doc HOST_APP) ;;
  Ok (nodup same_linked_document (Document.LinkDocuments d)).

(** [get_all_grids(group_by_direction=False, include_linked_models=False,
    doc=None)], for [group_by_direction] left at [False]. *)
Definition get_all_grids (HOST_APP : HostApp.t) (include_linked_models : bool)
    (doc : option Document.t) : result (list Grid.t) :=
  let doc := doc_or_active doc HOST_APP in
  linked <-
    (if include_linked_models then get_all_linkeddocs HOST_APP None
     else Ok []) ;;
  let target_docs :=
    (option_map Document.Grids doc
       :: map (option_map LinkedDocument.Grids) linked)%list in
  Ok (flat_map (fun tdoc => match tdoc with Some g => g | None => [] end)
               target_docs).

(** [GridPoint = namedtuple('GridPoint', ['point', 'grids'])] *)
Record GridPoint (P : Type) : Type := { point : P; grids : list Grid.t }.

(** The inner loop of [get_gridpoints]: [grid1] against the grids left. *)
Fixpoint get_gridpoints_inner (DB : RevitAPI.t) (db : WrapperAPI.t)
    (grid1 : Grid.t) (grids2 : list Grid.t)
    (gints : list (WrapperAPI.XYZPoint db * list Grid.t))
  : result (list (WrapperAPI.XYZPoint db * list Grid.t)) :=
  match grids2 with
  | [] => Ok gints
  | grid2 :: rest =>
      let '(intres, results) :=
        RevitAPI.Curve_Intersect DB (Grid.Curve grid1) (Grid.Curve grid2) in
      if SetComparisonResult_eqb intres Overlap then
        match results with
        | p :: _ =>
            get_gridpoints_inner DB db grid1 rest
              (dict_set (WrapperAPI.XYZPoint_same_key db) gints
                        (WrapperAPI.XYZPoint_new db p) [grid1; grid2])
        | [] => Raise (HostException "ArgumentOutOfRangeException" "index")
        end
      else get_gridpoints_inner DB db grid1 rest gints
  end.

(** The outer loop of [get_gridpoints]. *)
Fixpoint get_gridpoints_outer (DB : RevitAPI.t) (db : WrapperAPI.t)
    (grids1 source_grids : list Grid.t)
    (gints : list (WrapperAPI.XYZPoint db * list Grid.t))
  : result (list (WrapperAPI.XYZPoint db * list Grid.t)) :=
  match grids1 with
  | [] => Ok gints
  | grid1 :: rest =>
      gints' <- get_gridpoints_inner DB db grid1 source_grids gints ;;
      get_gridpoints_outer DB db rest source_grids gints'
  end.

(** [get_gridpoints(grids=None, include_linked_models=False, doc=None)] *)
Definition get_gridpoints (DB : RevitAPI.t) (db : WrapperAPI.t)
    (HOST_APP : HostApp.t) (grids : option (list Grid.t))
    (include_linked_models : bool) (doc : option Document.t)
  : result (list (GridPoint (WrapperAPI.XYZPoint db))) :=
  let doc := doc_or_active doc HOST_APP in
  source_grids <-
    match grids with
    | Some (g :: gs) => Ok (g :: gs)
    | _ => get_all_grids HOST_APP include_linked_models doc
    end ;;
  gints <- get_gridpoints_outer DB db source_grids source_grids [] ;;
  Ok (map (fun kv => {| point := fst kv; grids := snd kv |}) gints).

(** [isinstance(x, (DB.Architecture.Room, DB.Area, DB.Mechanical.Space))] *)
Definition isinstance_spatial (c : element_class) : bool :=
  match c with
  | Cls_Room | Cls_Area | Cls_Space => true
  | _ => false
  end.

(** [is_placed(spatial_element)] *)
Definition is_placed (spatial_element : pyobj) : bool :=
  match spatial_element with
  | Obj_Element e =>
      isinstance_spatial (Element.Class e)
      && SFltb (float_of_int 0) (Element.Area e)
  | _ => false
  end.

(** [get_all_sheeted_views(doc=None, sheets=None)]; the set is listed. *)
Definition get_all_sheeted_views (DB : RevitAPI.t) (HOST_APP : HostApp.t)
    (doc : option Document.t) (sheets : option (list ViewSheet.t))
  : result (list ElementId) :=
  let doc := doc_or_active doc HOST_APP in
  sheets <-
    match sheets with
    | Some (s :: ss) => Ok (s :: ss)
    | _ => get_sheets DB HOST_APP true true doc
    end ;;
  per_sheet <-
    mapM (fun sht =>
            mapM (fun x =>
                    d <- attr doc (fun d => d) ;;
                    attr_ViewId (Document.GetElement d x))
                 (ViewSheet.GetAllViewports sht))
         sheets ;;
  Ok (List.concat per_sheet).

(** [is_view_sheeted(view)], with [view.Document] *)
Definition is_view_sheeted (DB : RevitAPI.t) (HOST_APP : HostApp.t)
    (view_Document : Document.t) (view : Element.t) : result bool :=
  ids <- get_all_sheeted_views DB HOST_APP (Some view_Document) None ;;
  Ok (existsb (Z.eqb (Element.Id view)) ids).

(** [can_refer_other_views(source_view)] *)
Definition can_refer_other_views (source_view : Element.t) : bool :=
  match Element.Class source_view with
  | Cls_ViewDrafting | Cls_ViewPlan | Cls_ViewSection => true
  | _ => false
  end.

(** The loop of [is_referring_to] over the referencing elements left; it
    returns [True] from inside and falls off its end otherwise. *)
Fixpoint is_referring_to_loop (DB : RevitAPI.t) (HOST_APP : HostApp.t)
    (doc : Document.t) (target_viewname : string) (ref_elids : list ElementId)
  : result (option bool) :=
  match ref_elids with
  | [] => Ok None
  | ref_elid :: rest =>
      viewref_el <- attr (Document.GetElement doc ref_elid) element_of ;;
      match Parameter_get viewref_el
                          (RevitAPI.REFERENCE_VIEWER_TARGET_VIEW DB) with
      | Some targetview_param =>
          match Document.GetElement doc (Param.AsElementId targetview_param)
          with
          | Some tvp_view =>
              n <- get_name DB HOST_APP (element_of tvp_view) false ;;
              if String.eqb n target_viewname then Ok (Some true)
              else is_referring_to_loop DB HOST_APP doc target_viewname rest
          | None => is_referring_to_loop DB HOST_APP doc target_viewname rest
          end
      | None =>
          viewref_name <- get_name DB HOST_APP viewref_el false ;;
          if String.eqb viewref_name target_viewname then Ok (Some true)
          else is_referring_to_loop DB HOST_APP doc target_viewname rest
      end
  end.

(** [is_referring_to(source_view, target_view)], with
    [source_view.Document] *)
Definition is_referring_to (DB : RevitAPI.t) (HOST_APP : HostApp.t)
    (source_view_Document : Document.t) (source_view target_view : Element.t)
  : result (option bool) :=
  let doc := source_view_Document in
  target_viewname <- get_name DB HOST_APP target_view false ;;
  if can_refer_other_views source_view then
    ref_elids <-
      get_all_referencing_elements_in_view DB HOST_APP doc source_view ;;
    is_referring_to_loop DB HOST_APP doc target_viewname ref_elids
  else Ok None.

(** [get_family_type(type_name, family_doc)] *)
Definition get_family_type (type_name : string) (family_doc : Document.t)
  : result (option FamilyType.t) :=
  if Document.IsFamilyDocument family_doc then
    Ok (find (fun ftype => String.eqb (FamilyType.Name ftype) type_name)
             (Document.FamilyManager_Types family_doc))
  else Raise (PyRevitException "Document is not a family").

(** [get_family_parameter(param_name, family_doc)] *)
Definition get_family_parameter (param_name : string) (family_doc : Document.t)
  : result (option FamilyParameter.t) :=
  if Document.IsFamilyDocument family_doc then
    Ok (find (fun fparam =>
                String.eqb (FamilyParameter.Definition_Name fparam) param_name)
             (Document.FamilyManager_GetParameters family_doc))
  else Raise (PyRevitException "Document is not a family").

(** ** Notions the properties are stated with *)

(** What the host holds in a parameter, by its storage type: the double,
    the integer, the text or the element id.  A text parameter that was
    never set holds no value; a parameter of storage type [None] holds
    nothing that can be read. *)
Inductive holds (p : Param.t) : pyval -> Prop :=
| holds_double :
    Param.StorageType p = ST_Double -> holds p (PyFloat (Param.AsDouble p))
| holds_integer :
    Param.StorageType p = ST_Integer -> holds p (PyInt (Param.AsInteger p))
| holds_string (s : string) :
    Param.StorageType p = ST_String -> Param.AsString p = Some s ->
    holds p (PyStr s)
| holds_no_string :
    Param.StorageType p = ST_String -> Param.AsString p = None ->
    holds p PyNone
| holds_element_id :
    Param.StorageType p = ST_ElementId ->
    holds p (PyElementId (Param.AsElementId p)).

(** The parameter the host finds on the element under [param_name] holds
    [value]. *)
Definition element_holds (element : Element.t) (param_name : string)
    (value : pyval) : Prop :=
  exists p,
    LookupParameter element (PyStr param_name) = Ok (Some p) /\ holds p value.

(** [x] is the first member of [l] with the property. *)
Definition first_such {A : Type} (P : A -> Prop) (l : list A) (x : A) : Prop :=
  exists before after,
    l = (before ++ x :: after)%list
    /\ P x
    /\ forall y, In y before -> ~ P y.

(** The categories of a document in the order they are searched by name:
    the categories, then the sub-categories of each. *)
Definition categories_and_subcategories (d : Document.t) : list Category.t :=
  (Document.Settings_Categories d
   ++ flat_map Category.SubCategories (Document.Settings_Categories d))%list.

(** Looked up by its name in the document, the category is found again:
    the first category or sub-category of that name has its id. *)
Definition found_by_name (d : Document.t) (c : Category.t) : Prop :=
  exists c',
    first_such (fun x => Category.Name x = Category.Name c)
               (categories_and_subcategories d) c'
    /\ Category.Id c' = Category.Id c.

(** The category of the element is one of the built-in categories: the
    host's [ElementCategoryFilter] of one of them lets the element pass. *)
Definition category_among (element_bicats : list BuiltInCategory)
    (x : Element.t) : bool :=
  existsb (fun bicat => passes_category_filter bicat x) element_bicats.

(** The element is of one of the three spatial classes. *)
Definition spatial (e : Element.t) : Prop :=
  Element.Class e = Cls_Room \/ Element.Class e = Cls_Area
  \/ Element.Class e = Cls_Space.

(** *** The tests of the loops, as the code computes them

    They serve the proofs; the properties are stated with the notions
    above. *)

(** The value [get_param_value] reads off the parameter of [element] named
    [param_name], when the element has one. *)
Definition string_value_of (element : Element.t) (param_name : string)
  : option (result pyval) :=
  match LookupParameter element (PyStr param_name) with
  | Ok (Some p) => Some (get_param_value p)
  | _ => None
  end.

(** Every parameter of that name in the list has a storage type that
    [get_param_value] reads. *)
Definition readable (param_name : string) (elements : list Element.t) : Prop :=
  forall e p,
    In e elements ->
    LookupParameter e (PyStr param_name) = Ok (Some p) ->
    Param.StorageType p <> ST_None.

(** The test one element passes in [get_elements_by_parameter], for a
    string query and a readable parameter. *)
Definition matches_query (param_name q : string) (partial : bool)
    (element : Element.t) : bool :=
  match string_value_of element param_name with
  | Some (Ok value) =>
      match value with
      | PyStr s => (partial && str_contains q s) || String.eqb q s
      | _ => false
      end
  | _ => false
  end.

(** *** Notions of the other properties *)

Definition has_category (x : Element.t) : Prop := Element.Category x <> None.






(** The schedule instance sits on the sheet. *)
Definition on_sheet (viewsheet : ViewSheet.t) (x : ScheduleSheetInstance.t)
  : Prop :=
  ScheduleSheetInstance.OwnerViewId x
  = Element.Id (ViewSheet.AsElement viewsheet).

(** The schedule of the instance is found in the document and is a
    titleblock revision schedule, or is not one. *)
Definition schedule_kind (doc : Document.t) (x : ScheduleSheetInstance.t)
    (revision : bool) : Prop :=
  exists e,
    Document.GetElement doc (ScheduleSheetInstance.ScheduleId x)
    = Some (H_ViewSchedule e revision).

(** The sheet with one more viewport placed on it. *)
Definition with_viewport (viewsheet : ViewSheet.t) (vp : ElementId)
  : ViewSheet.t :=
  {| ViewSheet.AsElement := ViewSheet.AsElement viewsheet;
     ViewSheet.SheetNumber := ViewSheet.SheetNumber viewsheet;
     ViewSheet.IsPlaceholder := ViewSheet.IsPlaceholder viewsheet;
     ViewSheet.GetAllViewports :=
       (vp :: ViewSheet.GetAllViewports viewsheet)%list |}.

(** A returned object is a [bool]. *)
Definition returns_bool {A : Type} `{PyTyped A} (r : result A) : Prop :=
  exists v, r = Ok v /\ type_of v = T_bool.

(** ** Proof automation *)


(** ** A small project to run the helpers on *)

Module Fixture.

Definition zero : Double := S754_zero false.

(** The text of the errors the interpreter raises itself, on the fixture. *)
Definition python_text (e : exn) : string :=
  match e with
  | AttributeError => "'NoneType' object has no attribute"
  | TypeError => "unsupported operand"
  | UnboundLocalError => "local variable referenced before assignment"
  | IndexError => "index out of range"
  | _ => ""
  end.

Definition string_param (n s : string) : Param.t :=
  {| Param.Definition_Name := n; Param.Definition_Id := 0;
     Param.StorageType := ST_String; Param.AsDouble := zero;
     Param.AsInteger := 0; Param.AsString := Some s;
     Param.AsElementId := -1 |}.

Definition integer_param (n : string) (v : Z) : Param.t :=
  {| Param.Definition_Name := n; Param.Definition_Id := 0;
     Param.StorageType := ST_Integer; Param.AsDouble := zero;
     Param.AsInteger := v; Param.AsString := None;
     Param.AsElementId := -1 |}.

(** A parameter of storage type [None]. *)
Definition unset_param (n : string) : Param.t :=
  {| Param.Definition_Name := n; Param.Definition_Id := 0;
     Param.StorageType := ST_None; Param.AsDouble := zero;
     Param.AsInteger := 0; Param.AsString := None;
     Param.AsElementId := -1 |}.

Definition element (id : ElementId) (cls : element_class) (n : string)
    (cat : option Category.t) (params : list Param.t) : Element.t :=
  {| Element.Id := id; Element.Class := cls; Element.Name := n;
     Element.ViewName := n; Element.Category := cat;
     Element.Parameters := params; Element.IsElementType := false;
     Element.Area := zero |}.

Definition OST_Walls : BuiltInCategory := -2000011.
Definition OST_Doors : BuiltInCategory := -2000023.

Definition walls : Category.t := Category.Build "Walls" OST_Walls [].
Definition doors : Category.t := Category.Build "Doors" OST_Doors [].

Definition wall1 : Element.t :=
  element 11 Cls_Element "Basic Wall" (Some walls)
          [string_param "Comments" "north wall"].
Definition wall2 : Element.t :=
  element 12 Cls_Element "Basic Wall" (Some walls)
          [string_param "Comments" "wall"].
Definition door1 : Element.t :=
  element 13 Cls_Element "Single Flush" (Some doors)
          [integer_param "Comments" 7].
Definition door2 : Element.t :=
  element 14 Cls_Element "Single Flush" (Some doors)
          [unset_param "Comments"].

Definition sheet (id : ElementId) (number : string) (vps : list ElementId)
  : ViewSheet.t :=
  {| ViewSheet.AsElement := element id Cls_View number None [];
     ViewSheet.SheetNumber := number; ViewSheet.IsPlaceholder := false;
     ViewSheet.GetAllViewports := vps |}.

Definition sheet_A101 : ViewSheet.t := sheet 100 "A101" [].
Definition sheet_A102 : ViewSheet.t := sheet 101 "A102" [200].

Definition plan : Element.t := element 400 Cls_ViewPlan "Level 1" None [].
Definition section : Element.t := element 401 Cls_ViewSection "Section 1" None [].

Definition level_grid : Workset.t := {| Workset.Name := "Shared Levels and Grids" |}.
Definition workset1 : Workset.t := {| Workset.Name := "Workset1" |}.

Definition fire_rating : InternalDefinition.t :=
  {| InternalDefinition.Name := "Fire Rating"; InternalDefinition.Id := 5001 |}.

Definition doc : Document.t :=
  {| Document.PathName := "C:/models/tower.rvt";
     Document.IsFamilyDocument := false;
     Document.Elements := [wall1; wall2; door1];
     Document.ElementsInView := fun _ => [wall1; door1];
     Document.Sheets := [sheet_A101; sheet_A102];
     Document.ScheduleSheetInstances :=
       [ {| ScheduleSheetInstance.OwnerViewId := 100;
            ScheduleSheetInstance.ScheduleId := 300 |};
         {| ScheduleSheetInstance.OwnerViewId := 101;
            ScheduleSheetInstance.ScheduleId := 301 |} ];
     Document.Worksets := [workset1; level_grid];
     Document.Grids := [];
     Document.LinkDocuments := [];
     Document.GetElement :=
       (fun id =>
          if Z.eqb id 200 then Some (H_Viewport plan 400)
          else if Z.eqb id 300 then Some (H_ViewSchedule plan true)
          else if Z.eqb id 301 then Some (H_ViewSchedule plan false)
          else if Z.eqb id 400 then Some (H_Element plan)
          else None);
     Document.Settings_Categories := [walls; doors];
     Document.ParameterBindings := [(fire_rating, 1)];
     Document.FamilyManager_Types := [];
     Document.FamilyManager_GetParameters := [] |}.

(** The same project, never saved. *)
Definition unsaved_doc : Document.t :=
  {| Document.PathName := "";
     Document.IsFamilyDocument := false;
     Document.Elements := [wall1; door2];
     Document.ElementsInView := fun _ => [];
     Document.Sheets := [];
     Document.ScheduleSheetInstances := [];
     Document.Worksets := [];
     Document.Grids := [];
     Document.LinkDocuments := [];
     Document.GetElement := fun _ => None;
     Document.Settings_Categories := [walls; doors];
     Document.ParameterBindings := [];
     Document.FamilyManager_Types := [];
     Document.FamilyManager_GetParameters := [] |}.

Definition HOST_APP : HostApp.t :=
  {| HostApp.SharedParametersFilename := "";
     HostApp.OpenSharedParameterFile := None;
     HostApp.doc := Some doc;
     HostApp.is_newer_than_2019 := true |}.

(** A shared-parameter file is set but cannot be opened. *)
Definition HOST_APP_badfile : HostApp.t :=
  {| HostApp.SharedParametersFilename := "C:/shared/params.txt";
     HostApp.OpenSharedParameterFile := None;
     HostApp.doc := Some doc;
     HostApp.is_newer_than_2019 := true |}.

Definition xyz (x y : Z) : XYZ.t :=
  {| XYZ.X := float_of_int x; XYZ.Y := float_of_int y; XYZ.Z := zero |}.

Definition grid (n : Z) : Grid.t :=
  {| Grid.Id := 500 + n; Grid.Curve := {| Curve.handle := n |} |}.

(** Three lines: the x axis (1), the y axis (2) and the line through
    (4, 0) and (0, 3) (3). *)
Definition Curve_Intersect (a b : Curve.t)
  : SetComparisonResult * list XYZ.t :=
  let i := Curve.handle a in
  let j := Curve.handle b in
  if Z.eqb i j then (Equal, [])
  else if (Z.eqb i 1 && Z.eqb j 2) || (Z.eqb i 2 && Z.eqb j 1)
       then (Overlap, [xyz 0 0])
  else if (Z.eqb i 1 && Z.eqb j 3) || (Z.eqb i 3 && Z.eqb j 1)
       then (Overlap, [xyz 4 0])
  else if (Z.eqb i 2 && Z.eqb j 3) || (Z.eqb i 3 && Z.eqb j 2)
       then (Overlap, [xyz 0 3])
  else (Disjoint, []).

Definition DB : RevitAPI.t :=
  {| RevitAPI.BuiltInCategory_GetValues :=
       [OST_Walls; OST_Doors; -2000279; -2000198; -2000278];
     RevitAPI.OST_Views := -2000279;
     RevitAPI.OST_ReferenceViewer := -2000198;
     RevitAPI.OST_Viewers := -2000278;
     RevitAPI.VIEW_DESCRIPTION := -1005112;
     RevitAPI.SHEET_SCHEDULED := -1007403;
     RevitAPI.REFERENCE_VIEWER_TARGET_VIEW := -1011002;
     RevitAPI.Curve_Intersect := Curve_Intersect;
     RevitAPI.ConvertUserVisiblePathToModelPath :=
       (fun s => if str_truthy s then Some {| ModelPath.ToString := s |}
                 else None);
     RevitAPI.ReadTransmissionData :=
       (fun _ => Raise (HostException "InvalidOperationException"
                                      "The file is not a valid Revit file.")) |}.

Definition same_point (a b : XYZ.t) : bool :=
  SFeqb (XYZ.X a) (XYZ.X b) && SFeqb (XYZ.Y a) (XYZ.Y b)
  && SFeqb (XYZ.Z a) (XYZ.Z b).

Definition db : WrapperAPI.t :=
  {| WrapperAPI.ProjectParameter := InternalDefinition.t;
     WrapperAPI.ProjectParameter_new := fun k _ _ => k;
     WrapperAPI.name := InternalDefinition.Name;
     WrapperAPI.param_id := InternalDefinition.Id;
     WrapperAPI.ProjectParameter_eq :=
       (fun pp v =>
          match v with
          | PyStr s => String.eqb (InternalDefinition.Name pp) s
          | PyElementId i => Z.eqb (InternalDefinition.Id pp) i
          | _ => false
          end);
     WrapperAPI.ExternalRef := (option host_object * ExternalFileReference.t);
     WrapperAPI.ExternalRef_new := fun link ext_ref => Ok (link, ext_ref);
     WrapperAPI.XYZPoint := XYZ.t;
     WrapperAPI.XYZPoint_new := fun p => p;
     WrapperAPI.XYZPoint_same_key := same_point |}.

End Fixture.

(** ** Views and what refers to them *)

(** [DB.ViewType] *)
Inductive ViewType : Type :=
| VT_Undefined | VT_FloorPlan | VT_CeilingPlan | VT_Elevation | VT_ThreeD
| VT_Schedule | VT_DrawingSheet | VT_ProjectBrowser | VT_Report
| VT_DraftingView | VT_Legend | VT_SystemBrowser | VT_EngineeringPlan
| VT_AreaPlan | VT_Section | VT_Detail | VT_CostReport | VT_LoadsReport
| VT_PresureLossReport | VT_ColumnSchedule | VT_PanelSchedule
| VT_Walkthrough | VT_Rendering | VT_SystemsAnalysisReport | VT_Internal.

Scheme Equality for ViewType.

Definition ViewType_eqb (a b : ViewType) : bool := ViewType_beq a b.

(** [GRAPHICAL_VIEWTYPES] *)
Definition GRAPHICAL_VIEWTYPES : list ViewType :=
  [VT_FloorPlan; VT_CeilingPlan; VT_Elevation; VT_ThreeD; VT_Schedule;
   VT_DrawingSheet; VT_Report; VT_DraftingView; VT_Legend;
   VT_EngineeringPlan; VT_AreaPlan; VT_Section; VT_Detail; VT_CostReport;
   VT_LoadsReport; VT_PresureLossReport; VT_ColumnSchedule;
   VT_PanelSchedule; VT_Walkthrough; VT_Rendering].

(** Members of a view, and of any element, that [Element.t] does not
    carry: they are read off the object. *)
Module ViewAPI.
Record t : Type := {
  ViewType : Element.t -> ViewType;
  IsTemplate : Element.t -> bool;
  ViewSpecific : Element.t -> bool;
  (** [element.Document] *)
  Document : Element.t -> Document.t
}.
End ViewAPI.

(** [x in view_types] *)
Definition in_view_types (t : ViewType) (view_types : list ViewType) : bool :=
  existsb (ViewType_eqb t) view_types.

(** [FilteredElementCollector(doc).OfClass(DB.View)] *)
Definition views_of (d : Document.t) : list Element.t :=
  filter (fun x => isinstance_View (Element.Class x)) (Document.Elements d).

(** [get_all_views(doc=None, view_types=None, include_nongraphical=False)] *)
Definition get_all_views (V : ViewAPI.t) (HOST_APP : HostApp.t)
    (doc : option Document.t) (view_types : option (list ViewType))
    (include_nongraphical : bool) : result (list Element.t) :=
  d <- FilteredElementCollector (doc_or_active doc HOST_APP) ;;
  let all_views :=
    filter (fun x => negb (Element.IsElementType x)) (views_of d) in
  let all_views :=
    match view_types with
    | Some (t :: ts) =>
        filter (fun x => in_view_types (ViewAPI.ViewType V x) (t :: ts))
               all_views
    | _ => all_views
    end in
  if negb include_nongraphical then
    Ok (filter
          (fun x =>
             in_view_types (ViewAPI.ViewType V x) GRAPHICAL_VIEWTYPES
             && negb (ViewAPI.IsTemplate V x)
             && negb (ViewAPI.ViewSpecific V x))
          all_views)
  else Ok all_views.

(** [get_all_view_templates(doc=None, view_types=None)] *)
Definition get_all_view_templates (V : ViewAPI.t) (HOST_APP : HostApp.t)
    (doc : option Document.t) (view_types : option (list ViewType))
  : result (list Element.t) :=
  views <- get_all_views V HOST_APP doc view_types true ;;
  Ok (filter (ViewAPI.IsTemplate V) views).

(** The first element of a list that passes a test which may raise. *)
Fixpoint findM {A : Type} (f : A -> result bool) (l : list A)
  : result (option A) :=
  match l with
  | [] => Ok None
  | x :: l' =>
      b <- f x ;;
      if b then Ok (Some x) else findM f l'
  end.

(** [find_first_legend(doc=None)] *)
Definition find_first_legend (V : ViewAPI.t) (HOST_APP : HostApp.t)
    (doc : option Document.t) : result (option Element.t) :=
  d <- FilteredElementCollector (doc_or_active doc HOST_APP) ;;
  Ok (find (fun view => ViewType_eqb (ViewAPI.ViewType V view) VT_Legend)
           (views_of d)).

(** [get_view_by_name(view_name, doc=None)] *)
Definition get_view_by_name (V : ViewAPI.t) (DB : RevitAPI.t)
    (HOST_APP : HostApp.t) (view_name : string) (doc : option Document.t)
  : result (option Element.t) :=
  let doc := doc_or_active doc HOST_APP in
  views <- get_all_views V HOST_APP doc None false ;;
  findM (fun view =>
           n <- get_name DB HOST_APP view false ;;
           Ok (String.eqb n view_name))
        views.

(** Truth value of what [is_referring_to] returns. *)
Definition truthy_option_bool (v : option bool) : bool :=
  match v with Some b => b | None => false end.

(** The loop of [yield_referring_views]: the ids it yields when drained. *)
Fixpoint yield_referring_views_loop (V : ViewAPI.t) (DB : RevitAPI.t)
    (HOST_APP : HostApp.t) (target_view : Element.t)
    (all_views : list Element.t) : result (list ElementId) :=
  match all_views with
  | [] => Ok []
  | view :: rest =>
      r <- is_referring_to DB HOST_APP (ViewAPI.Document V view) view
                           target_view ;;
      ids <- yield_referring_views_loop V DB HOST_APP target_view rest ;;
      Ok (if truthy_option_bool r then Element.Id view :: ids else ids)
  end.

(** The same loop stopped at its first [yield]:
    [next(yield_referring_views(view), None)]. *)
Fixpoint next_referring_view (V : ViewAPI.t) (DB : RevitAPI.t)
    (HOST_APP : HostApp.t) (target_view : Element.t)
    (all_views : list Element.t) : result (option ElementId) :=
  match all_views with
  | [] => Ok None
  | view :: rest =>
      r <- is_referring_to DB HOST_APP (ViewAPI.Document V view) view
                           target_view ;;
      if truthy_option_bool r then Ok (Some (Element.Id view))
      else next_referring_view V DB HOST_APP target_view rest
  end.

(** [all_views or get_all_views(doc=target_view.Document)] *)
Definition views_or_all (V : ViewAPI.t) (HOST_APP : HostApp.t)
    (all_views : option (list Element.t)) (doc : option Document.t)
  : result (list Element.t) :=
  match all_views with
  | Some (v :: vs) => Ok (v :: vs)
  | _ => get_all_views V HOST_APP doc None false
  end.

(** [yield_referring_views(target_view, all_views=None)], drained. *)
Definition yield_referring_views (V : ViewAPI.t) (DB : RevitAPI.t)
    (HOST_APP : HostApp.t) (target_view : Element.t)
    (all_views : option (list Element.t)) : result (list ElementId) :=
  views <- views_or_all V HOST_APP all_views
             (Some (ViewAPI.Document V target_view)) ;;
  yield_referring_views_loop V DB HOST_APP target_view views.

(** The loop of [yield_referenced_views]. *)
Fixpoint yield_referenced_views_loop (V : ViewAPI.t) (DB : RevitAPI.t)
    (HOST_APP : HostApp.t) (all_views : list Element.t)
  : result (list ElementId) :=
  match all_views with
  | [] => Ok []
  | view :: rest =>
      candidates <- views_or_all V HOST_APP None
                      (Some (ViewAPI.Document V view)) ;;
      first <- next_referring_view V DB HOST_APP view candidates ;;
      ids <- yield_referenced_views_loop V DB HOST_APP rest ;;
      Ok (match first with
          | Some _ => Element.Id view :: ids
          | None => ids
          end)
  end.

(** [yield_referenced_views(doc=None, all_views=None)], drained. *)
Definition yield_referenced_views (V : ViewAPI.t) (DB : RevitAPI.t)
    (HOST_APP : HostApp.t) (doc : option Document.t)
    (all_views : option (list Element.t)) : result (list ElementId) :=
  let doc := doc_or_active doc HOST_APP in
  views <- views_or_all V HOST_APP all_views doc ;;
  yield_referenced_views_loop V DB HOST_APP views.

(** The loop of [yield_unreferenced_views]. *)
Fixpoint yield_unreferenced_views_loop (V : ViewAPI.t) (DB : RevitAPI.t)
    (HOST_APP : HostApp.t) (all_views : list Element.t)
  : result (list ElementId) :=
  match all_views with
  | [] => Ok []
  | view :: rest =>
      referring <- yield_referring_views V DB HOST_APP view None ;;
      ids <- yield_unreferenced_views_loop V DB HOST_APP rest ;;
      Ok (if Nat.eqb (List.length referring) 0 then Element.Id view :: ids
          else ids)
  end.

(** [yield_unreferenced_views(doc=None, all_views=None)], drained. *)
Definition yield_unreferenced_views (V : ViewAPI.t) (DB : RevitAPI.t)
    (HOST_APP : HostApp.t) (doc : option Document.t)
    (all_views : option (list Element.t)) : result (list ElementId) :=
  let doc := doc_or_active doc HOST_APP in
  views <- views_or_all V HOST_APP all_views doc ;;
  yield_unreferenced_views_loop V DB HOST_APP views.

(** ** Sheet references *)

(** More built-in parameter ids of [DB.BuiltInParameter]. *)
Module BuiltInParameters.
Record t : Type := {
  VIEWPORT_DETAIL_NUMBER : BuiltInParameter;
  VIEWPORT_SHEET_NUMBER : BuiltInParameter;
  VIEWPORT_SHEET_NAME : BuiltInParameter;
  VIEW_REFERENCING_SHEET : BuiltInParameter;
  VIEW_REFERENCING_DETAIL : BuiltInParameter
}.
End BuiltInParameters.

(** What [AsString()] returns, as a Python value. *)
Definition pyval_of_string (s : option string) : pyval :=
  match s with Some s => PyStr s | None => PyNone end.

(** [element.Parameter[bip].AsString()] *)
Definition Parameter_AsString (element : Element.t) (bip : BuiltInParameter)
  : result (option string) :=
  attr (Parameter_get element bip) Param.AsString.

(** The loop of [get_viewport_by_number] over the viewports left. *)
Fixpoint get_viewport_by_number_loop (BIP : BuiltInParameters.t)
    (detail_num : pyval) (vps : list (option host_object))
  : result (option host_object) :=
  match vps with
  | [] => Ok None
  | vp :: rest =>
      e <- attr vp element_of ;;
      det_num <- Parameter_AsString e
                   (BuiltInParameters.VIEWPORT_DETAIL_NUMBER BIP) ;;
      if py_eq (pyval_of_string det_num) detail_num then Ok vp
      else get_viewport_by_number_loop BIP detail_num rest
  end.

(** [get_viewport_by_number(sheet_num, detail_num, doc=None)] *)
Definition get_viewport_by_number (BIP : BuiltInParameters.t)
    (DB : RevitAPI.t) (HOST_APP : HostApp.t) (sheet_num detail_num : pyval)
    (doc : option Document.t) : result (option host_object) :=
  let doc := doc_or_active doc HOST_APP in
  sheet <- get_sheet_by_number DB HOST_APP sheet_num doc ;;
  match sheet with
  | Some sheet =>
      vps <- mapM (fun x => attr doc (fun d => Document.GetElement d x))
                  (ViewSheet.GetAllViewports sheet) ;;
      get_viewport_by_number_loop BIP detail_num vps
  | None => Ok None
  end.

(** [get_view_by_sheetref(sheet_num, detail_num, doc=None)] *)
Definition get_view_by_sheetref (BIP : BuiltInParameters.t)
    (DB : RevitAPI.t) (HOST_APP : HostApp.t) (sheet_num detail_num : pyval)
    (doc : option Document.t) : result (option ElementId) :=
  let doc := doc_or_active doc HOST_APP in
  vport <- get_viewport_by_number BIP DB HOST_APP sheet_num detail_num doc ;;
  match vport with
  | Some vport =>
      id <- attr_ViewId (Some vport) ;;
      Ok (Some id)
  | None => Ok None
  end.

(** [SheetRefInfo = namedtuple('SheetRefInfo', ['sheet_num', 'sheet_name',
    'detail_num', 'ref_viewid'])] *)
Record SheetRefInfo : Type := {
  sheet_num : string;
  sheet_name : option string;
  detail_num : option string;
  ref_viewid : option ElementId
}.

(** [get_view_sheetrefinfo(view)] *)
Definition get_view_sheetrefinfo (BIP : BuiltInParameters.t)
    (DB : RevitAPI.t) (HOST_APP : HostApp.t) (view : Element.t)
  : result (option SheetRefInfo) :=
  sheet_num <- Parameter_AsString view
                 (BuiltInParameters.VIEWPORT_SHEET_NUMBER BIP) ;;
  sheet_name <- Parameter_AsString view
                  (BuiltInParameters.VIEWPORT_SHEET_NAME BIP) ;;
  detail_num <- Parameter_AsString view
                  (BuiltInParameters.VIEWPORT_DETAIL_NUMBER BIP) ;;
  match sheet_num with
  | Some (String c s) =>
      Ok (Some {| sheet_num := String c s; sheet_name := sheet_name;
                  detail_num := detail_num; ref_viewid := None |})
  | _ =>
      ref_sheet_num <- Parameter_AsString view
                         (BuiltInParameters.VIEW_REFERENCING_SHEET BIP) ;;
      ref_sheet <- get_sheet_by_number DB HOST_APP
                     (pyval_of_string ref_sheet_num) None ;;
      ref_sheet_name <-
        match ref_sheet with
        | Some ref_sheet =>
            n <- get_name DB HOST_APP (ViewSheet.AsElement ref_sheet) false ;;
            Ok (Some n)
        | None => Ok (Some "")
        end ;;
      ref_detail_num <- Parameter_AsString view
                          (BuiltInParameters.VIEW_REFERENCING_DETAIL BIP) ;;
      match ref_sheet_num with
      | Some (String c s) =>
          id <- get_view_by_sheetref BIP DB HOST_APP
                  (PyStr (String c s)) (pyval_of_string ref_detail_num)
                  None ;;
          Ok (Some {| sheet_num := String c s; sheet_name := ref_sheet_name;
                      detail_num := ref_detail_num; ref_viewid := id |})
      | _ => Ok None
      end
  end.

(** ** The closest grid point *)

(** What the helper asks of the point wrapper and of the host geometry. *)
Module GeometryAPI.
Record t (P : Type) : Type := {
  (** [XYZPoint.unwrap()] *)
  unwrap : P -> XYZ.t;
  (** [a.DistanceTo(b)] *)
  DistanceTo : XYZ.t -> XYZ.t -> Double;
  (** [element.Location.Point] *)
  Location_Point : Element.t -> XYZ.t
}.
End GeometryAPI.

(** [grid_point.point.unwrap().DistanceTo(element.Location.Point)] *)
Definition distance_to {P : Type} (G : GeometryAPI.t P) (element : Element.t)
    (grid_point : GridPoint P) : Double :=
  GeometryAPI.DistanceTo G (GeometryAPI.unwrap G (point grid_point))
                         (GeometryAPI.Location_Point G element).

(** The loop of [get_closest_gridpoint], with [dist] as held so far. *)
Fixpoint get_closest_gridpoint_loop {P : Type} (G : GeometryAPI.t P)
    (element : Element.t) (gridpoints : list (GridPoint P))
    (dist : Double * GridPoint P) : Double * GridPoint P :=
  match gridpoints with
  | [] => dist
  | grid_point :: rest =>
      let gp_dist := distance_to G element grid_point in
      if SFltb gp_dist (fst dist) then
        get_closest_gridpoint_loop G element rest (gp_dist, grid_point)
      else get_closest_gridpoint_loop G element rest dist
  end.

(** [get_closest_gridpoint(element, gridpoints)] *)
Definition get_closest_gridpoint {P : Type} (G : GeometryAPI.t P)
    (element : Element.t) (gridpoints : list (GridPoint P))
  : result (GridPoint P) :=
  match gridpoints with
  | [] => Raise IndexError
  | first :: _ =>
      let dist := (distance_to G element first, first) in
      Ok (snd (get_closest_gridpoint_loop G element gridpoints dist))
  end.

(** ** Categories of elements, sub-categories *)

(** [get_element_categories(elements)]: the dictionary from category name
    to category, then its value for each of its keys.  The keys come in
    the order of the dictionary here; a set gives them in any order. *)
Definition get_element_categories (elements : list Element.t)
  : result (list Category.t) :=
  cats <- mapM (fun x => attr (Element.Category x) (fun c => c)) elements ;;
  let catsdict :=
    fold_left (fun d c => dict_set String.eqb d (Category.Name c) c) cats []
  in
  let uniquenames := map fst catsdict in
  mapM (fun x =>
          match dict_get String.eqb catsdict x with
          | Some c => Ok c
          | None => Raise (HostException "KeyError" x)
          end)
       uniquenames.

(** [get_subcategories(doc=None, purgable=False, filterfunc=None)] *)
Definition get_subcategories (HOST_APP : HostApp.t) (doc : option Document.t)
    (purgable : bool) (filterfunc : option (Category.t -> bool))
  : result (list Category.t) :=
  cats <- attr (doc_or_active doc HOST_APP) Document.Settings_Categories ;;
  let subcategories :=
    flat_map
      (fun cat =>
         filter (fun subcat =>
                   if purgable then Z.ltb 1 (Category.Id subcat) else true)
                (Category.SubCategories cat))
      cats in
  match filterfunc with
  | Some f => Ok (filter f subcategories)
  | None => Ok subcategories
  end.

(** The loop of [get_subcategory] over the categories left. *)
Fixpoint get_subcategory_loop (category_name subcategory_name : string)
    (cats : list Category.t) : option Category.t :=
  match cats with
  | [] => None
  | cat :: rest =>
      if String.eqb (Category.Name cat) category_name then
        match find (fun subcat =>
                      String.eqb (Category.Name subcat) subcategory_name)
                   (Category.SubCategories cat) with
        | Some subcat => Some subcat
        | None => get_subcategory_loop category_name subcategory_name rest
        end
      else get_subcategory_loop category_name subcategory_name rest
  end.

(** [get_subcategory(category_name, subcategory_name, doc=None)] *)
Definition get_subcategory (HOST_APP : HostApp.t)
    (category_name subcategory_name : string) (doc : option Document.t)
  : result (option Category.t) :=
  cats <- attr (doc_or_active doc HOST_APP) Document.Settings_Categories ;;
  Ok (get_subcategory_loop category_name subcategory_name cats).

(** ** Schedule fields and filters *)

Module ScheduleField.
Record t : Type := { GetName : string; FieldId : Z }.
End ScheduleField.

Module ScheduleFilter.
Record t : Type := { FieldId : Z; GetStringValue : string }.
End ScheduleFilter.

(** [schedule.Definition] *)
Module ScheduleDefinition.
Record t : Type := {
  GetFieldOrder : list Z;
  GetField : Z -> ScheduleField.t;
  GetFilters : list ScheduleFilter.t
}.
End ScheduleDefinition.

(** [get_schedule_field(schedule, field_name)] *)
Definition get_schedule_field (schedule : ScheduleDefinition.t)
    (field_name : string) : option ScheduleField.t :=
  find (fun field => String.eqb (ScheduleField.GetName field) field_name)
       (map (ScheduleDefinition.GetField schedule)
            (ScheduleDefinition.GetFieldOrder schedule)).

(** What [get_schedule_filters] collects: an index or a filter. *)
Inductive index_or_filter : Type :=
| Index (idx : nat)
| Filter (sfilter : ScheduleFilter.t).

(** The loop of [get_schedule_filters] over [enumerate(filters)], from
    index [idx] on. *)
Fixpoint get_schedule_filters_loop (field : ScheduleField.t)
    (return_index : bool) (idx : nat) (filters : list ScheduleFilter.t)
  : list index_or_filter :=
  match filters with
  | [] => []
  | sfilter :: rest =>
      if Z.eqb (ScheduleFilter.FieldId sfilter) (ScheduleField.FieldId field)
      then
        (if return_index then Index idx else Filter sfilter)
          :: get_schedule_filters_loop field return_index (S idx) rest
      else get_schedule_filters_loop field return_index (S idx) rest
  end.

(** [get_schedule_filters(schedule, field_name, return_index=False)] *)
Definition get_schedule_filters (schedule : ScheduleDefinition.t)
    (field_name : string) (return_index : bool) : list index_or_filter :=
  match get_schedule_field schedule field_name with
  | Some field =>
      get_schedule_filters_loop field return_index 0
        (ScheduleDefinition.GetFilters schedule)
  | None => []
  end.

(** ** The range of a parameter's values *)

(** [c.lower()] and [s.lower()] on the letters A to Z. *)
Definition lower_ascii (c : ascii) : ascii :=
  let n := nat_of_ascii c in
  if (Nat.leb 65 n && Nat.leb n 90)%bool then ascii_of_nat (n + 32) else c.

Fixpoint lower (s : string) : string :=
  match s with
  | EmptyString => EmptyString
  | String c s' => String (lower_ascii c) (lower s')
  end.

(** [s.isspace()]: not empty, and blanks only. *)
Definition is_blank (c : ascii) : bool :=
  let n := nat_of_ascii c in
  (Nat.eqb n 32 || (Nat.leb 9 n && Nat.leb n 13))%bool.

Fixpoint all_blank (s : string) : bool :=
  match s with
  | EmptyString => true
  | String c s' => is_blank c && all_blank s'
  end.

Definition isspace (s : string) : bool :=
  match s with
  | EmptyString => false
  | _ => all_blank s
  end.

(** [values.add(value)] *)
Definition set_add (values : list pyval) (value : pyval) : list pyval :=
  if existsb (fun v => py_eq v value) values then values
  else (values ++ [value])%list.

(** The loop of [get_value_range]; [safe_strtype] is the conversion to
    text of [pyrevit.compat]. *)
Fixpoint get_value_range_loop (safe_strtype : pyval -> string)
    (param_name : pyval) (elements : list Element.t) (values : list pyval)
  : result (list pyval) :=
  match elements with
  | [] => Ok values
  | element :: rest =>
      targetparam <- LookupParameter element param_name ;;
      match targetparam with
      | Some targetparam =>
          value <- get_param_value targetparam ;;
          if negb (is_None value)
             && negb (String.eqb (lower (safe_strtype value)) "none")
          then
            if isinstance_str value
               && negb (match value with PyStr s => isspace s | _ => false end)
            then get_value_range_loop safe_strtype param_name rest
                   (set_add values value)
            else get_value_range_loop safe_strtype param_name rest
                   (set_add values value)
          else get_value_range_loop safe_strtype param_name rest values
      | None => get_value_range_loop safe_strtype param_name rest values
      end
  end.

(** [get_value_range(param_name, doc=None)] *)
Definition get_value_range (safe_strtype : pyval -> string)
    (HOST_APP : HostApp.t) (param_name : pyval) (doc : option Document.t)
  : result (list pyval) :=
  elements <- get_all_elements HOST_APP doc ;;
  get_value_range_loop safe_strtype param_name elements [].

(** ** Elements by the value of a project parameter *)

(** [ElementParameterFilter] over a [FilterStringRule] with
    [FilterStringEquals], case-sensitive, inverted or not: whether the
    host lets an element pass. *)
Definition string_rule_filter : Type :=
  ElementId -> pyval -> bool -> Element.t -> bool.

(** An [ElementId] object is true. *)
Definition ElementId_truthy (id : ElementId) : bool := true.

(** [get_elements_by_param_value(param_name, param_value, inverse=False,
    doc=None)] *)
Definition get_elements_by_param_value (passes : string_rule_filter)
    (db : WrapperAPI.t) (HOST_APP : HostApp.t) (param_name : string)
    (param_value : pyval) (inverse : bool) (doc : option Document.t)
  : result (list Element.t) :=
  let doc := doc_or_active doc HOST_APP in
  param_id <- get_project_parameter_id db HOST_APP param_name ;;
  if ElementId_truthy param_id then
    d <- FilteredElementCollector doc ;;
    Ok (filter (passes param_id param_value inverse) (Document.Elements d))
  else Ok [].

(** ** More proof automation *)

(** Split on every comparison of exponents and mantissas in sight. *)
Ltac compare_cases :=
  repeat match goal with
         | |- context [Z.compare ?x ?y] => destruct (Z.compare_spec x y)
         | H : context [Z.compare ?x ?y] |- _ => destruct (Z.compare_spec x y)
         | |- context [Pos.compare_cont Eq ?x ?y] =>
             change (Pos.compare_cont Eq x y) with (Pos.compare x y);
             destruct (Pos.compare_spec x y)
         | H : context [Pos.compare_cont Eq ?x ?y] |- _ =>
             change (Pos.compare_cont Eq x y) with (Pos.compare x y) in H;
             destruct (Pos.compare_spec x y)
         end.

(** ** More notions the properties are stated with *)

(** The element has a parameter of that name whose value equals the
    query. *)
Definition exact_match (param_name : string) (param_value : pyval)
    (element : Element.t) : bool :=
  match string_value_of element param_name with
  | Some (Ok value) => py_eq param_value value
  | _ => false
  end.

(** The shared definition a project parameter named [n] is paired with:
    the last one of that name in the file. *)
Definition last_named (n : string) (defs : list ExternalDefinition.t)
  : option ExternalDefinition.t :=
  find (fun x => String.eqb (ExternalDefinition.Name x) n) (rev defs).

(** The viewport with that id shows the view with id [view_id]. *)
Definition viewport_shows (d : Document.t) (vp view_id : ElementId) : Prop :=
  exists e, Document.GetElement d vp = Some (H_Viewport e view_id).

(** Every viewport id of every sheet is a viewport of the document. *)
Definition viewports_resolve (d : Document.t) : Prop :=
  forall sht vp,
    In sht (Document.Sheets d) ->
    In vp (ViewSheet.GetAllViewports sht) ->
    exists view_id, viewport_shows d vp view_id.

(** The two grids of a grid point overlap, both are among [source], and
    the point is the key their first intersection point was stored under. *)
Definition crossing_of (DB : RevitAPI.t) (db : WrapperAPI.t)
    (source : list Grid.t) (k : WrapperAPI.XYZPoint db) (v : list Grid.t)
  : Prop :=
  exists ga gb p rest,
    In ga source /\ In gb source /\ v = [ga; gb]
    /\ RevitAPI.Curve_Intersect DB (Grid.Curve ga) (Grid.Curve gb)
       = (Overlap, (p :: rest)%list)
    /\ (k = WrapperAPI.XYZPoint_new db p
        \/ WrapperAPI.XYZPoint_same_key db k (WrapperAPI.XYZPoint_new db p)
           = true).

(** The value passes the test of [get_value_range]: it is not [None] and
    its text is not "none" in any case of letters. *)
Definition in_range (safe_strtype : pyval -> string) (value : pyval) : Prop :=
  value <> PyNone /\ lower (safe_strtype value) <> "none".

(** The reference passes the test of [get_links]: no link type is asked
    for, the one asked for is false as a condition, or it is the type of
    the reference. *)
Definition wanted_link (linktype : option Z) (ext_ref : ExternalFileReference.t)
  : bool :=
  match linktype with
  | Some lt =>
      negb (enum_truthy lt)
      || Z.eqb (ExternalFileReference.ExternalFileReferenceType ext_ref) lt
  | None => true
  end.

(** The host reads the reference and, when it passes the link-type test,
    the wrapper accepts it. *)
Definition reference_read (db : WrapperAPI.t) (d : Document.t)
    (trans_data : TransmissionData.t) (linktype : option Z)
    (ref_id : ElementId) : Prop :=
  exists ext_ref,
    TransmissionData.GetLastSavedReferenceData trans_data ref_id = Ok ext_ref
    /\ (wanted_link linktype ext_ref = true ->
        exists r,
          WrapperAPI.ExternalRef_new db (Document.GetElement d ref_id) ext_ref
          = Ok r).

(** The host fails with [h] while the links of the model at [model_path]
    are read: reading the transmission data fails, or listing its
    references, or, the references before it having been read, reading or
    wrapping one of them. *)
Inductive host_failure (DB : RevitAPI.t) (db : WrapperAPI.t) (d : Document.t)
    (model_path : ModelPath.t) (linktype : option Z) (h : exn) : Prop :=
| fails_reading :
    RevitAPI.ReadTransmissionData DB model_path = Raise h ->
    host_failure DB db d model_path linktype h
| fails_listing (trans_data : TransmissionData.t) :
    RevitAPI.ReadTransmissionData DB model_path = Ok (Some trans_data) ->
    TransmissionData.GetAllExternalFileReferenceIds trans_data = Raise h ->
    host_failure DB db d model_path linktype h
| fails_at_reference (trans_data : TransmissionData.t)
    (before : list ElementId) (ref_id : ElementId) (after : list ElementId) :
    RevitAPI.ReadTransmissionData DB model_path = Ok (Some trans_data) ->
    TransmissionData.GetAllExternalFileReferenceIds trans_data
    = Ok (before ++ ref_id :: after)%list ->
    Forall (reference_read db d trans_data linktype) before ->
    TransmissionData.GetLastSavedReferenceData trans_data ref_id = Raise h
    \/ (exists ext_ref,
          TransmissionData.GetLastSavedReferenceData trans_data ref_id
          = Ok ext_ref
          /\ wanted_link linktype ext_ref = true
          /\ WrapperAPI.ExternalRef_new db (Document.GetElement d ref_id)
               ext_ref = Raise h) ->
    host_failure DB db d model_path linktype h.

(** The workset is the one asked for: its name contains the query, or is
    equal to it. *)
Definition workset_named (n : string) (partial : bool) (x : Workset.t) : Prop :=
  if partial then is_substring n (Workset.Name x) else Workset.Name x = n.

(** Some viewport of some sheet of the document shows the view. *)
Definition sheeted (d : Document.t) (view : Element.t) : Prop :=
  exists sht vp,
    In sht (Document.Sheets d)
    /\ In vp (ViewSheet.GetAllViewports sht)
    /\ viewport_shows d vp (Element.Id view).

(** The sheet carries nothing: no viewport, and no schedule but titleblock
    revision schedules. *)
Definition bare (d : Document.t) (viewsheet : ViewSheet.t) : Prop :=
  ViewSheet.GetAllViewports viewsheet = []
  /\ forall x, In x (Document.ScheduleSheetInstances d) ->
               on_sheet viewsheet x -> schedule_kind d x true.

(** ** More of the small project *)

Module FixtureMore.

Definition template : Element.t :=
  Fixture.element 402 Cls_ViewPlan "Plan Template" None [].
Definition legend : Element.t :=
  Fixture.element 403 Cls_View "Door Legend" None [].
Definition browser : Element.t :=
  Fixture.element 404 Cls_View "Project View" None [].

(** The project of [Fixture.doc] with its views among the elements. *)
Definition doc : Document.t :=
  {| Document.PathName := Document.PathName Fixture.doc;
     Document.IsFamilyDocument := false;
     Document.Elements :=
       [Fixture.wall1; Fixture.plan; template; Fixture.section; legend;
        browser];
     Document.ElementsInView := Document.ElementsInView Fixture.doc;
     Document.Sheets := Document.Sheets Fixture.doc;
     Document.ScheduleSheetInstances :=
       Document.ScheduleSheetInstances Fixture.doc;
     Document.Worksets := Document.Worksets Fixture.doc;
     Document.Grids := [];
     Document.LinkDocuments := [];
     Document.GetElement := Document.GetElement Fixture.doc;
     Document.Settings_Categories := Document.Settings_Categories Fixture.doc;
     Document.ParameterBindings := Document.ParameterBindings Fixture.doc;
     Document.FamilyManager_Types := [];
     Document.FamilyManager_GetParameters := [] |}.

Definition HOST_APP : HostApp.t :=
  {| HostApp.SharedParametersFilename := "";
     HostApp.OpenSharedParameterFile := None;
     HostApp.doc := Some doc;
     HostApp.is_newer_than_2019 := true |}.

Definition V : ViewAPI.t :=
  {| ViewAPI.ViewType :=
       (fun x =>
          if Z.eqb (Element.Id x) 401 then VT_Section
          else if Z.eqb (Element.Id x) 403 then VT_Legend
          else if Z.eqb (Element.Id x) 404 then VT_ProjectBrowser
          else VT_FloorPlan);
     ViewAPI.IsTemplate := fun x => Z.eqb (Element.Id x) 402;
     ViewAPI.ViewSpecific := fun _ => false;
     ViewAPI.Document := fun _ => doc |}.

Definition levels : Workset.t := {| Workset.Name := "Levels" |}.

(** A workshared project with two worksets whose names overlap. *)
Definition shared_doc : Document.t :=
  {| Document.PathName := "C:/models/shared.rvt";
     Document.IsFamilyDocument := false;
     Document.Elements := [];
     Document.ElementsInView := fun _ => [];
     Document.Sheets := [];
     Document.ScheduleSheetInstances := [];
     Document.Worksets := [Fixture.level_grid; levels];
     Document.Grids := [];
     Document.LinkDocuments := [];
     Document.GetElement := fun _ => None;
     Document.Settings_Categories := [];
     Document.ParameterBindings := [];
     Document.FamilyManager_Types := [];
     Document.FamilyManager_GetParameters := [] |}.

Definition shared (n guid : string) : ExternalDefinition.t :=
  {| ExternalDefinition.Name := n; ExternalDefinition.GUID := guid |}.

(** A shared-parameter file that defines "Fire Rating" twice. *)
Definition HOST_APP_shared : HostApp.t :=
  {| HostApp.SharedParametersFilename := "C:/shared/params.txt";
     HostApp.OpenSharedParameterFile :=
       Some {| DefinitionFile.Groups :=
                 [ [shared "Fire Rating" "guid-1"; shared "Acoustic" "guid-2"];
                   [shared "Fire Rating" "guid-3"] ] |};
     HostApp.doc := Some Fixture.doc;
     HostApp.is_newer_than_2019 := true |}.

(** A wrapper that keeps what it was built from. *)
Definition db : WrapperAPI.t :=
  {| WrapperAPI.ProjectParameter :=
       (InternalDefinition.t * option ExternalDefinition.t)%type;
     WrapperAPI.ProjectParameter_new := fun k _ ext => (k, ext);
     WrapperAPI.name := fun pp => InternalDefinition.Name (fst pp);
     WrapperAPI.param_id := fun pp => InternalDefinition.Id (fst pp);
     WrapperAPI.ProjectParameter_eq :=
       (fun pp v =>
          match v with
          | PyStr s => String.eqb (InternalDefinition.Name (fst pp)) s
          | PyElementId i => Z.eqb (InternalDefinition.Id (fst pp)) i
          | _ => false
          end);
     WrapperAPI.ExternalRef := WrapperAPI.ExternalRef Fixture.db;
     WrapperAPI.ExternalRef_new := WrapperAPI.ExternalRef_new Fixture.db;
     WrapperAPI.XYZPoint := XYZ.t;
     WrapperAPI.XYZPoint_new := fun p => p;
     WrapperAPI.XYZPoint_same_key := Fixture.same_point |}.

(** A family document. *)
Definition family_doc : Document.t :=
  {| Document.PathName := "C:/families/door.rfa";
     Document.IsFamilyDocument := true;
     Document.Elements := [];
     Document.ElementsInView := fun _ => [];
     Document.Sheets := [];
     Document.ScheduleSheetInstances := [];
     Document.Worksets := [];
     Document.Grids := [];
     Document.LinkDocuments := [];
     Document.GetElement := fun _ => None;
     Document.Settings_Categories := [];
     Document.ParameterBindings := [(Fixture.fire_rating, 1)];
     Document.FamilyManager_Types :=
       [ {| FamilyType.Name := "900 x 2100" |};
         {| FamilyType.Name := "800 x 2100" |} ];
     Document.FamilyManager_GetParameters :=
       [ {| FamilyParameter.Definition_Name := "Width" |} ] |}.

Definition HOST_APP_family : HostApp.t :=
  {| HostApp.SharedParametersFilename := "";
     HostApp.OpenSharedParameterFile := None;
     HostApp.doc := Some family_doc;
     HostApp.is_newer_than_2019 := true |}.

Definition BIP : BuiltInParameters.t :=
  {| BuiltInParameters.VIEWPORT_DETAIL_NUMBER := -1015015;
     BuiltInParameters.VIEWPORT_SHEET_NUMBER := -1015017;
     BuiltInParameters.VIEWPORT_SHEET_NAME := -1015018;
     BuiltInParameters.VIEW_REFERENCING_SHEET := -1005130;
     BuiltInParameters.VIEW_REFERENCING_DETAIL := -1005131 |}.

Definition builtin_string (bip : BuiltInParameter) (s : option string)
  : Param.t :=
  {| Param.Definition_Name := ""; Param.Definition_Id := bip;
     Param.StorageType := ST_String; Param.AsDouble := Fixture.zero;
     Param.AsInteger := 0; Param.AsString := s;
     Param.AsElementId := -1 |}.

(** The five strings a view carries about its place on a sheet. *)
Definition sheet_strings (number name detail ref_sheet ref_detail : option string)
  : list Param.t :=
  [builtin_string (BuiltInParameters.VIEWPORT_SHEET_NUMBER BIP) number;
   builtin_string (BuiltInParameters.VIEWPORT_SHEET_NAME BIP) name;
   builtin_string (BuiltInParameters.VIEWPORT_DETAIL_NUMBER BIP) detail;
   builtin_string (BuiltInParameters.VIEW_REFERENCING_SHEET BIP) ref_sheet;
   builtin_string (BuiltInParameters.VIEW_REFERENCING_DETAIL BIP) ref_detail].

(** A plan placed as detail 3 on sheet A201, a section referenced from
    there, a callout referenced from a sheet that is not in the project. *)
Definition placed_plan : Element.t :=
  Fixture.element 410 Cls_ViewPlan "Level 2"  None
    (sheet_strings (Some "A201") (Some "Plans") (Some "3") None None).
Definition referenced_section : Element.t :=
  Fixture.element 411 Cls_ViewSection "Section 2" None
    (sheet_strings (Some "") None None (Some "A201") (Some "3")).
Definition dangling_callout : Element.t :=
  Fixture.element 412 Cls_ViewSection "Callout" None
    (sheet_strings None None None (Some "A900") (Some "1")).
Definition loose_view : Element.t :=
  Fixture.element 413 Cls_ViewPlan "Working" None
    (sheet_strings None None None None None).

Definition viewport_210 : Element.t :=
  Fixture.element 210 Cls_Element "Viewport" None
    [builtin_string (BuiltInParameters.VIEWPORT_DETAIL_NUMBER BIP) (Some "3")].

Definition sheet_A201 : ViewSheet.t := Fixture.sheet 110 "A201" [210].

Definition sheets_doc : Document.t :=
  {| Document.PathName := "C:/models/sheets.rvt";
     Document.IsFamilyDocument := false;
     Document.Elements := [placed_plan; referenced_section];
     Document.ElementsInView := fun _ => [];
     Document.Sheets := [sheet_A201];
     Document.ScheduleSheetInstances := [];
     Document.Worksets := [];
     Document.Grids := [];
     Document.LinkDocuments := [];
     Document.GetElement :=
       (fun id => if Z.eqb id 210 then Some (H_Viewport viewport_210 410)
                  else None);
     Document.Settings_Categories := [];
     Document.ParameterBindings := [];
     Document.FamilyManager_Types := [];
     Document.FamilyManager_GetParameters := [] |}.

Definition HOST_APP_sheets : HostApp.t :=
  {| HostApp.SharedParametersFilename := "";
     HostApp.OpenSharedParameterFile := None;
     HostApp.doc := Some sheets_doc;
     HostApp.is_newer_than_2019 := true |}.

(** Distances on the x axis: the point wrapper is the point, the distance
    is the difference of the x coordinates as the host would report it. *)
Definition G : GeometryAPI.t XYZ.t :=
  {| GeometryAPI.unwrap := fun p => p;
     GeometryAPI.DistanceTo :=
       (fun a b => SFabs (SFsub 53 1024 (XYZ.X a) (XYZ.X b)));
     GeometryAPI.Location_Point := fun _ => Fixture.xyz 3 0 |}.

Definition gridpoint (x : Z) : GridPoint XYZ.t :=
  {| point := Fixture.xyz x 0; grids := [] |}.

(** A door schedule with three fields and three filters, two of them on
    the field "Level". *)
Definition door_schedule : ScheduleDefinition.t :=
  {| ScheduleDefinition.GetFieldOrder := [1; 2; 3];
     ScheduleDefinition.GetField :=
       (fun i =>
          {| ScheduleField.GetName :=
               if Z.eqb i 1 then "Mark" else if Z.eqb i 2 then "Level"
               else "Width";
             ScheduleField.FieldId := i |});
     ScheduleDefinition.GetFilters :=
       [ {| ScheduleFilter.FieldId := 2;
            ScheduleFilter.GetStringValue := "Level 1" |};
         {| ScheduleFilter.FieldId := 1;
            ScheduleFilter.GetStringValue := "D" |};
         {| ScheduleFilter.FieldId := 2;
            ScheduleFilter.GetStringValue := "Level 2" |} ] |}.

(** Categories with sub-categories, one of them custom-made (a positive
    id), and two categories that share the sub-category name "Cut". *)
Definition cut (id : ElementId) : Category.t := Category.Build "Cut" id [].
Definition walls_sub : Category.t :=
  Category.Build "Walls" Fixture.OST_Walls
    [cut (-2000012); Category.Build "Plaster" 31415 []].
Definition doors_sub : Category.t :=
  Category.Build "Doors" Fixture.OST_Doors [cut (-2000024)].

Definition categories_doc : Document.t :=
  {| Document.PathName := "C:/models/categories.rvt";
     Document.IsFamilyDocument := false;
     Document.Elements := [];
     Document.ElementsInView := fun _ => [];
     Document.Sheets := [];
     Document.ScheduleSheetInstances := [];
     Document.Worksets := [];
     Document.Grids := [];
     Document.LinkDocuments := [];
     Document.GetElement := fun _ => None;
     Document.Settings_Categories := [walls_sub; doors_sub];
     Document.ParameterBindings := [];
     Document.FamilyManager_Types := [];
     Document.FamilyManager_GetParameters := [] |}.

Definition HOST_APP_categories : HostApp.t :=
  {| HostApp.SharedParametersFilename := "";
     HostApp.OpenSharedParameterFile := None;
     HostApp.doc := Some categories_doc;
     HostApp.is_newer_than_2019 := true |}.

(** The text of a value, for the values the fixture holds. *)
Definition safe_strtype (v : pyval) : string :=
  match v with
  | PyNone => "None"
  | PyStr s => s
  | PyInt 7 => "7"
  | _ => "?"
  end.

Definition blank_wall : Element.t :=
  Fixture.element 15 Cls_Element "Basic Wall" (Some Fixture.walls)
    [Fixture.string_param "Comments" "   "].
Definition none_wall : Element.t :=
  Fixture.element 16 Cls_Element "Basic Wall" (Some Fixture.walls)
    [Fixture.string_param "Comments" "NONE"].

Definition range_doc : Document.t :=
  {| Document.PathName := "C:/models/range.rvt";
     Document.IsFamilyDocument := false;
     Document.Elements :=
       [Fixture.wall2; blank_wall; Fixture.door1; none_wall; Fixture.wall2];
     Document.ElementsInView := fun _ => [];
     Document.Sheets := [];
     Document.ScheduleSheetInstances := [];
     Document.Worksets := [];
     Document.Grids := [];
     Document.LinkDocuments := [];
     Document.GetElement := fun _ => None;
     Document.Settings_Categories := [];
     Document.ParameterBindings := [];
     Document.FamilyManager_Types := [];
     Document.FamilyManager_GetParameters := [] |}.

(** A door that carries the project parameter of [Fixture.fire_rating]. *)
Definition rated_param (s : string) : Param.t :=
  {| Param.Definition_Name := "Fire Rating"; Param.Definition_Id := 5001;
     Param.StorageType := ST_String; Param.AsDouble := Fixture.zero;
     Param.AsInteger := 0; Param.AsString := Some s;
     Param.AsElementId := 0 |}.
Definition rated_door (id : ElementId) (s : string) : Element.t :=
  Fixture.element id Cls_Element "Single-Flush" (Some Fixture.doors)
    [rated_param s].

Definition rated_doc : Document.t :=
  {| Document.PathName := "C:/models/rated.rvt";
     Document.IsFamilyDocument := false;
     Document.Elements :=
       [rated_door 21 "60"; Fixture.wall1; rated_door 22 "30";
        rated_door 23 "60"];
     Document.ElementsInView := fun _ => [];
     Document.Sheets := [];
     Document.ScheduleSheetInstances := [];
     Document.Worksets := [];
     Document.Grids := [];
     Document.LinkDocuments := [];
     Document.GetElement := fun _ => None;
     Document.Settings_Categories := [];
     Document.ParameterBindings := [];
     Document.FamilyManager_Types := [];
     Document.FamilyManager_GetParameters := [] |}.

(** The host's filter on the fixture: an element passes when it carries
    the parameter with that text, or, inverted, when it does not. *)
Definition string_equals : string_rule_filter :=
  fun param_id param_value inverse e =>
    xorb inverse
      (existsb
         (fun p =>
            Z.eqb (Param.Definition_Id p) param_id
            && match Param.AsString p, param_value with
               | Some s, PyStr v => String.eqb s v
               | _, _ => false
               end)
         (Element.Parameters e)).

(** Two projects with grids; each links a model with a grid of its own,
    and the first links its model twice and has a link that is not
    loaded. *)
Definition grids_doc (path : string) (grids : list Grid.t)
    (links : list (option LinkedDocument.t)) : Document.t :=
  {| Document.PathName := path;
     Document.IsFamilyDocument := false;
     Document.Elements := [];
     Document.ElementsInView := fun _ => [];
     Document.Sheets := [];
     Document.ScheduleSheetInstances := [];
     Document.Worksets := [];
     Document.Grids := grids;
     Document.LinkDocuments := links;
     Document.GetElement := fun _ => None;
     Document.Settings_Categories := [];
     Document.ParameterBindings := [];
     Document.FamilyManager_Types := [];
     Document.FamilyManager_GetParameters := [] |}.

Definition tower_doc : Document.t :=
  grids_doc "C:/models/tower.rvt" [Fixture.grid 1; Fixture.grid 2]
    [Some {| LinkedDocument.handle := 1;
             LinkedDocument.Grids := [Fixture.grid 3] |};
     None;
     Some {| LinkedDocument.handle := 1;
             LinkedDocument.Grids := [Fixture.grid 3] |}].
Definition site_doc : Document.t :=
  grids_doc "C:/models/site.rvt" [Fixture.grid 4]
    [Some {| LinkedDocument.handle := 2;
             LinkedDocument.Grids := [Fixture.grid 5] |}].

Definition HOST_APP_tower : HostApp.t :=
  {| HostApp.SharedParametersFilename := "";
     HostApp.OpenSharedParameterFile := None;
     HostApp.doc := Some tower_doc;
     HostApp.is_newer_than_2019 := true |}.

Definition HOST_APP_idle : HostApp.t :=
  {| HostApp.SharedParametersFilename := "";
     HostApp.OpenSharedParameterFile := None;
     HostApp.doc := None;
     HostApp.is_newer_than_2019 := true |}.

(** The transmission data of the tower: a Revit link (1), a CAD link (2)
    and another Revit link. *)
Definition link_data (ref_id : ElementId) : ExternalFileReference.t :=
  {| ExternalFileReference.ExternalFileReferenceType :=
       if Z.eqb ref_id 602 then 2 else 1 |}.

Definition tower_links : TransmissionData.t :=
  {| TransmissionData.GetAllExternalFileReferenceIds := Ok [601; 602; 603];
     TransmissionData.GetLastSavedReferenceData := fun id => Ok (link_data id)
  |}.

Definition DB_links : RevitAPI.t :=
  {| RevitAPI.BuiltInCategory_GetValues :=
       RevitAPI.BuiltInCategory_GetValues Fixture.DB;
     RevitAPI.OST_Views := RevitAPI.OST_Views Fixture.DB;
     RevitAPI.OST_ReferenceViewer := RevitAPI.OST_ReferenceViewer Fixture.DB;
     RevitAPI.OST_Viewers := RevitAPI.OST_Viewers Fixture.DB;
     RevitAPI.VIEW_DESCRIPTION := RevitAPI.VIEW_DESCRIPTION Fixture.DB;
     RevitAPI.SHEET_SCHEDULED := RevitAPI.SHEET_SCHEDULED Fixture.DB;
     RevitAPI.REFERENCE_VIEWER_TARGET_VIEW :=
       RevitAPI.REFERENCE_VIEWER_TARGET_VIEW Fixture.DB;
     RevitAPI.Curve_Intersect := RevitAPI.Curve_Intersect Fixture.DB;
     RevitAPI.ConvertUserVisiblePathToModelPath :=
       RevitAPI.ConvertUserVisiblePathToModelPath Fixture.DB;
     RevitAPI.ReadTransmissionData := fun _ => Ok (Some tower_links) |}.

Definition wrap_link (ref_id : ElementId) : WrapperAPI.ExternalRef Fixture.db :=
  (Document.GetElement tower_doc ref_id, link_data ref_id).

(** Doors and windows both have a sub-category named Frame/Mullion. *)
Definition doors_frame : Category.t :=
  Category.Build "Frame/Mullion" (-2000025) [].
Definition windows_frame : Category.t :=
  Category.Build "Frame/Mullion" (-2000015) [].
Definition doors_with_frame : Category.t :=
  Category.Build "Doors" Fixture.OST_Doors [doors_frame].
Definition windows_with_frame : Category.t :=
  Category.Build "Windows" (-2000014) [windows_frame].

Definition window_frame_line : Element.t :=
  Fixture.element 31 Cls_Element "Frame line" (Some windows_frame) [].

Definition frames_doc : Document.t :=
  {| Document.PathName := "C:/models/frames.rvt";
     Document.IsFamilyDocument := false;
     Document.Elements := [window_frame_line];
     Document.ElementsInView := fun _ => [];
     Document.Sheets := [];
     Document.ScheduleSheetInstances := [];
     Document.Worksets := [];
     Document.Grids := [];
     Document.LinkDocuments := [];
     Document.GetElement := fun _ => None;
     Document.Settings_Categories := [doors_with_frame; windows_with_frame];
     Document.ParameterBindings := [];
     Document.FamilyManager_Types := [];
     Document.FamilyManager_GetParameters := [] |}.

Definition HOST_APP_frames : HostApp.t :=
  {| HostApp.SharedParametersFilename := "";
     HostApp.OpenSharedParameterFile := None;
     HostApp.doc := Some frames_doc;
     HostApp.is_newer_than_2019 := true |}.

Definition DB_frames : RevitAPI.t :=
  {| RevitAPI.BuiltInCategory_GetValues :=
       [Fixture.OST_Doors; -2000014; -2000025; -2000015];
     RevitAPI.OST_Views := RevitAPI.OST_Views Fixture.DB;
     RevitAPI.OST_ReferenceViewer := RevitAPI.OST_ReferenceViewer Fixture.DB;
     RevitAPI.OST_Viewers := RevitAPI.OST_Viewers Fixture.DB;
     RevitAPI.VIEW_DESCRIPTION := RevitAPI.VIEW_DESCRIPTION Fixture.DB;
     RevitAPI.SHEET_SCHEDULED := RevitAPI.SHEET_SCHEDULED Fixture.DB;
     RevitAPI.REFERENCE_VIEWER_TARGET_VIEW :=
       RevitAPI.REFERENCE_VIEWER_TARGET_VIEW Fixture.DB;
     RevitAPI.Curve_Intersect := RevitAPI.Curve_Intersect Fixture.DB;
     RevitAPI.ConvertUserVisiblePathToModelPath :=
       RevitAPI.ConvertUserVisiblePathToModelPath Fixture.DB;
     RevitAPI.ReadTransmissionData :=
       RevitAPI.ReadTransmissionData Fixture.DB |}.

(** Transmission data whose second reference the host fails to read. *)
Definition broken_links : TransmissionData.t :=
  {| TransmissionData.GetAllExternalFileReferenceIds := Ok [601; 602; 603];
     TransmissionData.GetLastSavedReferenceData :=
       (fun id =>
          if Z.eqb id 602
          then Raise (HostException "InvalidOperationException"
                                    "The reference is not available.")
          else Ok (link_data id)) |}.

Definition DB_broken_links : RevitAPI.t :=
  {| RevitAPI.BuiltInCategory_GetValues :=
       RevitAPI.BuiltInCategory_GetValues Fixture.DB;
     RevitAPI.OST_Views := RevitAPI.OST_Views Fixture.DB;
     RevitAPI.OST_ReferenceViewer := RevitAPI.OST_ReferenceViewer Fixture.DB;
     RevitAPI.OST_Viewers := RevitAPI.OST_Viewers Fixture.DB;
     RevitAPI.VIEW_DESCRIPTION := RevitAPI.VIEW_DESCRIPTION Fixture.DB;
     RevitAPI.SHEET_SCHEDULED := RevitAPI.SHEET_SCHEDULED Fixture.DB;
     RevitAPI.REFERENCE_VIEWER_TARGET_VIEW :=
       RevitAPI.REFERENCE_VIEWER_TARGET_VIEW Fixture.DB;
     RevitAPI.Curve_Intersect := RevitAPI.Curve_Intersect Fixture.DB;
     RevitAPI.ConvertUserVisiblePathToModelPath :=
       RevitAPI.ConvertUserVisiblePathToModelPath Fixture.DB;
     RevitAPI.ReadTransmissionData := fun _ => Ok (Some broken_links) |}.

(** A host that reads no transmission data from the file. *)
Definition DB_no_data : RevitAPI.t :=
  {| RevitAPI.BuiltInCategory_GetValues :=
       RevitAPI.BuiltInCategory_GetValues Fixture.DB;
     RevitAPI.OST_Views := RevitAPI.OST_Views Fixture.DB;
     RevitAPI.OST_ReferenceViewer := RevitAPI.OST_ReferenceViewer Fixture.DB;
     RevitAPI.OST_Viewers := RevitAPI.OST_Viewers Fixture.DB;
     RevitAPI.VIEW_DESCRIPTION := RevitAPI.VIEW_DESCRIPTION Fixture.DB;
     RevitAPI.SHEET_SCHEDULED := RevitAPI.SHEET_SCHEDULED Fixture.DB;
     RevitAPI.REFERENCE_VIEWER_TARGET_VIEW :=
       RevitAPI.REFERENCE_VIEWER_TARGET_VIEW Fixture.DB;
     RevitAPI.Curve_Intersect := RevitAPI.Curve_Intersect Fixture.DB;
     RevitAPI.ConvertUserVisiblePathToModelPath :=
       RevitAPI.ConvertUserVisiblePathToModelPath Fixture.DB;
     RevitAPI.ReadTransmissionData := fun _ => Ok None |}.

(** A room that is placed, and one that is not. *)
Definition room (id : ElementId) (area : Z) : Element.t :=
  {| Element.Id := id; Element.Class := Cls_Room; Element.Name := "Room";
     Element.ViewName := ""; Element.Category := None;
     Element.Parameters := []; Element.IsElementType := false;
     Element.Area := float_of_int area |}.

End FixtureMore.

(** * Properties *)

(** ** The [in] operator on strings *)

Lemma starts_with_spec (needle hay : string) :
  starts_with needle hay = true <-> exists post, hay = needle ++ post.
Proof.
  revert hay; induction needle as [|a needle IH]; intros hay; simpl.
  - split; [intros _; now exists hay | reflexivity].
  - destruct hay as [|b hay].
    + split; [discriminate | intros [post H]; discriminate].
    + rewrite andb_true_iff, Ascii.eqb_eq, IH. split.
      * intros [-> [post ->]]. now exists post.
      * intros [post H]. injection H as -> ->.
        split; [reflexivity | now exists post].
Qed.

Lemma str_contains_spec (needle hay : string) :
  str_contains needle hay = true <-> is_substring needle hay.
Proof.
  unfold is_substring.
  induction hay as [|b hay IH]; simpl; rewrite orb_true_iff.
  - split.
    + intros [H | H]; [|discriminate].
      apply starts_with_spec in H as [post H]. now exists "", post.
    + intros [pre [post H]]. left. apply starts_with_spec.
      destruct pre; [now exists post | discriminate].
  - rewrite IH, starts_with_spec. split.
    + intros [[post H] | [pre [post H]]].
      * now exists "", post.
      * exists (String b pre), post. simpl. now rewrite H.
    + intros [pre [post H]]. destruct pre as [|c pre]; simpl in H.
      * left. now exists post.
      * right. injection H as _ H. now exists pre, post.
Qed.

Lemma append_empty_r (s : string) : s ++ "" = s.
Proof. induction s as [|a s IH]; simpl; [reflexivity | now rewrite IH]. Qed.

Lemma is_substring_refl (s : string) : is_substring s s.
Proof. exists "", "". simpl. now rewrite append_empty_r. Qed.

Lemma is_substring_append_l (pre s t : string) :
  is_substring s t -> is_substring s (pre ++ t).
Proof.
  intros [a [b ->]]. exists (pre ++ a), b.
  induction pre as [|c pre IH]; simpl; [reflexivity | now rewrite IH].
Qed.

Lemma is_substring_append_r (s t post : string) :
  is_substring s t -> is_substring s (t ++ post).
Proof.
  intros [a [b ->]]. exists a, (b ++ post).
  induction a as [|c a IH]; simpl.
  - induction s as [|c s IHs]; simpl; [reflexivity | now rewrite IHs].
  - now rewrite IH.
Qed.

(** ** [get_elements_by_parameter] *)

(** [get_param_value] reads what the host holds, and nothing else. *)
Lemma get_param_value_holds (p : Param.t) (v : pyval) :
  get_param_value p = Ok v <-> holds p v.
Proof.
  unfold get_param_value. split.
  - destruct (Param.StorageType p) eqn:Hst; cbn; intros H;
      try discriminate; injection H as <-.
    + now apply holds_integer.
    + now apply holds_double.
    + destruct (Param.AsString p) as [s|] eqn:Hs;
        [now apply holds_string | now apply holds_no_string].
    + now apply holds_element_id.
  - intros [Hst | Hst | s Hst Hs | Hst Hs | Hst]; rewrite Hst; cbn;
      rewrite ?Hs; reflexivity.
Qed.

Lemma get_param_value_unread (p : Param.t) :
  get_param_value p = Raise UnboundLocalError
  <-> Param.StorageType p = ST_None.
Proof.
  unfold get_param_value.
  destruct (Param.StorageType p); cbn; split; congruence.
Qed.

Lemma string_value_of_holds (e : Element.t) (n : string) (v : pyval) :
  string_value_of e n = Some (Ok v) <-> element_holds e n v.
Proof.
  unfold string_value_of, element_holds. split.
  - destruct (LookupParameter e (PyStr n)) as [[p|]|]; try discriminate.
    intros H. injection H as H. exists p. split; [reflexivity|].
    now apply get_param_value_holds.
  - intros [p [-> H]]. apply get_param_value_holds in H. now rewrite H.
Qed.

(** The host holds one value at most. *)
Lemma element_holds_functional (e : Element.t) (n : string) (v v' : pyval) :
  element_holds e n v -> element_holds e n v' -> v = v'.
Proof.
  intros H H'. apply string_value_of_holds in H, H'. congruence.
Qed.

Lemma readable_tail (n : string) (e : Element.t) (els : list Element.t) :
  readable n (e :: els) -> readable n els.
Proof. intros H x p Hin. apply H. now right. Qed.

Lemma get_elements_by_parameter_loop_step (n q : string) (partial : bool)
    (e : Element.t) (els acc : list Element.t) :
  readable n (e :: els) ->
  get_elements_by_parameter_loop (PyStr n) (PyStr q) partial (e :: els) acc
  = get_elements_by_parameter_loop (PyStr n) (PyStr q) partial els
      (if matches_query n q partial e then (acc ++ [e])%list else acc).
Proof.
  intros Hr. pose proof (Hr e) as He.
  unfold matches_query, string_value_of.
  cbn [get_elements_by_parameter_loop LookupParameter bind] in *.
  destruct (find _ (Element.Parameters e)) as [p|] eqn:Hfind; [|reflexivity].
  specialize (He p (or_introl eq_refl) eq_refl).
  unfold get_param_value.
  destruct (Param.StorageType p); try congruence; cbn;
    try (destruct partial; reflexivity).
  destruct (Param.AsString p) as [s|]; destruct partial; cbn;
    try reflexivity;
    destruct (str_contains q s); cbn; try reflexivity;
    now destruct (String.eqb q s).
Qed.

(** With a string query and readable parameters the loop is a filter. *)
Lemma get_elements_by_parameter_loop_filter (n q : string) (partial : bool)
    (els acc : list Element.t) :
  readable n els ->
  get_elements_by_parameter_loop (PyStr n) (PyStr q) partial els acc
  = Ok (acc ++ filter (matches_query n q partial) els)%list.
Proof.
  revert acc; induction els as [|e els IH]; intros acc Hr.
  - simpl. now rewrite app_nil_r.
  - rewrite get_elements_by_parameter_loop_step by assumption.
    rewrite IH by exact (readable_tail Hr).
    cbn [filter]. destruct (matches_query n q partial e);
      [now rewrite <- app_assoc | reflexivity].
Qed.

(** The test of the loop on what the host holds: a text that contains the
    query, or is equal to it. *)
Lemma matches_query_holds (n q : string) (partial : bool) (e : Element.t) :
  matches_query n q partial e = true
  <-> exists s,
        element_holds e n (PyStr s)
        /\ if partial then is_substring q s else s = q.
Proof.
  unfold matches_query. split.
  - destruct (string_value_of e n) as [[v|]|] eqn:Hv; try discriminate.
    destruct v as [| | |s|]; try discriminate.
    intros H. exists s. split; [now apply string_value_of_holds|].
    apply orb_true_iff in H as [H | H].
    + apply andb_true_iff in H as [-> H]. now apply str_contains_spec.
    + apply String.eqb_eq in H as ->.
      destruct partial; [apply is_substring_refl | reflexivity].
  - intros [s [Hs H]]. apply string_value_of_holds in Hs. rewrite Hs.
    destruct partial; cbn.
    + apply str_contains_spec in H. now rewrite H.
    + subst s. apply String.eqb_refl.
Qed.

(** C1: a model on which the property fails.  One wall holds the text
    "north wall" under "Comments" and a door has a parameter of that name
    with storage type [None].  "wall" is a substring of the text and
    "north wall" is equal to it, yet no mode returns the wall: the scan
    reaches the door and raises [UnboundLocalError], [get_param_value]
    having assigned no value. *)
Theorem get_elements_by_parameter_unread_storage_type :
  Document.Elements Fixture.unsaved_doc = [Fixture.wall1; Fixture.door2]
  /\ element_holds Fixture.wall1 "Comments" (PyStr "north wall")
  /\ is_substring "wall" "north wall"
  /\ (exists p,
        LookupParameter Fixture.door2 (PyStr "Comments") = Ok (Some p)
        /\ Param.StorageType p = ST_None)
  /\ get_elements_by_parameter Fixture.HOST_APP (PyStr "Comments")
       (PyStr "wall") (Some Fixture.unsaved_doc) true
     = Raise UnboundLocalError
  /\ get_elements_by_parameter Fixture.HOST_APP (PyStr "Comments")
       (PyStr "north wall") (Some Fixture.unsaved_doc) true
     = Raise UnboundLocalError
  /\ get_elements_by_parameter Fixture.HOST_APP (PyStr "Comments")
       (PyStr "north wall") (Some Fixture.unsaved_doc) false
     = Raise UnboundLocalError.
Proof.
  split; [reflexivity|]. split.
  { exists (Fixture.string_param "Comments" "north wall").
    split; [reflexivity|]. now apply holds_string. }
  split; [exists "north ", ""; reflexivity|]. split.
  { exists (Fixture.unset_param "Comments"). split; reflexivity. }
  repeat split.
Qed.

(** On the fixture: the two walls match "wall" partially, one exactly. *)
Example get_elements_by_parameter_on_fixture :
  get_elements_by_parameter Fixture.HOST_APP (PyStr "Comments") (PyStr "wall")
    None true = Ok [Fixture.wall1; Fixture.wall2]
  /\ get_elements_by_parameter Fixture.HOST_APP (PyStr "Comments")
       (PyStr "wall") None false = Ok [Fixture.wall2].
Proof. split; reflexivity. Qed.

(** A query that is not a string cannot be looked for in a string: with
    [partial=True] the first string value met raises. *)
Example get_elements_by_parameter_integer_query :
  get_elements_by_parameter Fixture.HOST_APP (PyStr "Comments") (PyInt 7)
    None true = Raise TypeError
  /\ get_elements_by_parameter Fixture.HOST_APP (PyStr "Comments") (PyInt 7)
       None false = Ok [Fixture.door1].
Proof. split; reflexivity. Qed.

(** An integer and a float are equal when they are the same number: the
    integer 2^53 + 1 is not the float 2^53. *)
Example py_eq_is_exact :
  py_eq (PyInt (2 ^ 53 + 1)) (PyFloat (float_of_int (2 ^ 53))) = false
  /\ py_eq (PyInt (2 ^ 53)) (PyFloat (float_of_int (2 ^ 53))) = true
  /\ py_eq (PyFloat (float_of_int 7)) (PyInt 7) = true.
Proof. repeat split; vm_compute; reflexivity. Qed.

(** ** Lookups that find nothing *)

Lemma find_all_false {A : Type} (f : A -> bool) (l : list A) :
  (forall x, In x l -> f x = false) -> find f l = None.
Proof.
  induction l as [|a l IH]; intros H; simpl; [reflexivity|].
  rewrite (H a (or_introl eq_refl)). apply IH. intros x Hx. apply H. now right.
Qed.

Lemma doc_or_active_idem (doc : option Document.t) (HOST_APP : HostApp.t) :
  doc_or_active (doc_or_active doc HOST_APP) HOST_APP
  = doc_or_active doc HOST_APP.
Proof.
  destruct doc; simpl; [reflexivity|].
  destruct (HostApp.doc HOST_APP) eqn:H; simpl; now rewrite ?H.
Qed.

(** C2: a sheet number that no sheet of the document carries yields
    [None], and no error. *)
Theorem get_sheet_by_number_absent
    (DB : RevitAPI.t) (HOST_APP : HostApp.t) (doc : option Document.t)
    (d : Document.t) (sheet_num : string) :
  doc_or_active doc HOST_APP = Some d ->
  (forall x, In x (Document.Sheets d) -> ViewSheet.SheetNumber x <> sheet_num) ->
  get_sheet_by_number DB HOST_APP (PyStr sheet_num) doc = Ok None.
Proof.
  intros Hdoc Hnum. unfold get_sheet_by_number, get_sheets.
  rewrite doc_or_active_idem, Hdoc. cbn.
  rewrite find_all_false; [reflexivity|].
  intros x Hx. cbn. apply String.eqb_neq. now apply Hnum.
Qed.

Lemma get_sheet_by_number_absent_witness :
  get_sheet_by_number Fixture.DB Fixture.HOST_APP (PyStr "A999") None = Ok None.
Proof.
  apply (@get_sheet_by_number_absent Fixture.DB Fixture.HOST_APP None
           Fixture.doc "A999").
  - reflexivity.
  - intros x [<- | [<- | []]]; discriminate.
Defined.

(** A number that is there finds its sheet. *)
Example get_sheet_by_number_present :
  get_sheet_by_number Fixture.DB Fixture.HOST_APP (PyStr "A102") None
  = Ok (Some Fixture.sheet_A102).
Proof. reflexivity. Qed.

Lemma get_defined_sharedparams_returns (HOST_APP : HostApp.t) :
  exists l, get_defined_sharedparams HOST_APP = Ok l.
Proof.
  unfold get_defined_sharedparams, get_sharedparam_definition_file.
  destruct (str_truthy _); [|now exists []].
  destruct (HostApp.OpenSharedParameterFile HOST_APP) as [f|];
    [now exists (List.concat (DefinitionFile.Groups f)) | now exists []].
Qed.

Lemma get_project_parameters_returns (db : WrapperAPI.t) (HOST_APP : HostApp.t)
    (doc : option Document.t) :
  exists pps, get_project_parameters db HOST_APP doc = Ok pps.
Proof.
  unfold get_project_parameters.
  destruct (get_defined_sharedparams_returns HOST_APP) as [l ->]. cbn.
  destruct (doc_or_active doc HOST_APP) as [d|]; [|now eexists].
  destruct (Document.IsFamilyDocument d); cbn; now eexists.
Qed.

(** C3: a name that no project parameter of the active document carries
    makes [get_project_parameter_id] raise [PyRevitException], with the
    name in its message. *)
Theorem get_project_parameter_id_not_found
    (db : WrapperAPI.t) (HOST_APP : HostApp.t) (param_name : string) :
  (forall pps pp,
     get_project_parameters db HOST_APP None = Ok pps ->
     In pp pps -> WrapperAPI.name db pp <> param_name) ->
  get_project_parameter_id db HOST_APP param_name
  = Raise (PyRevitException ("Parameter not found: " ++ param_name))
  /\ is_substring param_name ("Parameter not found: " ++ param_name).
Proof.
  intros Hnone. split.
  - unfold get_project_parameter_id.
    destruct (get_project_parameters_returns db HOST_APP None) as [pps Hpps].
    rewrite Hpps. cbn.
    rewrite find_all_false; [reflexivity|].
    intros pp Hpp. apply String.eqb_neq. exact (Hnone pps pp Hpps Hpp).
  - apply is_substring_append_l, is_substring_refl.
Qed.

Lemma get_project_parameter_id_not_found_witness :
  get_project_parameter_id Fixture.db Fixture.HOST_APP "Acoustic Rating"
  = Raise (PyRevitException "Parameter not found: Acoustic Rating")
  /\ is_substring "Acoustic Rating" "Parameter not found: Acoustic Rating".
Proof.
  apply (@get_project_parameter_id_not_found Fixture.db Fixture.HOST_APP
           "Acoustic Rating").
  intros pps pp H. vm_compute in H. injection H as <-.
  intros [<- | []]. discriminate.
Defined.

(** A name that is bound is resolved to its id. *)
Example get_project_parameter_id_found :
  get_project_parameter_id Fixture.db Fixture.HOST_APP "Fire Rating" = Ok 5001.
Proof. reflexivity. Qed.

(** ** Precondition errors *)

(** C9: the documented precondition violations raise [PyRevitException]:
    no shared-parameter file set, or one that does not open; links asked
    of a document without a path; family types or family parameters asked
    of a document that is not a family. *)
Theorem precondition_violations_raise_PyRevitException :
  (forall HOST_APP,
     HostApp.SharedParametersFilename HOST_APP = "" ->
     get_sharedparam_definition_file HOST_APP
     = Raise (PyRevitException "No Shared Parameters file defined."))
  /\ (forall HOST_APP,
        HostApp.SharedParametersFilename HOST_APP <> "" ->
        HostApp.OpenSharedParameterFile HOST_APP = None ->
        get_sharedparam_definition_file HOST_APP
        = Raise (PyRevitException "Failed opening Shared Parameters file."))
  /\ (forall python_text DB db HOST_APP linktype doc d,
        doc_or_active doc HOST_APP = Some d ->
        Document.PathName d = "" ->
        get_links python_text DB db HOST_APP linktype doc
        = Raise (PyRevitException "PathName is empty. Model is not saved."))
  /\ (forall type_name family_doc,
        Document.IsFamilyDocument family_doc = false ->
        get_family_type type_name family_doc
        = Raise (PyRevitException "Document is not a family"))
  /\ (forall param_name family_doc,
        Document.IsFamilyDocument family_doc = false ->
        get_family_parameter param_name family_doc
        = Raise (PyRevitException "Document is not a family")).
Proof.
  repeat split.
  - intros HOST_APP H. unfold get_sharedparam_definition_file. now rewrite H.
  - intros HOST_APP H Hopen. unfold get_sharedparam_definition_file.
    rewrite Hopen.
    destruct (HostApp.SharedParametersFilename HOST_APP);
      [contradiction | reflexivity].
  - intros python_text DB db HOST_APP linktype doc d Hdoc Hpath.
    unfold get_links.
    now rewrite Hdoc, Hpath.
  - intros type_name family_doc H. unfold get_family_type. now rewrite H.
  - intros param_name family_doc H. unfold get_family_parameter.
    now rewrite H.
Qed.

Lemma precondition_violations_raise_PyRevitException_witness :
  get_sharedparam_definition_file Fixture.HOST_APP
  = Raise (PyRevitException "No Shared Parameters file defined.")
  /\ get_sharedparam_definition_file Fixture.HOST_APP_badfile
     = Raise (PyRevitException "Failed opening Shared Parameters file.")
  /\ get_links Fixture.python_text Fixture.DB Fixture.db Fixture.HOST_APP None
       (Some Fixture.unsaved_doc)
     = Raise (PyRevitException "PathName is empty. Model is not saved.")
  /\ get_family_type "Type 1" Fixture.doc
     = Raise (PyRevitException "Document is not a family")
  /\ get_family_parameter "Width" Fixture.doc
     = Raise (PyRevitException "Document is not a family").
Proof.
  destruct precondition_violations_raise_PyRevitException
    as [H1 [H2 [H3 [H4 H5]]]].
  split; [apply H1; reflexivity|].
  split; [apply H2; [discriminate | reflexivity]|].
  split; [apply (H3 _ _ _ _ _ _ Fixture.unsaved_doc); reflexivity|].
  split; [apply H4; reflexivity | apply H5; reflexivity].
Defined.

(** ** [get_param] *)

(** C10: on anything that is not a host element [get_param] returns
    [None] whatever the default; the default comes back only from an
    element whose parameter lookup raises, and a lookup that returns is
    passed on. *)
Theorem get_param_default_only_on_lookup_error :
  (forall element param_name default,
     (forall e, element <> Obj_Element e) ->
     get_param element param_name default = Obj_value PyNone)
  /\ (forall e param_name default err,
        LookupParameter e param_name = Raise err ->
        get_param (Obj_Element e) param_name default = default)
  /\ (forall e param_name default p,
        LookupParameter e param_name = Ok p ->
        get_param (Obj_Element e) param_name default = obj_of_parameter p).
Proof.
  repeat split.
  - intros element param_name default Hne.
    destruct element as [v | e | p]; try reflexivity.
    now destruct (Hne e).
  - intros e param_name default err H. unfold get_param. now rewrite H.
  - intros e param_name default p H. unfold get_param. now rewrite H.
Qed.

Lemma get_param_default_only_on_lookup_error_witness :
  get_param (Obj_value (PyStr "wall")) (PyStr "Comments")
            (Obj_value (PyInt 0)) = Obj_value PyNone
  /\ get_param (Obj_Element Fixture.wall1) PyNone (Obj_value (PyInt 0))
     = Obj_value (PyInt 0)
  /\ get_param (Obj_Element Fixture.wall1) (PyStr "Mark") (Obj_value (PyInt 0))
     = Obj_value PyNone.
Proof.
  destruct get_param_default_only_on_lookup_error as [H1 [H2 H3]].
  split; [apply H1; discriminate|].
  split.
  - apply (H2 _ _ _ (HostException "ArgumentNullException" "parameterName")).
    reflexivity.
  - apply (H3 Fixture.wall1 (PyStr "Mark") (Obj_value (PyInt 0)) None).
    reflexivity.
Defined.

(** ** [is_sheet_empty] *)

Lemma schedule_kind_functional (doc : Document.t)
    (x : ScheduleSheetInstance.t) (r r' : bool) :
  schedule_kind doc x r -> schedule_kind doc x r' -> r = r'.
Proof. intros [e H] [e' H']. rewrite H in H'. now injection H'. Qed.

(** The comprehension of [get_schedules_on_sheet] over a list whose
    instances on the sheet resolve to schedules. *)
Lemma schedules_on_sheet_loop (d : Document.t) (viewsheet : ViewSheet.t)
    (l : list ScheduleSheetInstance.t) :
  (forall x, In x l -> on_sheet viewsheet x ->
             exists revision, schedule_kind d x revision) ->
  exists found,
    filterM
      (fun x =>
         if Z.eqb (ScheduleSheetInstance.OwnerViewId x)
                  (Element.Id (ViewSheet.AsElement viewsheet))
         then
           revision <-
             attr_IsTitleblockRevisionSchedule
               (Document.GetElement d (ScheduleSheetInstance.ScheduleId x)) ;;
           Ok (negb revision)
         else Ok false) l = Ok found
    /\ (forall x, In x found <->
                  In x l /\ on_sheet viewsheet x /\ schedule_kind d x false).
Proof.
  induction l as [|a l IH]; intros Hwf.
  - exists []. split; [reflexivity|]. intros x. simpl. tauto.
  - destruct IH as [found [Hfound Hin]].
    { intros x Hx. apply Hwf. now right. }
    cbn [filterM]. rewrite Hfound.
    destruct (Z.eqb_spec (ScheduleSheetInstance.OwnerViewId a)
                         (Element.Id (ViewSheet.AsElement viewsheet)))
      as [Heq | Hne].
    + destruct (Hwf a (or_introl eq_refl) Heq) as [revision Hk].
      pose proof Hk as [e He]. rewrite He. cbn.
      destruct revision; cbn.
      * exists found. split; [reflexivity|]. intros x. rewrite Hin.
        split; [intros [H1 H2]; split; [now right | assumption]|].
        intros [[<- | H1] [H2 H3]]; [|now split].
        discriminate (schedule_kind_functional Hk H3).
      * exists (a :: found). split; [reflexivity|]. intros x. simpl.
        rewrite Hin. split.
        -- intros [<- | [H1 H2]]; [|split; [now right | assumption]].
           split; [now left | split; assumption].
        -- intros [[<- | H1] H2]; [now left | right; now split].
    + cbn. exists found. split; [reflexivity|]. intros x. rewrite Hin.
      split; [intros [H1 H2]; split; [now right | assumption]|].
      intros [[<- | H1] [H2 H3]]; [contradiction | now split].
Qed.

(** C6: [is_sheet_empty] returns [True] exactly when the sheet has no
    viewport and every schedule placed on it is a titleblock revision
    schedule; with one viewport more it returns [False].  The schedules
    placed on the sheet are elements of the document. *)
Theorem is_sheet_empty_exactly
    (HOST_APP : HostApp.t) (doc : Document.t) (viewsheet : ViewSheet.t) :
  (forall x, In x (Document.ScheduleSheetInstances doc) ->
             on_sheet viewsheet x ->
             exists revision, schedule_kind doc x revision) ->
  exists b,
    is_sheet_empty HOST_APP doc viewsheet = Ok b
    /\ (b = true <->
        ViewSheet.GetAllViewports viewsheet = []
        /\ forall x, In x (Document.ScheduleSheetInstances doc) ->
                     on_sheet viewsheet x -> schedule_kind doc x true)
    /\ (forall vp,
          is_sheet_empty HOST_APP doc (with_viewport viewsheet vp) = Ok false).
Proof.
  intros Hwf.
  destruct (@schedules_on_sheet_loop doc viewsheet _ Hwf) as [found [Hf Hin]].
  unfold on_sheet in *.
  exists (negb (list_truthy (ViewSheet.GetAllViewports viewsheet)
                || list_truthy found)).
  split; [|split].
  - unfold is_sheet_empty, get_schedules_on_sheet. cbn. rewrite Hf. cbn.
    now destruct (list_truthy _ || list_truthy _).
  - destruct (ViewSheet.GetAllViewports viewsheet) as [|vp vps]; cbn.
    + destruct found as [|a found]; cbn.
      * split; [intros _|reflexivity]. split; [reflexivity|].
        intros x Hx Hon. destruct (Hwf x Hx Hon) as [[|] Hk]; [assumption|].
        destruct (proj2 (Hin x) (conj Hx (conj Hon Hk))).
      * split; [discriminate|]. intros [_ Hall].
        destruct (proj1 (Hin a) (or_introl eq_refl)) as [Ha [Hon Hk]].
        discriminate (schedule_kind_functional (Hall a Ha Hon) Hk).
    + split; [discriminate | intros [H _]; discriminate].
  - intros vp. unfold is_sheet_empty, get_schedules_on_sheet. cbn.
    rewrite Hf. reflexivity.
Qed.

Lemma is_sheet_empty_exactly_witness :
  exists b,
    is_sheet_empty Fixture.HOST_APP Fixture.doc Fixture.sheet_A101 = Ok b
    /\ (b = true <->
        ViewSheet.GetAllViewports Fixture.sheet_A101 = []
        /\ forall x, In x (Document.ScheduleSheetInstances Fixture.doc) ->
                     on_sheet Fixture.sheet_A101 x ->
                     schedule_kind Fixture.doc x true)
    /\ (forall vp,
          is_sheet_empty Fixture.HOST_APP Fixture.doc
            (with_viewport Fixture.sheet_A101 vp) = Ok false).
Proof.
  apply (@is_sheet_empty_exactly Fixture.HOST_APP Fixture.doc
           Fixture.sheet_A101).
  intros x [<- | [<- | []]] Hon.
  - exists true, Fixture.plan. reflexivity.
  - exists false, Fixture.plan. reflexivity.
Defined.

(** On the fixture: A101 carries a revision schedule only and is empty;
    with a viewport it is not; A102 carries a schedule and is not. *)
Example is_sheet_empty_on_fixture :
  is_sheet_empty Fixture.HOST_APP Fixture.doc Fixture.sheet_A101 = Ok true
  /\ is_sheet_empty Fixture.HOST_APP Fixture.doc
       (with_viewport Fixture.sheet_A101 200) = Ok false
  /\ is_sheet_empty Fixture.HOST_APP Fixture.doc Fixture.sheet_A102 = Ok false.
Proof. repeat split; reflexivity. Qed.

(** ** [get_links] *)

Lemma str_truthy_nonempty (s : string) : s <> "" -> str_truthy s = true.
Proof. destruct s; [contradiction | reflexivity]. Qed.

(** The references read and wrapped are passed over by the loop. *)
Lemma get_links_loop_passes (db : WrapperAPI.t) (d : Document.t)
    (trans_data : TransmissionData.t) (linktype : option Z)
    (before rest : list ElementId)
    (links : list (WrapperAPI.ExternalRef db)) :
  Forall (reference_read db d trans_data linktype) before ->
  exists links',
    get_links_loop db d trans_data linktype (before ++ rest)%list links
    = get_links_loop db d trans_data linktype rest links'.
Proof.
  revert links. induction before as [|r before IH]; intros links Hread.
  - now exists links.
  - inversion Hread as [|r' before' [ext_ref [Hdata Hwrap]] Hrest]; subst.
    cbn [app get_links_loop]. rewrite Hdata. cbn [bind].
    unfold wanted_link in Hwrap.
    destruct linktype as [lt|].
    + destruct (enum_truthy lt); cbn [negb orb] in Hwrap.
      * destruct (Z.eqb _ lt).
        -- destruct (Hwrap eq_refl) as [w ->]. cbn [bind]. now apply IH.
        -- cbn [bind]. now apply IH.
      * destruct (Hwrap eq_refl) as [w ->]. cbn [bind]. now apply IH.
    + destruct (Hwrap eq_refl) as [w ->]. cbn [bind]. now apply IH.
Qed.

(** A failure of the host while the transmission data or a reference is
    read is the failure of the [try] body. *)
Lemma get_links_try_host_failure (DB : RevitAPI.t) (db : WrapperAPI.t)
    (d : Document.t) (model_path : ModelPath.t) (linktype : option Z)
    (h : exn) :
  host_failure DB db d model_path linktype h ->
  get_links_try DB db d model_path linktype = Raise h.
Proof.
  unfold get_links_try.
  intros [H | td H H' | td before ref_id after H H' Hread Hfail];
    rewrite H; cbn [bind]; [reflexivity | now rewrite H' |].
  rewrite H'. cbn [bind].
  destruct (@get_links_loop_passes db d td linktype before (ref_id :: after)
              [] Hread) as [links' ->].
  cbn [get_links_loop].
  destruct Hfail as [Hdata | [ext_ref [Hdata [Hwanted Hwrap]]]];
    rewrite Hdata; cbn [bind]; [reflexivity|].
  unfold wanted_link in Hwanted.
  destruct linktype as [lt|]; [|now rewrite Hwrap].
  destruct (enum_truthy lt); cbn [negb orb] in Hwanted;
    [|now rewrite Hwrap].
  rewrite Hwanted. now rewrite Hwrap.
Qed.

(** C8: when the host fails while [get_links] reads the transmission data,
    lists the references or reads or wraps one of them, [get_links] raises
    a [PyRevitException] whose message carries the model path and the text
    of the failure, the message of a host exception; and whatever happens
    once the document is there, no exception of another type leaves
    [get_links]. *)
Theorem get_links_reraises_as_PyRevitException
    (python_text : exn -> string) (DB : RevitAPI.t) (db : WrapperAPI.t)
    (HOST_APP : HostApp.t) (linktype : option Z) (doc : option Document.t)
    (d : Document.t) :
  doc_or_active doc HOST_APP = Some d ->
  (forall e,
     get_links python_text DB db HOST_APP linktype doc = Raise e ->
     is_PyRevitException e = true)
  /\ (forall model_path h,
        Document.PathName d <> "" ->
        RevitAPI.ConvertUserVisiblePathToModelPath DB (Document.PathName d)
        = Some model_path ->
        host_failure DB db d model_path linktype h ->
        get_links python_text DB db HOST_APP linktype doc
        = Raise (PyRevitException
                   (links_error_message python_text model_path h))
        /\ is_substring (ModelPath.ToString model_path)
                        (links_error_message python_text model_path h)
        /\ is_substring (exn_text python_text h)
                        (links_error_message python_text model_path h)
        /\ (forall type_name msg,
              h = HostException type_name msg ->
              is_substring msg
                (links_error_message python_text model_path h))).
Proof.
  intros Hdoc. unfold get_links. rewrite Hdoc. split.
  - intros e.
    destruct (str_truthy (Document.PathName d)); cbn;
      [|intros H; now injection H as <-].
    destruct (RevitAPI.ConvertUserVisiblePathToModelPath DB _) as [mp|];
      [|intros H; now injection H as <-].
    unfold try_except. destruct (get_links_try DB db d mp linktype);
      [discriminate | intros H; now injection H as <-].
  - intros model_path h Hpath Hconv Hfail.
    rewrite (str_truthy_nonempty Hpath), Hconv. cbn.
    unfold try_except. rewrite (get_links_try_host_failure Hfail).
    split; [reflexivity|].
    unfold links_error_message. split.
    + apply (@is_substring_append_l "Error reading links from model path: ").
      apply is_substring_append_r, is_substring_refl.
    + assert (is_substring (exn_text python_text h)
                ("Error reading links from model path: "
                 ++ ModelPath.ToString model_path ++ " | "
                 ++ exn_text python_text h)) as Htext.
      { apply (@is_substring_append_l
                 "Error reading links from model path: ").
        apply (@is_substring_append_l (ModelPath.ToString model_path)).
        apply (@is_substring_append_l " | "), is_substring_refl. }
      split; [exact Htext|].
      intros type_name msg ->. exact Htext.
Qed.

Lemma get_links_reraises_as_PyRevitException_witness :
  (forall e,
     get_links Fixture.python_text FixtureMore.DB_broken_links Fixture.db
       FixtureMore.HOST_APP_tower None None = Raise e ->
     is_PyRevitException e = true)
  /\ get_links Fixture.python_text FixtureMore.DB_broken_links Fixture.db
       FixtureMore.HOST_APP_tower None None
     = Raise (PyRevitException
                "Error reading links from model path: C:/models/tower.rvt | The reference is not available.")
  /\ is_substring "The reference is not available."
       "Error reading links from model path: C:/models/tower.rvt | The reference is not available.".
Proof.
  destruct (@get_links_reraises_as_PyRevitException Fixture.python_text
              FixtureMore.DB_broken_links Fixture.db
              FixtureMore.HOST_APP_tower None None FixtureMore.tower_doc
              eq_refl) as [H1 H2].
  split; [exact H1|].
  destruct (H2 {| ModelPath.ToString := "C:/models/tower.rvt" |}
               (HostException "InvalidOperationException"
                              "The reference is not available."))
    as [H [_ [_ H']]].
  - discriminate.
  - reflexivity.
  - apply (@fails_at_reference FixtureMore.DB_broken_links Fixture.db
             FixtureMore.tower_doc _ None _ FixtureMore.broken_links
             [601] 602 [603]).
    + reflexivity.
    + reflexivity.
    + constructor; [|constructor].
      exists (FixtureMore.link_data 601). split; [reflexivity|].
      intros _. eexists. reflexivity.
    + left. reflexivity.
  - split; [exact H|].
    exact (H' "InvalidOperationException" "The reference is not available."
              eq_refl).
Defined.

(** The failures on the fixture: the host cannot read the file; it reads
    nothing from it, and the interpreter fails on the null. *)
Example get_links_on_failing_hosts :
  get_links Fixture.python_text Fixture.DB Fixture.db Fixture.HOST_APP None
    None
  = Raise (PyRevitException
             "Error reading links from model path: C:/models/tower.rvt | The file is not a valid Revit file.")
  /\ get_links Fixture.python_text FixtureMore.DB_no_data Fixture.db
       Fixture.HOST_APP None None
     = Raise (PyRevitException
                "Error reading links from model path: C:/models/tower.rvt | 'NoneType' object has no attribute").
Proof. split; reflexivity. Qed.

(** ** [get_elements_by_category] *)

Lemma filterM_pure {A : Type} (f : A -> result bool) (g : A -> bool)
    (l : list A) :
  (forall x, In x l -> f x = Ok (g x)) -> filterM f l = Ok (filter g l).
Proof.
  induction l as [|a l IH]; intros H; [reflexivity|].
  cbn [filterM filter]. rewrite (H a (or_introl eq_refl)). cbn.
  rewrite IH by (intros x Hx; apply H; now right). cbn.
  now destruct (g a).
Qed.

Lemma get_builtincategory_returns (DB : RevitAPI.t) (HOST_APP : HostApp.t)
    (active : Document.t) (ref : category_ref) :
  HostApp.doc HOST_APP = Some active ->
  exists bicat, get_builtincategory DB HOST_APP ref = Ok bicat.
Proof.
  intros Hdoc. unfold get_builtincategory.
  destruct ref as [n | id | b | c]; cbn.
  - unfold get_category, get_doc_categories. cbn. rewrite Hdoc. cbn.
    destruct (find _ _) as [cat|]; cbn; [|now eexists].
    destruct (Z.eqb (Category.Id cat) 0); now eexists.
  - destruct (Z.eqb id 0); now eexists.
  - now eexists.
  - now eexists.
Qed.

Lemma find_app {A : Type} (f : A -> bool) (l l' : list A) :
  find f (l ++ l')%list
  = match find f l with Some x => Some x | None => find f l' end.
Proof.
  induction l as [|a l IH]; [reflexivity|]. cbn.
  destruct (f a); [reflexivity | exact IH].
Qed.

Lemma find_first_such {A : Type} (f : A -> bool) (l : list A) (x : A) :
  find f l = Some x -> first_such (fun y => f y = true) l x.
Proof.
  induction l as [|a l IH]; [discriminate|]. cbn [find].
  destruct (f a) eqn:Ha.
  - intros H. injection H as <-. exists [], l.
    split; [reflexivity|]. split; [assumption | intros y []].
  - intros H. destruct (IH H) as [before [after [-> [Hx Hb]]]].
    exists (a :: before), after. split; [reflexivity|]. split; [assumption|].
    intros y [<- | Hy]; [congruence | now apply Hb].
Qed.

Lemma find_of_first_such {A : Type} (f : A -> bool) (l : list A) (x : A) :
  first_such (fun y => f y = true) l x -> find f l = Some x.
Proof.
  intros [before [after [-> [Hx Hb]]]].
  rewrite find_app, find_all_false.
  - cbn. now rewrite Hx.
  - intros y Hy. destruct (f y) eqn:E; [|reflexivity].
    now destruct (Hb y Hy).
Qed.

(** The category found by a name is the first of that name among the
    categories and sub-categories of the active document. *)
Lemma get_category_by_name (HOST_APP : HostApp.t) (active : Document.t)
    (n : string) :
  HostApp.doc HOST_APP = Some active ->
  exists r,
    get_category HOST_APP (Cat_name n) = Ok r
    /\ (forall cat,
          r = Some cat <->
          first_such (fun x => Category.Name x = n)
                     (categories_and_subcategories active) cat).
Proof.
  intros Hdoc. unfold get_category, get_doc_categories. cbn. rewrite Hdoc.
  cbn. eexists. split; [reflexivity|]. intros cat.
  fold (categories_and_subcategories active). split.
  - intros H. apply find_first_such in H.
    destruct H as [before [after [Hl [Hx Hb]]]].
    exists before, after. split; [assumption|].
    split; [now apply String.eqb_eq|].
    intros y Hy Hn. apply (Hb y Hy). now apply String.eqb_eq.
  - intros [before [after [Hl [Hx Hb]]]]. apply find_of_first_such.
    exists before, after. split; [assumption|].
    split; [now apply String.eqb_eq|].
    intros y Hy Hn. apply (Hb y Hy). now apply String.eqb_eq.
Qed.

Lemma first_such_functional {A : Type} (P : A -> Prop) (l : list A)
    (x y : A) :
  first_such P l x -> first_such P l y -> x = y.
Proof.
  intros [b1 [a1 [H1 [Px Hb1]]]] [b2 [a2 [H2 [Py Hb2]]]]. subst l.
  revert b2 H2 Hb2. induction b1 as [|z b1 IH]; intros b2 H2 Hb2.
  - destruct b2 as [|z b2]; cbn in H2; injection H2 as H2 H3;
      [assumption|]. subst z. destruct (Hb2 x (or_introl eq_refl) Px).
  - destruct b2 as [|z' b2]; cbn in H2; injection H2 as H2 H3.
    + subst z. destruct (Hb1 y (or_introl eq_refl) Py).
    + apply (IH (fun w Hw => Hb1 w (or_intror Hw)) b2 H3).
      intros w Hw. apply Hb2. now right.
Qed.

Lemma find_the_value (values : list Z) (id : Z) :
  find (fun bicat => Z.eqb bicat id) values
  = if existsb (Z.eqb id) values then Some id else None.
Proof.
  induction values as [|v values IH]; [reflexivity|]. cbn.
  rewrite (Z.eqb_sym id v).
  destruct (Z.eqb_spec v id) as [-> | Hne]; [reflexivity | exact IH].
Qed.

(** A category that is found again by its name is resolved to the
    built-in category of its id, when the id is one. *)
Lemma get_builtincategory_found_by_name (DB : RevitAPI.t)
    (HOST_APP : HostApp.t) (active : Document.t) (c : Category.t) :
  HostApp.doc HOST_APP = Some active ->
  found_by_name active c ->
  get_builtincategory DB HOST_APP (Cat_name (Category.Name c))
  = Ok (if Z.eqb (Category.Id c) 0 then None
        else if existsb (Z.eqb (Category.Id c))
                        (RevitAPI.BuiltInCategory_GetValues DB)
             then Some (Category.Id c) else None).
Proof.
  intros Hdoc [c' [Hfirst Hid]].
  destruct (@get_category_by_name HOST_APP active (Category.Name c) Hdoc)
    as [r [Hr Hspec]].
  apply Hspec in Hfirst. subst r.
  unfold get_builtincategory. rewrite Hr. cbn [bind option_map].
  rewrite Hid. destruct (Z.eqb (Category.Id c) 0); [reflexivity|].
  now rewrite find_the_value.
Qed.

(** C4, where the property fails.  On an empty list the helper falls
    through to the collector and returns the walls and the door of the
    whole model, not the empty sublist.  And the category of an element is
    looked up by its name: a line of the windows' sub-category
    Frame/Mullion is taken for one of the doors' sub-category of the same
    name and is dropped, although its category is the built-in category
    asked for and the collector returns it. *)
Lemma get_elements_by_category_empty_list_counterexample :
  (get_elements_by_category Fixture.DB Fixture.HOST_APP
     [Fixture.OST_Walls; Fixture.OST_Doors] (Some []) None
   = Ok [Fixture.wall1; Fixture.wall2; Fixture.door1]
   /\ get_elements_by_category Fixture.DB Fixture.HOST_APP
        [Fixture.OST_Walls; Fixture.OST_Doors] (Some []) None
      <> Ok [])
  /\ (Element.Category FixtureMore.window_frame_line
      = Some FixtureMore.windows_frame
      /\ Category.Id FixtureMore.windows_frame = (-2000015)%Z
      /\ get_elements_by_category FixtureMore.DB_frames
           FixtureMore.HOST_APP_frames [(-2000015)%Z]
           (Some [FixtureMore.window_frame_line]) None
         = Ok []
      /\ get_elements_by_category FixtureMore.DB_frames
           FixtureMore.HOST_APP_frames [(-2000015)%Z] None None
         = Ok [FixtureMore.window_frame_line]).
Proof.
  split; [split; [reflexivity | discriminate]|]. repeat split.
Qed.

(** C4, amended: for a non-empty list of elements whose categories are
    found again by their names in the active document, and built-in
    categories of the enumeration, the helper returns the elements whose
    category is one of the built-in categories given, in the order of the
    list: the elements the host's category filters let pass. *)
Theorem get_elements_by_category_of_nonempty_list
    (DB : RevitAPI.t) (HOST_APP : HostApp.t) (active : Document.t)
    (element_bicats : list BuiltInCategory) (elements : list Element.t)
    (doc : option Document.t) :
  elements <> [] ->
  HostApp.doc HOST_APP = Some active ->
  (forall x, In x elements ->
     exists c, Element.Category x = Some c /\ found_by_name active c) ->
  (forall b, In b element_bicats ->
     In b (RevitAPI.BuiltInCategory_GetValues DB) /\ b <> 0%Z) ->
  get_elements_by_category DB HOST_APP element_bicats (Some elements) doc
  = Ok (filter (category_among element_bicats) elements).
Proof.
  intros Hne Hdoc Hcat Hbicats. unfold get_elements_by_category.
  destruct elements as [|x0 xs]; [contradiction|].
  apply filterM_pure. intros x Hx.
  destruct (Hcat x Hx) as [c [Hc Hfound]].
  assert (category_among element_bicats x
          = existsb (Z.eqb (Category.Id c)) element_bicats) as ->.
  { unfold category_among, passes_category_filter. now rewrite Hc. }
  rewrite Hc. cbn [attr bind].
  rewrite (@get_builtincategory_found_by_name DB HOST_APP active c Hdoc
             Hfound).
  cbn [bind]. f_equal.
  destruct (existsb (Z.eqb (Category.Id c)) element_bicats) eqn:Hin.
  - apply existsb_exists in Hin as [b [Hb Heq]]. apply Z.eqb_eq in Heq.
    subst b. destruct (Hbicats _ Hb) as [Hvalue Hnz].
    apply Z.eqb_neq in Hnz. rewrite Hnz.
    assert (existsb (Z.eqb (Category.Id c))
                    (RevitAPI.BuiltInCategory_GetValues DB) = true) as ->.
    { apply existsb_exists. exists (Category.Id c).
      split; [assumption | apply Z.eqb_refl]. }
    cbn [in_bicats]. apply existsb_exists. exists (Category.Id c).
    split; [assumption | apply Z.eqb_refl].
  - destruct (Z.eqb (Category.Id c) 0); [reflexivity|].
    destruct (existsb (Z.eqb (Category.Id c))
                      (RevitAPI.BuiltInCategory_GetValues DB));
      [exact Hin | reflexivity].
Qed.

Lemma get_elements_by_category_of_nonempty_list_witness :
  get_elements_by_category Fixture.DB Fixture.HOST_APP [Fixture.OST_Walls]
    (Some [Fixture.door1; Fixture.wall2; Fixture.wall1]) None
  = Ok (filter (category_among [Fixture.OST_Walls])
               [Fixture.door1; Fixture.wall2; Fixture.wall1]).
Proof.
  apply (@get_elements_by_category_of_nonempty_list Fixture.DB
           Fixture.HOST_APP Fixture.doc).
  - discriminate.
  - reflexivity.
  - intros x [<- | [<- | [<- | []]]].
    + exists Fixture.doors. split; [reflexivity|]. exists Fixture.doors.
      split; [|reflexivity]. exists [Fixture.walls], [].
      split; [reflexivity|]. split; [reflexivity|].
      intros y [<- | []]. discriminate.
    + exists Fixture.walls. split; [reflexivity|]. exists Fixture.walls.
      split; [|reflexivity]. exists [], [Fixture.doors].
      split; [reflexivity|]. split; [reflexivity | intros y []].
    + exists Fixture.walls. split; [reflexivity|]. exists Fixture.walls.
      split; [|reflexivity]. exists [], [Fixture.doors].
      split; [reflexivity|]. split; [reflexivity | intros y []].
  - intros b [<- | []]. split; [now left | discriminate].
Defined.

(** On the fixture: the walls of the list, in the order of the list. *)
Example get_elements_by_category_on_fixture :
  get_elements_by_category Fixture.DB Fixture.HOST_APP [Fixture.OST_Walls]
    (Some [Fixture.door1; Fixture.wall2; Fixture.wall1]) None
  = Ok [Fixture.wall2; Fixture.wall1].
Proof. reflexivity. Qed.

(** ** [get_gridpoints] *)







(** Two grids only: one point. *)
Example get_gridpoints_of_two_grids :
  get_gridpoints Fixture.DB Fixture.db Fixture.HOST_APP
    (Some [Fixture.grid 1; Fixture.grid 3]) false None
  = Ok [ {| point := Fixture.xyz 4 0;
            grids := [Fixture.grid 3; Fixture.grid 1] |} ].
Proof. reflexivity. Qed.

(** ** The derived checks *)

(** [model_has_workset] hands back the workset [find_workset] found. *)
Lemma model_has_workset_not_bool_counterexample :
  model_has_workset Fixture.HOST_APP (OneName "Workset1") false None
  = Ok (Some Fixture.workset1)
  /\ ~ returns_bool
         (model_has_workset Fixture.HOST_APP (OneName "Workset1") false None).
Proof.
  split; [reflexivity|].
  intros [v [H Hv]]. vm_compute in H. injection H as <-. discriminate.
Qed.

Lemma is_referring_to_loop_True_or_None (DB : RevitAPI.t)
    (HOST_APP : HostApp.t) (doc : Document.t) (target_viewname : string)
    (ref_elids : list ElementId) (v : option bool) :
  is_referring_to_loop DB HOST_APP doc target_viewname ref_elids = Ok v ->
  v = Some true \/ v = None.
Proof.
  induction ref_elids as [|ref_elid rest IH]; cbn [is_referring_to_loop].
  - intros H. injection H as <-. now right.
  - destruct (Document.GetElement doc ref_elid) as [o|]; cbn; [|discriminate].
    destruct (Parameter_get (element_of o) _) as [targetview_param|].
    + destruct (Document.GetElement doc _) as [tvp_view|]; [|exact IH].
      destruct (get_name DB HOST_APP (element_of tvp_view) false) as [n|];
        cbn; [|discriminate].
      destruct (String.eqb n target_viewname); [|exact IH].
      intros H. injection H as <-. now left.
    + destruct (get_name DB HOST_APP (element_of o) false) as [n|];
        cbn; [|discriminate].
      destruct (String.eqb n target_viewname); [|exact IH].
      intros H. injection H as <-. now left.
Qed.

Lemma first_such_iff {A : Type} (P Q : A -> Prop) (l : list A) (x : A) :
  (forall y, P y <-> Q y) -> first_such P l x <-> first_such Q l x.
Proof.
  intros H. split; intros [before [after [Hl [Hx Hb]]]];
    exists before, after; (split; [assumption|]);
    (split; [now apply H|]); intros y Hy Hn; apply (Hb y Hy); now apply H.
Qed.

Lemma find_iff_first_such {A : Type} (f : A -> bool) (l : list A) (x : A) :
  find f l = Some x <-> first_such (fun y => f y = true) l x.
Proof. split; [apply find_first_such | apply find_of_first_such]. Qed.

Lemma mapM_pure {A B : Type} (f : A -> result B) (g : A -> B) (l : list A) :
  (forall x, In x l -> f x = Ok (g x)) -> mapM f l = Ok (map g l).
Proof.
  induction l as [|a l IH]; intros H; [reflexivity|].
  cbn [mapM map]. rewrite (H a (or_introl eq_refl)). cbn.
  now rewrite IH by (intros x Hx; apply H; now right).
Qed.

(** The id read off a viewport that resolves. *)
Lemma attr_ViewId_resolved (d : Document.t) (vp view_id : ElementId) :
  viewport_shows d vp view_id ->
  attr_ViewId (Document.GetElement d vp) = Ok view_id.
Proof. intros [e ->]. reflexivity. Qed.

(** What [is_view_sheeted] returns when the viewports of the sheets are
    viewports of the document. *)
Lemma is_view_sheeted_spec (DB : RevitAPI.t) (HOST_APP : HostApp.t)
    (d : Document.t) (view : Element.t) :
  viewports_resolve d ->
  exists b,
    is_view_sheeted DB HOST_APP d view = Ok b
    /\ (b = true <-> sheeted d view).
Proof.
  intros Hwf.
  set (view_of := fun vp =>
         match Document.GetElement d vp with
         | Some (H_Viewport _ id) => id
         | _ => 0
         end).
  assert (forall sht vp, In sht (Document.Sheets d) ->
            In vp (ViewSheet.GetAllViewports sht) ->
            viewport_shows d vp (view_of vp)) as Hview.
  { intros sht vp Hs Hv. destruct (Hwf sht vp Hs Hv) as [id [e H]].
    exists e. unfold view_of. now rewrite H. }
  unfold is_view_sheeted, get_all_sheeted_views, get_sheets. cbn.
  rewrite (@mapM_pure _ _ _
             (fun sht => map view_of (ViewSheet.GetAllViewports sht))).
  2:{ intros sht Hs. apply mapM_pure. intros vp Hv. cbn.
      now apply attr_ViewId_resolved, (Hview sht). }
  cbn. eexists. split; [reflexivity|].
  rewrite existsb_exists. unfold sheeted. split.
  - intros [id [Hin Hid]]. apply Z.eqb_eq in Hid. subst id.
    apply in_concat in Hin as [ids [Hids Hin]].
    apply in_map_iff in Hids as [sht [<- Hs]].
    apply in_map_iff in Hin as [vp [Heq Hv]].
    exists sht, vp. split; [assumption|]. split; [assumption|].
    rewrite <- Heq. now apply (Hview sht).
  - intros [sht [vp [Hs [Hv [e He]]]]]. exists (Element.Id view).
    split; [|apply Z.eqb_refl].
    apply in_concat. exists (map view_of (ViewSheet.GetAllViewports sht)).
    split; [apply in_map_iff; exists sht; now split|].
    apply in_map_iff. exists vp. split; [|assumption].
    unfold view_of. now rewrite He.
Qed.

(** What [is_sheet_empty] returns when the schedules placed on the sheet
    are elements of the document. *)
Lemma is_sheet_empty_spec (HOST_APP : HostApp.t) (doc : Document.t)
    (viewsheet : ViewSheet.t) :
  (forall x, In x (Document.ScheduleSheetInstances doc) ->
             on_sheet viewsheet x ->
             exists revision, schedule_kind doc x revision) ->
  exists b,
    is_sheet_empty HOST_APP doc viewsheet = Ok b
    /\ (b = true <-> bare doc viewsheet).
Proof.
  intros Hwf.
  destruct (@schedules_on_sheet_loop doc viewsheet _ Hwf) as [found [Hf Hin]].
  unfold bare, on_sheet in *.
  exists (negb (list_truthy (ViewSheet.GetAllViewports viewsheet)
                || list_truthy found)).
  split.
  - unfold is_sheet_empty, get_schedules_on_sheet. cbn. rewrite Hf. cbn.
    now destruct (list_truthy _ || list_truthy _).
  - destruct (ViewSheet.GetAllViewports viewsheet) as [|vp vps]; cbn.
    + destruct found as [|a found]; cbn.
      * split; [intros _|reflexivity]. split; [reflexivity|].
        intros x Hx Hon. destruct (Hwf x Hx Hon) as [[|] Hk]; [assumption|].
        destruct (proj2 (Hin x) (conj Hx (conj Hon Hk))).
      * split; [discriminate|]. intros [_ Hall].
        destruct (proj1 (Hin a) (or_introl eq_refl)) as [Ha [Hon Hk]].
        discriminate (schedule_kind_functional (Hall a Ha Hon) Hk).
    + split; [discriminate | intros [H _]; discriminate].
Qed.

Lemma decided_by (b : bool) (P : Prop) (r : result bool) :
  r = Ok b -> (b = true <-> P) ->
  (P -> r = Ok true) /\ (~ P -> r = Ok false).
Proof.
  intros -> H. destruct b; split; intros HP; try reflexivity.
  - destruct HP. now apply H.
  - apply H in HP. discriminate.
Qed.

(** C7, amended: [is_placed], [is_view_sheeted] and [is_sheet_empty]
    return a boolean, [True] in the case their name tells and [False]
    otherwise; [model_has_workset] returns the first workset of the
    document that has the name, or [None] when there is none, and
    [model_has_parameter] the first project parameter that equals the
    query, or [None]; [is_referring_to] returns [True] or [None]. *)
Theorem derived_checks_return_values :
  (forall spatial_element,
     is_placed spatial_element = true
     <-> exists e,
           spatial_element = Obj_Element e
           /\ spatial e
           /\ SFltb (float_of_int 0) (Element.Area e) = true)
  /\ (forall DB HOST_APP d view,
        viewports_resolve d ->
        (sheeted d view -> is_view_sheeted DB HOST_APP d view = Ok true)
        /\ (~ sheeted d view ->
            is_view_sheeted DB HOST_APP d view = Ok false))
  /\ (forall HOST_APP doc viewsheet,
        (forall x, In x (Document.ScheduleSheetInstances doc) ->
                   on_sheet viewsheet x ->
                   exists revision, schedule_kind doc x revision) ->
        (bare doc viewsheet ->
         is_sheet_empty HOST_APP doc viewsheet = Ok true)
        /\ (~ bare doc viewsheet ->
            is_sheet_empty HOST_APP doc viewsheet = Ok false))
  /\ (forall HOST_APP n partial doc d,
        doc_or_active doc HOST_APP = Some d ->
        exists r,
          model_has_workset HOST_APP (OneName n) partial doc = Ok r
          /\ (forall w,
                r = Some w
                <-> first_such (workset_named n partial)
                               (Document.Worksets d) w)
          /\ (r = None
              <-> forall x, In x (Document.Worksets d) ->
                            ~ workset_named n partial x))
  /\ (forall db HOST_APP param_id_or_name doc pps,
        get_project_parameters db HOST_APP (doc_or_active doc HOST_APP)
        = Ok pps ->
        exists r,
          model_has_parameter db HOST_APP param_id_or_name doc = Ok r
          /\ (forall pp,
                r = Some pp
                <-> first_such
                      (fun x =>
                         WrapperAPI.ProjectParameter_eq db x param_id_or_name
                         = true)
                      pps pp)
          /\ (r = None
              <-> forall x, In x pps ->
                            WrapperAPI.ProjectParameter_eq db x
                              param_id_or_name = false))
  /\ (forall DB HOST_APP doc source_view target_view v,
        is_referring_to DB HOST_APP doc source_view target_view = Ok v ->
        v = Some true \/ v = None).
Proof.
  split; [|split; [|split; [|split; [|split]]]].
  - intros [v | e | p]; cbn [is_placed].
    + split; [discriminate | intros [e [H _]]; discriminate].
    + rewrite andb_true_iff. unfold spatial. split.
      * intros [Hc Ha]. exists e. split; [reflexivity|].
        split; [|assumption].
        destruct (Element.Class e); try discriminate; tauto.
      * intros [e' [H [Hc Ha]]]. injection H as <-. split; [|assumption].
        destruct Hc as [-> | [-> | ->]]; reflexivity.
    + split; [discriminate | intros [e [H _]]; discriminate].
  - intros DB HOST_APP d view Hwf.
    destruct (@is_view_sheeted_spec DB HOST_APP d view Hwf) as [b [Hb Hiff]].
    exact (decided_by Hb Hiff).
  - intros HOST_APP doc viewsheet Hwf.
    destruct (@is_sheet_empty_spec HOST_APP doc viewsheet Hwf)
      as [b [Hb Hiff]].
    exact (decided_by Hb Hiff).
  - intros HOST_APP n partial doc d Hdoc.
    unfold model_has_workset, find_workset. rewrite Hdoc.
    cbn [FilteredElementCollector bind].
    destruct partial; eexists; (split; [reflexivity|]); split.
    + intros w. rewrite find_iff_first_such. apply first_such_iff.
      intros y. cbn. apply str_contains_spec.
    + split.
      * intros H x Hx Hn. apply str_contains_spec in Hn.
        pose proof (find_none _ _ H x Hx) as Hf. cbn in Hf. congruence.
      * intros H. apply find_all_false. intros x Hx.
        destruct (str_contains n (Workset.Name x)) eqn:E; [|reflexivity].
        apply str_contains_spec in E. now destruct (H x Hx).
    + intros w. rewrite find_iff_first_such. apply first_such_iff.
      intros y. cbn. rewrite String.eqb_eq. split; congruence.
    + split.
      * intros H x Hx Hn. cbn in Hn.
        pose proof (find_none _ _ H x Hx) as Hf. cbn in Hf.
        apply String.eqb_neq in Hf. congruence.
      * intros H. apply find_all_false. intros x Hx.
        apply String.eqb_neq. intros Hn. apply (H x Hx). cbn. congruence.
  - intros db HOST_APP q doc pps Hpps.
    unfold model_has_parameter, get_project_parameter. rewrite Hpps.
    cbn [bind]. eexists. split; [reflexivity|]. split.
    + intros pp. apply find_iff_first_such.
    + split.
      * intros H x Hx. exact (find_none _ _ H x Hx).
      * intros H. now apply find_all_false.
  - intros DB HOST_APP doc source_view target_view v.
    unfold is_referring_to.
    destruct (get_name DB HOST_APP target_view false) as [n|]; cbn;
      [|discriminate].
    destruct (can_refer_other_views source_view).
    + destruct (get_all_referencing_elements_in_view _ _ _ _) as [ids|]; cbn;
        [|discriminate].
      apply is_referring_to_loop_True_or_None.
    + intros H. injection H as <-. now right.
Qed.

Lemma derived_checks_return_values_witness :
  is_placed (Obj_Element (FixtureMore.room 41 12)) = true
  /\ is_view_sheeted Fixture.DB Fixture.HOST_APP Fixture.doc Fixture.plan
     = Ok true
  /\ is_sheet_empty Fixture.HOST_APP Fixture.doc Fixture.sheet_A101 = Ok true
  /\ (exists r,
        model_has_workset Fixture.HOST_APP (OneName "Grids") true None = Ok r
        /\ (forall w,
              r = Some w
              <-> first_such (workset_named "Grids" true)
                             (Document.Worksets Fixture.doc) w)
        /\ (r = None
            <-> forall x, In x (Document.Worksets Fixture.doc) ->
                          ~ workset_named "Grids" true x))
  /\ (exists r,
        model_has_parameter Fixture.db Fixture.HOST_APP (PyStr "Fire Rating")
          None = Ok r
        /\ (forall pp,
              r = Some pp
              <-> first_such
                    (fun x =>
                       WrapperAPI.ProjectParameter_eq Fixture.db x
                         (PyStr "Fire Rating") = true)
                    [Fixture.fire_rating] pp)
        /\ (r = None
            <-> forall x, In x [Fixture.fire_rating] ->
                          WrapperAPI.ProjectParameter_eq Fixture.db x
                            (PyStr "Fire Rating") = false))
  /\ ((None : option bool) = Some true \/ (None : option bool) = None).
Proof.
  destruct derived_checks_return_values as [H1 [H2 [H3 [H4 [H5 H6]]]]].
  split; [|split; [|split; [|split; [|split]]]].
  - apply H1. exists (FixtureMore.room 41 12). split; [reflexivity|].
    split; [now left | reflexivity].
  - apply (H2 Fixture.DB Fixture.HOST_APP Fixture.doc Fixture.plan).
    + intros sht vp [<- | [<- | []]] Hv; [destruct Hv|].
      destruct Hv as [<- | []]. exists 400, Fixture.plan. reflexivity.
    + exists Fixture.sheet_A102, 200. split; [right; now left|].
      split; [now left|]. exists Fixture.plan. reflexivity.
  - apply (H3 Fixture.HOST_APP Fixture.doc Fixture.sheet_A101).
    + intros x [<- | [<- | []]] Hon.
      * exists true, Fixture.plan. reflexivity.
      * exists false, Fixture.plan. reflexivity.
    + split; [reflexivity|]. intros x [<- | [<- | []]] Hon.
      * exists Fixture.plan. reflexivity.
      * discriminate Hon.
  - apply (H4 Fixture.HOST_APP "Grids" true None Fixture.doc). reflexivity.
  - apply (H5 Fixture.db Fixture.HOST_APP (PyStr "Fire Rating") None).
    reflexivity.
  - apply (H6 Fixture.DB Fixture.HOST_APP Fixture.doc Fixture.plan
              Fixture.section).
    reflexivity.
Defined.

(** What the derived checks give on the fixture. *)
Example derived_checks_on_fixture :
  model_has_workset Fixture.HOST_APP (OneName "Levels") true None
  = Ok (Some Fixture.level_grid)
  /\ model_has_workset Fixture.HOST_APP (OneName "Levels") false None = Ok None
  /\ model_has_parameter Fixture.db Fixture.HOST_APP (PyStr "Fire Rating") None
     = Ok (Some Fixture.fire_rating)
  /\ is_referring_to Fixture.DB Fixture.HOST_APP Fixture.doc Fixture.plan
       Fixture.section = Ok None
  /\ is_view_sheeted Fixture.DB Fixture.HOST_APP Fixture.doc Fixture.plan
     = Ok true
  /\ is_view_sheeted Fixture.DB Fixture.HOST_APP Fixture.doc Fixture.section
     = Ok false
  /\ is_placed (Obj_Element Fixture.plan) = false
  /\ is_placed (Obj_Element (FixtureMore.room 42 0)) = false.
Proof. repeat split; reflexivity. Qed.

(** No element passes the test of [get_all_referencing_elements_in_view]:
    [get_builtincategory] resolves names and ids, and is given neither. *)
Lemma get_all_referencing_elements_in_view_nil (DB : RevitAPI.t)
    (HOST_APP : HostApp.t) (view_Document : Document.t) (view : Element.t) :
  get_all_referencing_elements_in_view DB HOST_APP view_Document view = Ok [].
Proof.
  unfold get_all_referencing_elements_in_view.
  rewrite (@filterM_pure _ _ (fun _ => false)).
  - cbn. induction (Document.ElementsInView _ _) as [|a l IH];
      [reflexivity | exact IH].
  - intros x _. now destruct (Element.Category x).
Qed.

(** * More of the module *)

(** ** Views that refer to views *)

Lemma get_name_plain_returns (DB : RevitAPI.t) (HOST_APP : HostApp.t)
    (element : Element.t) :
  exists n, get_name DB HOST_APP element false = Ok n.
Proof.
  unfold get_name. destruct (isinstance_View _); cbn; [|now eexists].
  destruct (HostApp.is_newer_than_2019 HOST_APP); now eexists.
Qed.

Lemma is_referring_to_None (DB : RevitAPI.t) (HOST_APP : HostApp.t)
    (doc : Document.t) (source_view target_view : Element.t) :
  is_referring_to DB HOST_APP doc source_view target_view = Ok None.
Proof.
  unfold is_referring_to.
  destruct (get_name_plain_returns DB HOST_APP target_view) as [n ->]. cbn.
  destruct (can_refer_other_views source_view); [|reflexivity].
  now rewrite get_all_referencing_elements_in_view_nil.
Qed.

(** X1: [is_referring_to] returns [None] for every pair of views: the
    referencing elements of the source view are never collected, since
    their category object resolves to no built-in category. *)
Theorem is_referring_to_always_None
    (DB : RevitAPI.t) (HOST_APP : HostApp.t) (doc : Document.t)
    (source_view target_view : Element.t) :
  (forall c, get_builtincategory DB HOST_APP (Cat_object c) = Ok None)
  /\ get_all_referencing_elements_in_view DB HOST_APP doc source_view = Ok []
  /\ is_referring_to DB HOST_APP doc source_view target_view = Ok None.
Proof.
  split; [reflexivity|].
  split; [apply get_all_referencing_elements_in_view_nil|].
  apply is_referring_to_None.
Qed.

Lemma yield_referring_views_loop_nil (V : ViewAPI.t) (DB : RevitAPI.t)
    (HOST_APP : HostApp.t) (target_view : Element.t)
    (all_views : list Element.t) :
  yield_referring_views_loop V DB HOST_APP target_view all_views = Ok []
  /\ next_referring_view V DB HOST_APP target_view all_views = Ok None.
Proof.
  induction all_views as [|view rest [IH1 IH2]]; [now split|].
  cbn [yield_referring_views_loop next_referring_view].
  rewrite is_referring_to_None. cbn. now rewrite IH1, IH2.
Qed.

(** [get_all_views] of a document that is there returns. *)
Lemma get_all_views_returns (V : ViewAPI.t) (HOST_APP : HostApp.t)
    (d : Document.t) (view_types : option (list ViewType))
    (include_nongraphical : bool) :
  exists views,
    get_all_views V HOST_APP (Some d) view_types include_nongraphical
    = Ok views.
Proof.
  unfold get_all_views. cbn.
  destruct (negb include_nongraphical); now eexists.
Qed.

Lemma views_or_all_returns (V : ViewAPI.t) (HOST_APP : HostApp.t)
    (all_views : option (list Element.t)) (d : Document.t) :
  exists views, views_or_all V HOST_APP all_views (Some d) = Ok views.
Proof.
  unfold views_or_all. destruct all_views as [[|v vs]|];
    try apply get_all_views_returns. now eexists.
Qed.

Lemma yield_referring_views_nil (V : ViewAPI.t) (DB : RevitAPI.t)
    (HOST_APP : HostApp.t) (target_view : Element.t)
    (all_views : option (list Element.t)) :
  yield_referring_views V DB HOST_APP target_view all_views = Ok [].
Proof.
  unfold yield_referring_views.
  destruct (views_or_all_returns V HOST_APP all_views
              (ViewAPI.Document V target_view)) as [views ->]. cbn.
  apply yield_referring_views_loop_nil.
Qed.

(** X2: whatever the views, [yield_referring_views] and
    [yield_referenced_views] yield nothing, and [yield_unreferenced_views]
    yields every view it is given or collects. *)
Theorem yield_views_by_reference
    (V : ViewAPI.t) (DB : RevitAPI.t) (HOST_APP : HostApp.t)
    (doc : option Document.t) (all_views : option (list Element.t))
    (views : list Element.t) :
  views_or_all V HOST_APP all_views (doc_or_active doc HOST_APP) = Ok views ->
  (forall target_view some_views,
     yield_referring_views V DB HOST_APP target_view some_views = Ok [])
  /\ yield_referenced_views V DB HOST_APP doc all_views = Ok []
  /\ yield_unreferenced_views V DB HOST_APP doc all_views
     = Ok (map Element.Id views).
Proof.
  intros Hviews. split; [intros; apply yield_referring_views_nil|].
  unfold yield_referenced_views, yield_unreferenced_views.
  rewrite Hviews. cbn. clear Hviews. split.
  - induction views as [|view rest IH]; [reflexivity|].
    cbn [yield_referenced_views_loop].
    destruct (views_or_all_returns V HOST_APP None (ViewAPI.Document V view))
      as [candidates ->]. cbn.
    rewrite (proj2 (yield_referring_views_loop_nil V DB HOST_APP view
                      candidates)). cbn.
    now rewrite IH.
  - induction views as [|view rest IH]; [reflexivity|].
    cbn [yield_unreferenced_views_loop].
    rewrite yield_referring_views_nil. cbn. now rewrite IH.
Qed.

Lemma yield_views_by_reference_witness :
  (forall target_view some_views,
     yield_referring_views FixtureMore.V Fixture.DB FixtureMore.HOST_APP
       target_view some_views = Ok [])
  /\ yield_referenced_views FixtureMore.V Fixture.DB FixtureMore.HOST_APP
       None None = Ok []
  /\ yield_unreferenced_views FixtureMore.V Fixture.DB FixtureMore.HOST_APP
       None None = Ok (map Element.Id [Fixture.plan; Fixture.section;
                                       FixtureMore.legend]).
Proof.
  apply (@yield_views_by_reference FixtureMore.V Fixture.DB
           FixtureMore.HOST_APP None None).
  reflexivity.
Defined.

(** ** Collecting views *)

Lemma in_view_types_In (t : ViewType) (view_types : list ViewType) :
  in_view_types t view_types = true <-> In t view_types.
Proof.
  unfold in_view_types. rewrite existsb_exists. split.
  - intros [y [Hy H]]. apply internal_ViewType_dec_bl in H. now subst.
  - intros H. exists t. split; [assumption|].
    now apply internal_ViewType_dec_lb.
Qed.

(** X3: by default [get_all_views] returns graphical views only, none of
    them a template or view-specific; [get_all_view_templates] returns
    templates only, so no view is in both results. *)
Theorem get_all_views_and_templates_disjoint
    (V : ViewAPI.t) (HOST_APP : HostApp.t) (doc : option Document.t)
    (d : Document.t) (view_types : option (list ViewType)) :
  doc_or_active doc HOST_APP = Some d ->
  exists views templates,
    get_all_views V HOST_APP doc view_types false = Ok views
    /\ get_all_view_templates V HOST_APP doc view_types = Ok templates
    /\ (forall x, In x views ->
          In x (Document.Elements d)
          /\ In (ViewAPI.ViewType V x) GRAPHICAL_VIEWTYPES
          /\ ViewAPI.IsTemplate V x = false
          /\ ViewAPI.ViewSpecific V x = false)
    /\ (forall x, In x templates ->
          ViewAPI.IsTemplate V x = true /\ ~ In x views).
Proof.
  intros Hdoc. unfold get_all_view_templates, get_all_views.
  rewrite Hdoc. cbn [FilteredElementCollector bind negb].
  eexists. eexists. split; [reflexivity|]. split; [reflexivity|]. split.
  - intros x Hx. apply filter_In in Hx as [Hin Hx].
    apply andb_true_iff in Hx as [Hx Hs].
    apply andb_true_iff in Hx as [Hg Ht].
    apply in_view_types_In in Hg.
    apply negb_true_iff in Ht, Hs.
    repeat split; try assumption.
    unfold views_of in Hin.
    destruct view_types as [[|t ts]|];
      repeat (apply filter_In in Hin as [Hin _]); assumption.
  - intros x Hx. apply filter_In in Hx as [_ Ht]. split; [assumption|].
    intros Hx. apply filter_In in Hx as [_ Hx].
    rewrite Ht in Hx. cbn [negb] in Hx.
    now rewrite andb_false_r in Hx.
Qed.

Lemma get_all_views_and_templates_disjoint_witness :
  exists views templates,
    get_all_views FixtureMore.V FixtureMore.HOST_APP None None false = Ok views
    /\ get_all_view_templates FixtureMore.V FixtureMore.HOST_APP None None
       = Ok templates
    /\ (forall x, In x views ->
          In x (Document.Elements FixtureMore.doc)
          /\ In (ViewAPI.ViewType FixtureMore.V x) GRAPHICAL_VIEWTYPES
          /\ ViewAPI.IsTemplate FixtureMore.V x = false
          /\ ViewAPI.ViewSpecific FixtureMore.V x = false)
    /\ (forall x, In x templates ->
          ViewAPI.IsTemplate FixtureMore.V x = true /\ ~ In x views).
Proof.
  apply (@get_all_views_and_templates_disjoint FixtureMore.V
           FixtureMore.HOST_APP None FixtureMore.doc None).
  reflexivity.
Defined.

(** On the fixture: the template and the project browser are left out. *)
Example get_all_views_on_fixture :
  get_all_views FixtureMore.V FixtureMore.HOST_APP None None false
  = Ok [Fixture.plan; Fixture.section; FixtureMore.legend]
  /\ get_all_view_templates FixtureMore.V FixtureMore.HOST_APP None None
     = Ok [FixtureMore.template]
  /\ get_all_views FixtureMore.V FixtureMore.HOST_APP None (Some []) true
     = Ok [Fixture.plan; FixtureMore.template; Fixture.section;
           FixtureMore.legend; FixtureMore.browser].
Proof. repeat split; reflexivity. Qed.

Lemma findM_spec {A : Type} (f : A -> result bool) (g : A -> bool)
    (l : list A) :
  (forall x, In x l -> f x = Ok (g x)) -> findM f l = Ok (find g l).
Proof.
  induction l as [|a l IH]; intros H; [reflexivity|].
  cbn [findM find]. rewrite (H a (or_introl eq_refl)). cbn.
  destruct (g a); [reflexivity|]. apply IH. intros x Hx. apply H. now right.
Qed.

(** The name [get_name] gives a view when the title on sheet is not asked
    for. *)
Lemma get_name_plain (DB : RevitAPI.t) (HOST_APP : HostApp.t)
    (element : Element.t) :
  get_name DB HOST_APP element false
  = Ok (if isinstance_View (Element.Class element)
              && negb (HostApp.is_newer_than_2019 HOST_APP)
        then Element.ViewName element else Element.Name element).
Proof.
  unfold get_name. destruct (isinstance_View _); cbn; [|reflexivity].
  now destruct (HostApp.is_newer_than_2019 HOST_APP).
Qed.

(** X4: [get_view_by_name] returns the first graphical, non-template view
    of that name, and [None] when no such view has it; a view template is
    never found by its name. *)
Theorem get_view_by_name_first_graphical
    (V : ViewAPI.t) (DB : RevitAPI.t) (HOST_APP : HostApp.t)
    (view_name : string) (doc : option Document.t) (d : Document.t)
    (views : list Element.t) :
  doc_or_active doc HOST_APP = Some d ->
  get_all_views V HOST_APP doc None false = Ok views ->
  exists r,
    get_view_by_name V DB HOST_APP view_name doc = Ok r
    /\ match r with
       | Some v =>
           get_name DB HOST_APP v false = Ok view_name
           /\ ViewAPI.IsTemplate V v = false
           /\ exists before after,
                views = (before ++ v :: after)%list
                /\ forall x, In x before ->
                             get_name DB HOST_APP x false <> Ok view_name
       | None =>
           forall x, In x views ->
                     get_name DB HOST_APP x false <> Ok view_name
       end.
Proof.
  intros Hdoc Hviews. unfold get_view_by_name.
  rewrite Hdoc in *.
  assert (get_all_views V HOST_APP (Some d) None false = Ok views) as ->.
  { unfold get_all_views in *. now rewrite Hdoc in Hviews. }
  cbn [bind].
  set (name_of := fun x : Element.t =>
         if isinstance_View (Element.Class x)
               && negb (HostApp.is_newer_than_2019 HOST_APP)
         then Element.ViewName x else Element.Name x).
  rewrite (@findM_spec _ _ (fun x => String.eqb (name_of x) view_name)).
  2:{ intros x _. now rewrite get_name_plain. }
  eexists. split; [reflexivity|].
  assert (forall x, In x views -> ViewAPI.IsTemplate V x = false) as Htpl.
  { intros x Hx. unfold get_all_views in Hviews. rewrite Hdoc in Hviews.
    cbn [FilteredElementCollector bind negb] in Hviews.
    injection Hviews as <-.
    apply filter_In in Hx as [_ Hx].
    apply andb_true_iff in Hx as [Hx _].
    apply andb_true_iff in Hx as [_ Hx]. now apply negb_true_iff in Hx. }
  clear Hviews.
  induction views as [|a l IH]; cbn [find].
  - intros x [].
  - destruct (String.eqb (name_of a) view_name) eqn:Ha.
    + apply String.eqb_eq in Ha. split; [|split].
      * rewrite get_name_plain. now f_equal.
      * apply Htpl. now left.
      * exists [], l. split; [reflexivity | intros x []].
    + apply String.eqb_neq in Ha.
      assert (get_name DB HOST_APP a false <> Ok view_name) as Hna.
      { rewrite get_name_plain. intros H. injection H as H. contradiction. }
      specialize (IH (fun x Hx => Htpl x (or_intror Hx))).
      destruct (find _ l) as [v|].
      * destruct IH as [H1 [H2 [before [after [-> H3]]]]].
        split; [assumption|]. split; [assumption|].
        exists (a :: before), after. split; [reflexivity|].
        intros x [<- | Hx]; [assumption | now apply H3].
      * intros x [<- | Hx]; [assumption | now apply IH].
Qed.

Lemma get_view_by_name_first_graphical_witness :
  exists r,
    get_view_by_name FixtureMore.V Fixture.DB FixtureMore.HOST_APP
      "Plan Template" None = Ok r
    /\ match r with
       | Some v =>
           get_name Fixture.DB FixtureMore.HOST_APP v false
           = Ok "Plan Template"
           /\ ViewAPI.IsTemplate FixtureMore.V v = false
           /\ exists before after,
                [Fixture.plan; Fixture.section; FixtureMore.legend]
                = (before ++ v :: after)%list
                /\ forall x, In x before ->
                             get_name Fixture.DB FixtureMore.HOST_APP x false
                             <> Ok "Plan Template"
       | None =>
           forall x, In x [Fixture.plan; Fixture.section; FixtureMore.legend]
                     -> get_name Fixture.DB FixtureMore.HOST_APP x false
                        <> Ok "Plan Template"
       end.
Proof.
  apply (@get_view_by_name_first_graphical FixtureMore.V Fixture.DB
           FixtureMore.HOST_APP "Plan Template" None FixtureMore.doc).
  - reflexivity.
  - reflexivity.
Defined.

(** On the fixture: a view is found by its name, the template is not. *)
Example get_view_by_name_on_fixture :
  get_view_by_name FixtureMore.V Fixture.DB FixtureMore.HOST_APP
    "Section 1" None = Ok (Some Fixture.section)
  /\ get_view_by_name FixtureMore.V Fixture.DB FixtureMore.HOST_APP
       "Plan Template" None = Ok None.
Proof. split; reflexivity. Qed.

(** ** More on [get_elements_by_parameter] *)

(** With a string name and a string query nothing but an unread storage
    type stops the loop. *)
Lemma get_elements_by_parameter_loop_unread (n q : string) (partial : bool)
    (els acc : list Element.t) (e : Element.t) (p : Param.t) :
  In e els ->
  LookupParameter e (PyStr n) = Ok (Some p) ->
  Param.StorageType p = ST_None ->
  get_elements_by_parameter_loop (PyStr n) (PyStr q) partial els acc
  = Raise UnboundLocalError.
Proof.
  intros Hin Hp Hst. revert acc.
  induction els as [|a els IH]; intros acc; [destruct Hin|].
  cbn [get_elements_by_parameter_loop].
  destruct Hin as [<- | Hin].
  - rewrite Hp. cbn [bind]. unfold get_param_value. now rewrite Hst.
  - cbn [LookupParameter bind].
    destruct (find _ (Element.Parameters a)) as [pa|]; [|now apply IH].
    unfold get_param_value.
    destruct (Param.StorageType pa); cbn; try reflexivity;
      try (destruct partial; cbn; now apply IH).
    destruct (Param.AsString pa) as [s|]; destruct partial; cbn;
      try (now apply IH);
      try (destruct (String.eqb q s); now apply IH).
    destruct (str_contains q s); cbn; [now apply IH|].
    destruct (String.eqb q s); now apply IH.
Qed.

(** X5: one parameter of that name with storage type [None], on any
    element of the document, makes the whole query raise
    [UnboundLocalError], in both modes. *)
Theorem get_elements_by_parameter_unread_parameter_raises
    (HOST_APP : HostApp.t) (doc : option Document.t) (d : Document.t)
    (n q : string) (partial : bool) (e : Element.t) (p : Param.t) :
  doc_or_active doc HOST_APP = Some d ->
  In e (Document.Elements d) ->
  LookupParameter e (PyStr n) = Ok (Some p) ->
  Param.StorageType p = ST_None ->
  get_elements_by_parameter HOST_APP (PyStr n) (PyStr q) doc partial
  = Raise UnboundLocalError.
Proof.
  intros Hdoc Hin Hp Hst.
  unfold get_elements_by_parameter, get_all_elements. rewrite Hdoc. cbn.
  exact (@get_elements_by_parameter_loop_unread n q partial _ [] e p
           Hin Hp Hst).
Qed.

Lemma get_elements_by_parameter_unread_parameter_raises_witness :
  get_elements_by_parameter Fixture.HOST_APP (PyStr "Comments")
    (PyStr "north") (Some Fixture.unsaved_doc) false
  = Raise UnboundLocalError.
Proof.
  apply (@get_elements_by_parameter_unread_parameter_raises Fixture.HOST_APP
           (Some Fixture.unsaved_doc) Fixture.unsaved_doc "Comments" "north"
           false Fixture.door2 (Fixture.unset_param "Comments")).
  - reflexivity.
  - right. left. reflexivity.
  - reflexivity.
  - reflexivity.
Defined.

Lemma get_elements_by_parameter_loop_exact (n : string) (q : pyval)
    (els acc : list Element.t) :
  readable n els ->
  get_elements_by_parameter_loop (PyStr n) q false els acc
  = Ok (acc ++ filter (exact_match n q) els)%list.
Proof.
  revert acc; induction els as [|e els IH]; intros acc Hr.
  - simpl. now rewrite app_nil_r.
  - pose proof (Hr e) as He.
    cbn [get_elements_by_parameter_loop LookupParameter bind filter] in *.
    unfold exact_match at 1, string_value_of. cbn [LookupParameter].
    destruct (find _ (Element.Parameters e)) as [p|] eqn:Hfind;
      [|exact (IH _ (readable_tail Hr))].
    specialize (He p (or_introl eq_refl) eq_refl).
    assert (exists v, get_param_value p = Ok v) as [v Hv].
    { unfold get_param_value.
      destruct (Param.StorageType p); try congruence; cbn; now eexists. }
    rewrite Hv. cbn. destruct (py_eq q v).
    + rewrite (IH _ (readable_tail Hr)). now rewrite <- app_assoc.
    + exact (IH _ (readable_tail Hr)).
Qed.

(** The test of the exact search on what the host holds. *)
Lemma exact_match_holds (n : string) (q : pyval) (e : Element.t) :
  exact_match n q e = true
  <-> exists v, element_holds e n v /\ py_eq q v = true.
Proof.
  unfold exact_match. split.
  - destruct (string_value_of e n) as [[v|]|] eqn:Hv; try discriminate.
    intros H. exists v. split; [now apply string_value_of_holds | exact H].
  - intros [v [Hv H]]. apply string_value_of_holds in Hv. now rewrite Hv.
Qed.

(** X6: with [partial=False], on a document whose parameters of that name
    all have a storage type other than [None], the elements returned are
    those whose parameter of that name holds, on the host, a value equal
    to the query, in document order; a [None] query finds the text
    parameters that were never set. *)
Theorem get_elements_by_parameter_exact_mode
    (HOST_APP : HostApp.t) (doc : option Document.t) (d : Document.t)
    (n : string) (q : pyval) :
  doc_or_active doc HOST_APP = Some d ->
  readable n (Document.Elements d) ->
  exists keep,
    get_elements_by_parameter HOST_APP (PyStr n) q doc false
    = Ok (filter keep (Document.Elements d))
    /\ (forall e,
          keep e = true
          <-> exists v, element_holds e n v /\ py_eq q v = true)
    /\ (q = PyNone ->
        forall e,
          keep e = true
          <-> exists p,
                LookupParameter e (PyStr n) = Ok (Some p)
                /\ Param.StorageType p = ST_String
                /\ Param.AsString p = None).
Proof.
  intros Hdoc Hr. exists (exact_match n q). split; [|split].
  - unfold get_elements_by_parameter, get_all_elements. rewrite Hdoc. cbn.
    now rewrite get_elements_by_parameter_loop_exact.
  - intros e. apply exact_match_holds.
  - intros -> e. rewrite exact_match_holds. split.
    + intros [v [[p [Hp Hv]] Heq]]. exists p. split; [assumption|].
      destruct Hv; try discriminate. now split.
    + intros [p [Hp [Hst Hs]]]. exists PyNone. split; [|reflexivity].
      exists p. split; [assumption | now apply holds_no_string].
Qed.

Lemma get_elements_by_parameter_exact_mode_witness :
  exists keep,
    get_elements_by_parameter Fixture.HOST_APP (PyStr "Comments") (PyInt 7)
      None false
    = Ok (filter keep (Document.Elements Fixture.doc))
    /\ (forall e,
          keep e = true
          <-> exists v,
                element_holds e "Comments" v /\ py_eq (PyInt 7) v = true)
    /\ (PyInt 7 = PyNone ->
        forall e,
          keep e = true
          <-> exists p,
                LookupParameter e (PyStr "Comments") = Ok (Some p)
                /\ Param.StorageType p = ST_String
                /\ Param.AsString p = None).
Proof.
  apply (@get_elements_by_parameter_exact_mode Fixture.HOST_APP None
           Fixture.doc "Comments" (PyInt 7)).
  - reflexivity.
  - intros e p [<- | [<- | [<- | []]]] H; vm_compute in H;
      injection H as <-; discriminate.
Defined.

(** X28: with a string query, on a document whose parameters of that name
    all have a storage type other than [None], [partial=True] returns the
    elements that hold a text containing the query and [partial=False]
    those that hold the query itself, both in document order; what the
    exact search returns the partial search returns too. *)
Theorem get_elements_by_parameter_string_query
    (HOST_APP : HostApp.t) (doc : option Document.t) (d : Document.t)
    (n q : string) :
  doc_or_active doc HOST_APP = Some d ->
  readable n (Document.Elements d) ->
  exists keep_partial keep_exact,
    get_elements_by_parameter HOST_APP (PyStr n) (PyStr q) doc true
    = Ok (filter keep_partial (Document.Elements d))
    /\ get_elements_by_parameter HOST_APP (PyStr n) (PyStr q) doc false
       = Ok (filter keep_exact (Document.Elements d))
    /\ (forall e,
          keep_partial e = true
          <-> exists s, element_holds e n (PyStr s) /\ is_substring q s)
    /\ (forall e, keep_exact e = true <-> element_holds e n (PyStr q))
    /\ (forall e, keep_exact e = true -> keep_partial e = true).
Proof.
  intros Hdoc Hr.
  exists (matches_query n q true), (matches_query n q false).
  unfold get_elements_by_parameter, get_all_elements. rewrite Hdoc. cbn.
  rewrite !get_elements_by_parameter_loop_filter by assumption. cbn.
  split; [reflexivity|]. split; [reflexivity|].
  assert (forall e,
            matches_query n q false e = true
            <-> element_holds e n (PyStr q)) as Hexact.
  { intros e. rewrite matches_query_holds. split.
    - now intros [s [Hs ->]].
    - intros H. now exists q. }
  split; [|split].
  - intros e. apply (matches_query_holds n q true e).
  - exact Hexact.
  - intros e H. apply Hexact in H. apply (matches_query_holds n q true e).
    exists q. split; [assumption | apply is_substring_refl].
Qed.

Lemma get_elements_by_parameter_string_query_witness :
  exists keep_partial keep_exact,
    get_elements_by_parameter Fixture.HOST_APP (PyStr "Comments")
      (PyStr "wall") None true
    = Ok (filter keep_partial (Document.Elements Fixture.doc))
    /\ get_elements_by_parameter Fixture.HOST_APP (PyStr "Comments")
         (PyStr "wall") None false
       = Ok (filter keep_exact (Document.Elements Fixture.doc))
    /\ (forall e,
          keep_partial e = true
          <-> exists s,
                element_holds e "Comments" (PyStr s)
                /\ is_substring "wall" s)
    /\ (forall e,
          keep_exact e = true <-> element_holds e "Comments" (PyStr "wall"))
    /\ (forall e, keep_exact e = true -> keep_partial e = true).
Proof.
  apply (@get_elements_by_parameter_string_query Fixture.HOST_APP None
           Fixture.doc "Comments" "wall").
  - reflexivity.
  - intros e p [<- | [<- | [<- | []]]] H; vm_compute in H;
      injection H as <-; discriminate.
Defined.

(** ** First matches *)

Lemma find_some_of_member {A : Type} (f : A -> bool) (l : list A) (x : A) :
  In x l -> f x = true -> exists y, find f l = Some y.
Proof.
  intros Hin Hx. destruct (find f l) as [y|] eqn:H; [now exists y|].
  rewrite (find_none f l H x Hin) in Hx. discriminate.
Qed.

(** X7: [find_workset] returns the first workset, in collector order,
    whose name equals the query ([partial=False]) or contains it
    ([partial=True]), and [None] exactly when no workset has such a name;
    when the exact search finds a workset the partial search finds one
    too, which need not be the same. *)
Theorem find_workset_first_match
    (HOST_APP : HostApp.t) (doc : option Document.t) (d : Document.t)
    (n : string) :
  doc_or_active doc HOST_APP = Some d ->
  exists exact partial,
    find_workset HOST_APP (OneName n) doc false = Ok exact
    /\ find_workset HOST_APP (OneName n) doc true = Ok partial
    /\ (forall w, exact = Some w ->
          first_such (fun x => Workset.Name x = n) (Document.Worksets d) w)
    /\ (forall w, partial = Some w ->
          first_such (fun x => is_substring n (Workset.Name x))
                     (Document.Worksets d) w)
    /\ (exact <> None -> partial <> None)
    /\ (exact = None <->
        forall x, In x (Document.Worksets d) -> Workset.Name x <> n)
    /\ (partial = None <->
        forall x, In x (Document.Worksets d) ->
                  ~ is_substring n (Workset.Name x)).
Proof.
  intros Hdoc. unfold find_workset. rewrite Hdoc. cbn.
  eexists. eexists. split; [reflexivity|]. split; [reflexivity|].
  split; [|split; [|split; [|split]]].
  - intros w H. apply find_first_such in H.
    destruct H as [before [after [Hl [Hw Hb]]]].
    exists before, after. split; [assumption|]. split.
    + apply String.eqb_eq in Hw. now symmetry.
    + intros y Hy Hn. apply (Hb y Hy). subst n. apply String.eqb_refl.
  - intros w H. apply find_first_such in H.
    destruct H as [before [after [Hl [Hw Hb]]]].
    exists before, after. split; [assumption|]. split.
    + now apply str_contains_spec.
    + intros y Hy Hn. apply (Hb y Hy). now apply str_contains_spec.
  - intros Hex.
    destruct (find (fun workset => String.eqb n (Workset.Name workset))
                   (Document.Worksets d)) as [w|] eqn:Hw; [|contradiction].
    apply find_some in Hw as [Hin Hw]. apply String.eqb_eq in Hw.
    destruct (@find_some_of_member _
                (fun workset => str_contains n (Workset.Name workset))
                (Document.Worksets d) w Hin) as [y ->]; [|discriminate].
    apply str_contains_spec. rewrite <- Hw. apply is_substring_refl.
  - split.
    + intros H x Hx Hn. pose proof (find_none _ _ H x Hx) as Hf.
      cbn in Hf. subst n. now rewrite String.eqb_refl in Hf.
    + intros H. apply find_all_false. intros x Hx.
      apply String.eqb_neq. intros ->. now apply (H x Hx).
  - split.
    + intros H x Hx Hn. pose proof (find_none _ _ H x Hx) as Hf.
      cbn in Hf. apply str_contains_spec in Hn. congruence.
    + intros H. apply find_all_false. intros x Hx.
      destruct (str_contains n (Workset.Name x)) eqn:E; [|reflexivity].
      apply str_contains_spec in E. now destruct (H x Hx).
Qed.

Lemma find_workset_first_match_witness :
  exists exact partial,
    find_workset Fixture.HOST_APP (OneName "Grids")
      (Some FixtureMore.shared_doc) false = Ok exact
    /\ find_workset Fixture.HOST_APP (OneName "Grids")
      (Some FixtureMore.shared_doc) true = Ok partial
    /\ (forall w, exact = Some w ->
          first_such (fun x => Workset.Name x = "Grids")
                     (Document.Worksets FixtureMore.shared_doc) w)
    /\ (forall w, partial = Some w ->
          first_such (fun x => is_substring "Grids" (Workset.Name x))
                     (Document.Worksets FixtureMore.shared_doc) w)
    /\ (exact <> None -> partial <> None)
    /\ (exact = None <->
        forall x, In x (Document.Worksets FixtureMore.shared_doc) ->
                  Workset.Name x <> "Grids")
    /\ (partial = None <->
        forall x, In x (Document.Worksets FixtureMore.shared_doc) ->
                  ~ is_substring "Grids" (Workset.Name x)).
Proof.
  apply (@find_workset_first_match Fixture.HOST_APP
           (Some FixtureMore.shared_doc) FixtureMore.shared_doc "Grids").
  reflexivity.
Defined.

(** On the fixture "Grids" is found by containment only, the two searches
    for "Levels" find different worksets, and a list of names is always
    searched by containment. *)
Example find_workset_on_fixture :
  find_workset Fixture.HOST_APP (OneName "Grids")
    (Some FixtureMore.shared_doc) true = Ok (Some Fixture.level_grid)
  /\ find_workset Fixture.HOST_APP (OneName "Grids")
       (Some FixtureMore.shared_doc) false = Ok None
  /\ find_workset Fixture.HOST_APP (OneName "Levels")
       (Some FixtureMore.shared_doc) false = Ok (Some FixtureMore.levels)
  /\ find_workset Fixture.HOST_APP (OneName "Levels")
       (Some FixtureMore.shared_doc) true = Ok (Some Fixture.level_grid)
  /\ find_workset Fixture.HOST_APP (Names ["Roof"; "Levels"])
       (Some FixtureMore.shared_doc) false = Ok (Some Fixture.level_grid).
Proof. repeat split; reflexivity. Qed.

(** ** Shared and project parameters *)

Lemma dict_get_set_same {V : Type} (d : list (string * V)) (k : string)
    (v : V) :
  dict_get String.eqb (dict_set String.eqb d k v) k = Some v.
Proof.
  induction d as [|[k' v'] d IH]; cbn.
  - now rewrite String.eqb_refl.
  - destruct (String.eqb k' k) eqn:H; cbn; rewrite H; [reflexivity | exact IH].
Qed.

Lemma dict_get_set_other {V : Type} (d : list (string * V)) (k k' : string)
    (v : V) :
  k <> k' ->
  dict_get String.eqb (dict_set String.eqb d k v) k' = dict_get String.eqb d k'.
Proof.
  intros Hne. induction d as [|[k0 v0] d IH]; cbn.
  - apply String.eqb_neq in Hne. now rewrite Hne.
  - destruct (String.eqb k0 k) eqn:H; cbn.
    + apply String.eqb_eq in H. subst k0.
      apply String.eqb_neq in Hne. now rewrite Hne.
    + destruct (String.eqb k0 k'); [reflexivity | exact IH].
Qed.

(** The dictionary [{x.Name: x for x in defs}] looked up by name. *)
Lemma shared_params_get (defs : list ExternalDefinition.t)
    (d0 : list (string * ExternalDefinition.t)) (n : string) :
  dict_get String.eqb
    (fold_left (fun d x => dict_set String.eqb d (ExternalDefinition.Name x) x)
               defs d0) n
  = match last_named n defs with
    | Some x => Some x
    | None => dict_get String.eqb d0 n
    end.
Proof.
  unfold last_named. revert d0.
  induction defs as [|a defs IH]; intros d0; [reflexivity|].
  cbn [fold_left rev]. rewrite IH, find_app.
  destruct (find _ (rev defs)); [reflexivity|]. cbn [find].
  destruct (String.eqb_spec (ExternalDefinition.Name a) n) as [<- | Hne].
  - apply dict_get_set_same.
  - now apply dict_get_set_other.
Qed.

(** X8: [get_defined_sharedparams] swallows the errors of
    [get_sharedparam_definition_file]: it returns the definitions of all
    groups when the file opens and the empty list when none is set or it
    does not open, and [get_project_parameters] returns in every case. *)
Theorem get_defined_sharedparams_never_raises
    (db : WrapperAPI.t) (HOST_APP : HostApp.t) (doc : option Document.t) :
  exists defs,
    get_defined_sharedparams HOST_APP = Ok defs
    /\ (forall f, get_sharedparam_definition_file HOST_APP = Ok f ->
                  defs = List.concat (DefinitionFile.Groups f))
    /\ (forall e, get_sharedparam_definition_file HOST_APP = Raise e ->
                  defs = [])
    /\ exists pps, get_project_parameters db HOST_APP doc = Ok pps.
Proof.
  unfold get_defined_sharedparams.
  assert (forall e, get_sharedparam_definition_file HOST_APP = Raise e ->
                    exists msg, e = PyRevitException msg) as Hexn.
  { unfold get_sharedparam_definition_file. intros e.
    destruct (str_truthy _);
      [destruct (HostApp.OpenSharedParameterFile HOST_APP)|];
      intros H; try discriminate; injection H as <-; now eexists. }
  destruct (get_sharedparam_definition_file HOST_APP) as [f | e].
  - eexists. split; [reflexivity|]. split; [|split].
    + intros f' H. now injection H as <-.
    + discriminate.
    + apply get_project_parameters_returns.
  - destruct (Hexn e eq_refl) as [msg ->].
    exists []. split; [reflexivity|]. split; [discriminate|].
    split; [reflexivity | apply get_project_parameters_returns].
Qed.

Lemma get_defined_sharedparams_never_raises_witness :
  exists defs,
    get_defined_sharedparams FixtureMore.HOST_APP_shared = Ok defs
    /\ (forall f,
          get_sharedparam_definition_file FixtureMore.HOST_APP_shared = Ok f ->
          defs = List.concat (DefinitionFile.Groups f))
    /\ (forall e,
          get_sharedparam_definition_file FixtureMore.HOST_APP_shared
          = Raise e -> defs = [])
    /\ exists pps,
         get_project_parameters Fixture.db FixtureMore.HOST_APP_shared None
         = Ok pps.
Proof.
  exact (@get_defined_sharedparams_never_raises Fixture.db
           FixtureMore.HOST_APP_shared None).
Defined.

(** X9: in a project document every parameter binding gives one project
    parameter, in the order of the bindings, built with the shared
    definition of the same name; of several definitions of one name the
    last in the file is taken. *)
Theorem get_project_parameters_pairs_last_definition
    (db : WrapperAPI.t) (HOST_APP : HostApp.t) (doc : option Document.t)
    (d : Document.t) (defs : list ExternalDefinition.t) :
  doc_or_active doc HOST_APP = Some d ->
  Document.IsFamilyDocument d = false ->
  get_defined_sharedparams HOST_APP = Ok defs ->
  get_project_parameters db HOST_APP doc
  = Ok (map (fun kb =>
               WrapperAPI.ProjectParameter_new db (fst kb) (snd kb)
                 (last_named (InternalDefinition.Name (fst kb)) defs))
            (Document.ParameterBindings d)).
Proof.
  intros Hdoc Hfam Hdefs. unfold get_project_parameters.
  rewrite Hdefs, Hdoc, Hfam. cbn. f_equal.
  apply map_ext. intros kb. rewrite shared_params_get.
  now destruct (last_named _ defs).
Qed.

Lemma get_project_parameters_pairs_last_definition_witness :
  get_project_parameters FixtureMore.db FixtureMore.HOST_APP_shared None
  = Ok (map (fun kb =>
               WrapperAPI.ProjectParameter_new FixtureMore.db (fst kb) (snd kb)
                 (last_named (InternalDefinition.Name (fst kb))
                    [FixtureMore.shared "Fire Rating" "guid-1";
                     FixtureMore.shared "Acoustic" "guid-2";
                     FixtureMore.shared "Fire Rating" "guid-3"]))
            (Document.ParameterBindings Fixture.doc)).
Proof.
  apply (@get_project_parameters_pairs_last_definition FixtureMore.db
           FixtureMore.HOST_APP_shared None Fixture.doc).
  - reflexivity.
  - reflexivity.
  - reflexivity.
Defined.

(** On the fixture "Fire Rating" is paired with its second definition. *)
Example get_project_parameters_on_fixture :
  get_project_parameters FixtureMore.db FixtureMore.HOST_APP_shared None
  = Ok [(Fixture.fire_rating,
         Some (FixtureMore.shared "Fire Rating" "guid-3"))].
Proof. reflexivity. Qed.

(** X10: a family document has no project parameters: the list is empty,
    no parameter is found by name or id, and every name makes
    [get_project_parameter_id] raise when the family is the active
    document. *)
Theorem family_document_has_no_project_parameters
    (db : WrapperAPI.t) (HOST_APP : HostApp.t) (doc : option Document.t)
    (d : Document.t) :
  doc_or_active doc HOST_APP = Some d ->
  Document.IsFamilyDocument d = true ->
  get_project_parameters db HOST_APP doc = Ok []
  /\ (forall param_id_or_name,
        model_has_parameter db HOST_APP param_id_or_name doc = Ok None)
  /\ (doc = None ->
      forall param_name,
        get_project_parameter_id db HOST_APP param_name
        = Raise (PyRevitException ("Parameter not found: " ++ param_name))).
Proof.
  intros Hdoc Hfam.
  assert (forall doc', doc_or_active doc' HOST_APP = Some d ->
                       get_project_parameters db HOST_APP doc' = Ok []) as H.
  { intros doc' Hdoc'. unfold get_project_parameters.
    destruct (get_defined_sharedparams_returns HOST_APP) as [l ->]. cbn.
    now rewrite Hdoc', Hfam. }
  split; [now apply H|]. split.
  - intros q. unfold model_has_parameter, get_project_parameter.
    rewrite H; [reflexivity|]. now rewrite doc_or_active_idem.
  - intros -> n. unfold get_project_parameter_id. now rewrite (H None Hdoc).
Qed.

Lemma family_document_has_no_project_parameters_witness :
  get_project_parameters Fixture.db FixtureMore.HOST_APP_family None = Ok []
  /\ (forall param_id_or_name,
        model_has_parameter Fixture.db FixtureMore.HOST_APP_family
          param_id_or_name None = Ok None)
  /\ (@None Document.t = None ->
      forall param_name,
        get_project_parameter_id Fixture.db FixtureMore.HOST_APP_family
          param_name
        = Raise (PyRevitException ("Parameter not found: " ++ param_name))).
Proof.
  apply (@family_document_has_no_project_parameters Fixture.db
           FixtureMore.HOST_APP_family None FixtureMore.family_doc).
  - reflexivity.
  - reflexivity.
Defined.

(** X11: [get_project_parameter_id] returns the id of the first project
    parameter of that name. *)
Theorem get_project_parameter_id_first_of_name
    (db : WrapperAPI.t) (HOST_APP : HostApp.t) (param_name : string)
    (pps : list (WrapperAPI.ProjectParameter db))
    (pp : WrapperAPI.ProjectParameter db) :
  get_project_parameters db HOST_APP None = Ok pps ->
  first_such (fun x => WrapperAPI.name db x = param_name) pps pp ->
  get_project_parameter_id db HOST_APP param_name
  = Ok (WrapperAPI.param_id db pp).
Proof.
  intros Hpps [before [after [-> [Hname Hb]]]].
  unfold get_project_parameter_id. rewrite Hpps. cbn.
  rewrite find_app, find_all_false.
  - cbn. apply String.eqb_eq in Hname. now rewrite Hname.
  - intros x Hx. apply String.eqb_neq. now apply Hb.
Qed.

Lemma get_project_parameter_id_first_of_name_witness :
  get_project_parameter_id Fixture.db Fixture.HOST_APP "Fire Rating"
  = Ok (WrapperAPI.param_id Fixture.db Fixture.fire_rating).
Proof.
  apply (@get_project_parameter_id_first_of_name Fixture.db Fixture.HOST_APP
           "Fire Rating" [Fixture.fire_rating] Fixture.fire_rating).
  - reflexivity.
  - exists [], []. split; [reflexivity|]. split; [reflexivity | intros y []].
Defined.

(** ** Sheets and the views on them *)

(** X12: [get_sheet_by_number] returns the first sheet, in collector
    order, that carries the number, [None] exactly when no sheet does, and
    [None] for a number that is [None]. *)
Theorem get_sheet_by_number_first_sheet
    (DB : RevitAPI.t) (HOST_APP : HostApp.t) (doc : option Document.t)
    (d : Document.t) (sheet_num : string) :
  doc_or_active doc HOST_APP = Some d ->
  exists r,
    get_sheet_by_number DB HOST_APP (PyStr sheet_num) doc = Ok r
    /\ (forall s, r = Some s ->
          first_such (fun x => ViewSheet.SheetNumber x = sheet_num)
                     (Document.Sheets d) s)
    /\ (r = None <->
        forall x, In x (Document.Sheets d) ->
                  ViewSheet.SheetNumber x <> sheet_num)
    /\ get_sheet_by_number DB HOST_APP PyNone doc = Ok None.
Proof.
  intros Hdoc. unfold get_sheet_by_number, get_sheets.
  rewrite doc_or_active_idem, Hdoc. cbn.
  eexists. split; [reflexivity|]. split; [|split].
  - intros s H. apply find_first_such in H.
    destruct H as [before [after [Hl [Hs Hb]]]].
    exists before, after. split; [assumption|]. split.
    + now apply String.eqb_eq.
    + intros y Hy Hn. apply (Hb y Hy). now apply String.eqb_eq.
  - split.
    + intros H x Hx Hn. pose proof (find_none _ _ H x Hx) as Hf.
      cbn in Hf. apply String.eqb_neq in Hf. contradiction.
    + intros H. apply find_all_false. intros x Hx.
      apply String.eqb_neq. now apply H.
  - now rewrite find_all_false.
Qed.

Lemma get_sheet_by_number_first_sheet_witness :
  exists r,
    get_sheet_by_number Fixture.DB Fixture.HOST_APP (PyStr "A102") None = Ok r
    /\ (forall s, r = Some s ->
          first_such (fun x => ViewSheet.SheetNumber x = "A102")
                     (Document.Sheets Fixture.doc) s)
    /\ (r = None <->
        forall x, In x (Document.Sheets Fixture.doc) ->
                  ViewSheet.SheetNumber x <> "A102")
    /\ get_sheet_by_number Fixture.DB Fixture.HOST_APP PyNone None = Ok None.
Proof.
  apply (@get_sheet_by_number_first_sheet Fixture.DB Fixture.HOST_APP None
           Fixture.doc "A102").
  reflexivity.
Defined.

(** X13: when the viewports of the sheets are viewports of the document,
    [is_view_sheeted] returns [True] exactly when some viewport of some
    sheet shows the view. *)
Theorem is_view_sheeted_exactly
    (DB : RevitAPI.t) (HOST_APP : HostApp.t) (d : Document.t)
    (view : Element.t) :
  viewports_resolve d ->
  exists b,
    is_view_sheeted DB HOST_APP d view = Ok b
    /\ (b = true <->
        exists sht vp,
          In sht (Document.Sheets d)
          /\ In vp (ViewSheet.GetAllViewports sht)
          /\ viewport_shows d vp (Element.Id view)).
Proof.
  intros Hwf. exact (@is_view_sheeted_spec DB HOST_APP d view Hwf).
Qed.

Lemma is_view_sheeted_exactly_witness :
  exists b,
    is_view_sheeted Fixture.DB Fixture.HOST_APP Fixture.doc Fixture.plan = Ok b
    /\ (b = true <->
        exists sht vp,
          In sht (Document.Sheets Fixture.doc)
          /\ In vp (ViewSheet.GetAllViewports sht)
          /\ viewport_shows Fixture.doc vp (Element.Id Fixture.plan)).
Proof.
  apply (@is_view_sheeted_exactly Fixture.DB Fixture.HOST_APP Fixture.doc
           Fixture.plan).
  intros sht vp [<- | [<- | []]] Hv; [destruct Hv|].
  destruct Hv as [<- | []]. exists 400, Fixture.plan. reflexivity.
Defined.

(** ** Filtering by category twice *)

Lemma filterM_members {A : Type} (f : A -> result bool) (l r : list A) :
  filterM f l = Ok r -> forall x, In x r -> f x = Ok true.
Proof.
  revert r; induction l as [|a l IH]; intros r; cbn [filterM].
  - intros H. injection H as <-. intros x [].
  - destruct (f a) as [b|] eqn:Ha; cbn; [|discriminate].
    destruct (filterM f l) as [r'|]; cbn; [|discriminate].
    intros H. injection H as <-. specialize (IH r' eq_refl).
    destruct b; [|exact IH].
    intros x [<- | Hx]; [assumption | now apply IH].
Qed.

Lemma filterM_all_true {A : Type} (f : A -> result bool) (l : list A) :
  (forall x, In x l -> f x = Ok true) -> filterM f l = Ok l.
Proof.
  intros H. rewrite (@filterM_pure _ f (fun _ => true) l H).
  f_equal. induction l as [|a l IH]; [reflexivity|]. cbn. f_equal.
  apply IH. intros x Hx. apply H. now right.
Qed.

(** X14: filtering the result of [get_elements_by_category] by the same
    categories again gives the same list, as long as that result is not
    empty (an empty one sends the second call to the whole model). *)
Theorem get_elements_by_category_twice
    (DB : RevitAPI.t) (HOST_APP : HostApp.t)
    (element_bicats : list BuiltInCategory) (elements found : list Element.t)
    (doc doc' : option Document.t) :
  elements <> [] ->
  get_elements_by_category DB HOST_APP element_bicats (Some elements) doc
  = Ok found ->
  found <> [] ->
  get_elements_by_category DB HOST_APP element_bicats (Some found) doc'
  = Ok found.
Proof.
  intros Hne H Hfound. unfold get_elements_by_category in *.
  destruct elements as [|x0 xs]; [contradiction|].
  destruct found as [|y0 ys]; [contradiction|].
  apply filterM_all_true. exact (filterM_members _ _ H).
Qed.

Lemma get_elements_by_category_twice_witness :
  get_elements_by_category Fixture.DB Fixture.HOST_APP [Fixture.OST_Walls]
    (Some [Fixture.wall2; Fixture.wall1]) (Some Fixture.unsaved_doc)
  = Ok [Fixture.wall2; Fixture.wall1].
Proof.
  apply (@get_elements_by_category_twice Fixture.DB Fixture.HOST_APP
           [Fixture.OST_Walls]
           [Fixture.door1; Fixture.wall2; Fixture.wall1]
           [Fixture.wall2; Fixture.wall1] None (Some Fixture.unsaved_doc)).
  - discriminate.
  - reflexivity.
  - discriminate.
Defined.

(** ** What every grid point is *)

Lemma dict_set_members {K V : Type} (same_key : K -> K -> bool)
    (P : K -> V -> Prop) (d : list (K * V)) (k : K) (v : V) :
  (forall k0 v0, In (k0, v0) d -> P k0 v0) ->
  P k v ->
  (forall k0, same_key k0 k = true -> P k0 v) ->
  forall k0 v0, In (k0, v0) (dict_set same_key d k v) -> P k0 v0.
Proof.
  intros Hd Hk Hsame. induction d as [|[k' v'] d IH]; cbn.
  - intros k0 v0 [H | []]. injection H as <- <-. assumption.
  - destruct (same_key k' k) eqn:Hs.
    + intros k0 v0 [H | H].
      * injection H as <- <-. now apply Hsame.
      * apply Hd. now right.
    + intros k0 v0 [H | H].
      * apply Hd. now left.
      * apply IH; [|assumption]. intros k1 v1 H1. apply Hd. now right.
Qed.

Lemma get_gridpoints_inner_crossings (DB : RevitAPI.t) (db : WrapperAPI.t)
    (source : list Grid.t) (grid1 : Grid.t) (grids2 : list Grid.t)
    (gints r : list (WrapperAPI.XYZPoint db * list Grid.t)) :
  In grid1 source ->
  incl grids2 source ->
  (forall k v, In (k, v) gints -> crossing_of DB db source k v) ->
  get_gridpoints_inner DB db grid1 grids2 gints = Ok r ->
  forall k v, In (k, v) r -> crossing_of DB db source k v.
Proof.
  intros H1. revert gints.
  induction grids2 as [|grid2 rest IH]; intros gints H2 Hinv;
    cbn [get_gridpoints_inner].
  - intros H. now injection H as <-.
  - destruct (RevitAPI.Curve_Intersect DB _ _) as [c res] eqn:Hc.
    assert (incl rest source) as Hrest.
    { intros x Hx. apply H2. now right. }
    destruct c; cbn; try (now apply IH).
    destruct res as [|p res]; [discriminate|].
    apply IH; [assumption|].
    apply dict_set_members; [assumption| |].
    + exists grid1, grid2, p, res. repeat split; try assumption.
      * apply H2. now left.
      * now left.
    + intros k0 Hk0. exists grid1, grid2, p, res.
      repeat split; try assumption.
      * apply H2. now left.
      * now right.
Qed.

Lemma get_gridpoints_outer_crossings (DB : RevitAPI.t) (db : WrapperAPI.t)
    (source grids1 : list Grid.t)
    (gints r : list (WrapperAPI.XYZPoint db * list Grid.t)) :
  incl grids1 source ->
  (forall k v, In (k, v) gints -> crossing_of DB db source k v) ->
  get_gridpoints_outer DB db grids1 source gints = Ok r ->
  forall k v, In (k, v) r -> crossing_of DB db source k v.
Proof.
  revert gints. induction grids1 as [|grid1 rest IH]; intros gints H1 Hinv;
    cbn [get_gridpoints_outer].
  - intros H. now injection H as <-.
  - destruct (get_gridpoints_inner DB db grid1 source gints) as [g'|] eqn:Hi;
      cbn; [|discriminate].
    apply IH.
    + intros x Hx. apply H1. now right.
    + apply (@get_gridpoints_inner_crossings DB db source grid1 source gints);
        try assumption.
      * apply H1. now left.
      * apply incl_refl.
Qed.

(** X15: whatever the grids handed in, every grid point returned holds
    exactly two of them, in the order [grid1, grid2] of a pair whose
    curves were reported to overlap, under the key of their first
    intersection point. *)
Theorem get_gridpoints_records_are_crossings
    (DB : RevitAPI.t) (db : WrapperAPI.t) (HOST_APP : HostApp.t)
    (g : Grid.t) (gs : list Grid.t) (include_linked_models : bool)
    (doc : option Document.t)
    (l : list (GridPoint (WrapperAPI.XYZPoint db))) :
  get_gridpoints DB db HOST_APP (Some (g :: gs)) include_linked_models doc
  = Ok l ->
  forall r, In r l -> crossing_of DB db (g :: gs) (point r) (grids r).
Proof.
  unfold get_gridpoints. cbn [bind].
  destruct (get_gridpoints_outer DB db (g :: gs) (g :: gs) []) as [gints|]
    eqn:Ho; cbn; [|discriminate].
  intros H. injection H as <-. intros r Hr.
  apply in_map_iff in Hr as [[k v] [<- Hkv]]. cbn.
  apply (@get_gridpoints_outer_crossings DB db (g :: gs) (g :: gs) [] gints);
    try assumption.
  - apply incl_refl.
  - intros k0 v0 [].
Qed.

Lemma get_gridpoints_records_are_crossings_witness :
  crossing_of Fixture.DB Fixture.db [Fixture.grid 1; Fixture.grid 3]
              (Fixture.xyz 4 0) [Fixture.grid 3; Fixture.grid 1].
Proof.
  apply (@get_gridpoints_records_are_crossings Fixture.DB Fixture.db
           Fixture.HOST_APP (Fixture.grid 1) [Fixture.grid 3] false None
           [ {| point := Fixture.xyz 4 0;
                grids := [Fixture.grid 3; Fixture.grid 1] |} ] eq_refl
           {| point := Fixture.xyz 4 0;
              grids := [Fixture.grid 3; Fixture.grid 1] |}).
  left. reflexivity.
Defined.

(** ** Sheet references *)

Lemma get_viewport_by_number_loop_sound (BIP : BuiltInParameters.t)
    (detail_num : pyval) (vps : list (option host_object))
    (o : host_object) :
  get_viewport_by_number_loop BIP detail_num vps = Ok (Some o) ->
  In (Some o) vps
  /\ exists det,
       Parameter_AsString (element_of o)
         (BuiltInParameters.VIEWPORT_DETAIL_NUMBER BIP) = Ok det
       /\ py_eq (pyval_of_string det) detail_num = true.
Proof.
  induction vps as [|vp rest IH]; cbn [get_viewport_by_number_loop];
    [discriminate|].
  destruct vp as [o'|]; cbn; [|discriminate].
  destruct (Parameter_AsString (element_of o') _) as [det|] eqn:Hdet; cbn;
    [|discriminate].
  destruct (py_eq (pyval_of_string det) detail_num) eqn:Heq.
  - intros H. injection H as <-. split; [now left|]. now exists det.
  - intros H. destruct (IH H) as [Hin Hd]. split; [now right | assumption].
Qed.

(** X16: a view id that [get_view_by_sheetref] returns is the view of a
    viewport placed on the first sheet with that number and carrying that
    detail number; when no sheet has the number, the viewport and the view
    are both [None]. *)
Theorem get_view_by_sheetref_is_placed_viewport
    (BIP : BuiltInParameters.t) (DB : RevitAPI.t) (HOST_APP : HostApp.t)
    (doc : option Document.t) (d : Document.t) (n : string) (dn : pyval) :
  doc_or_active doc HOST_APP = Some d ->
  (forall id,
     get_view_by_sheetref BIP DB HOST_APP (PyStr n) dn doc = Ok (Some id) ->
     exists sht vp e det,
       first_such (fun x => ViewSheet.SheetNumber x = n)
                  (Document.Sheets d) sht
       /\ In vp (ViewSheet.GetAllViewports sht)
       /\ Document.GetElement d vp = Some (H_Viewport e id)
       /\ Parameter_AsString e (BuiltInParameters.VIEWPORT_DETAIL_NUMBER BIP)
          = Ok det
       /\ py_eq (pyval_of_string det) dn = true)
  /\ ((forall x, In x (Document.Sheets d) -> ViewSheet.SheetNumber x <> n) ->
      get_viewport_by_number BIP DB HOST_APP (PyStr n) dn doc = Ok None
      /\ get_view_by_sheetref BIP DB HOST_APP (PyStr n) dn doc = Ok None).
Proof.
  intros Hdoc.
  assert (get_sheet_by_number DB HOST_APP (PyStr n)
            (doc_or_active doc HOST_APP)
          = Ok (find (fun x => String.eqb (ViewSheet.SheetNumber x) n)
                     (Document.Sheets d))) as Hsheet.
  { unfold get_sheet_by_number, get_sheets.
    now rewrite !doc_or_active_idem, Hdoc. }
  split.
  - intros id. unfold get_view_by_sheetref, get_viewport_by_number.
    rewrite !doc_or_active_idem, Hsheet, Hdoc. cbn [bind].
    destruct (find _ (Document.Sheets d)) as [sht|] eqn:Hfind;
      [|discriminate].
    rewrite (@mapM_pure _ _ _ (Document.GetElement d))
      by (intros; reflexivity).
    cbn [bind].
    destruct (get_viewport_by_number_loop BIP dn _) as [[o|]|] eqn:Hloop;
      cbn; try discriminate.
    destruct o as [e0 | s0 | e0 b0 | e0 id0]; cbn; try discriminate.
    intros H. injection H as <-.
    apply get_viewport_by_number_loop_sound in Hloop
      as [Hin [det [Hdet Heq]]].
    apply in_map_iff in Hin as [vp [Hvp Hin]].
    exists sht, vp, e0, det. split; [|now repeat split].
    apply find_first_such in Hfind.
    destruct Hfind as [before [after [Hl [Hs Hb]]]].
    exists before, after. split; [assumption|]. split.
    + now apply String.eqb_eq.
    + intros y Hy Hn. apply (Hb y Hy). now apply String.eqb_eq.
  - intros Hnone. unfold get_view_by_sheetref, get_viewport_by_number.
    rewrite !doc_or_active_idem, Hsheet.
    rewrite find_all_false; [now split|].
    intros x Hx. apply String.eqb_neq. now apply Hnone.
Qed.

Lemma get_view_by_sheetref_is_placed_viewport_witness :
  (forall id,
     get_view_by_sheetref FixtureMore.BIP Fixture.DB
       FixtureMore.HOST_APP_sheets (PyStr "A201") (PyStr "3") None
     = Ok (Some id) ->
     exists sht vp e det,
       first_such (fun x => ViewSheet.SheetNumber x = "A201")
                  (Document.Sheets FixtureMore.sheets_doc) sht
       /\ In vp (ViewSheet.GetAllViewports sht)
       /\ Document.GetElement FixtureMore.sheets_doc vp
          = Some (H_Viewport e id)
       /\ Parameter_AsString e
            (BuiltInParameters.VIEWPORT_DETAIL_NUMBER FixtureMore.BIP)
          = Ok det
       /\ py_eq (pyval_of_string det) (PyStr "3") = true)
  /\ ((forall x, In x (Document.Sheets FixtureMore.sheets_doc) ->
                 ViewSheet.SheetNumber x <> "A201") ->
      get_viewport_by_number FixtureMore.BIP Fixture.DB
        FixtureMore.HOST_APP_sheets (PyStr "A201") (PyStr "3") None = Ok None
      /\ get_view_by_sheetref FixtureMore.BIP Fixture.DB
           FixtureMore.HOST_APP_sheets (PyStr "A201") (PyStr "3") None
         = Ok None).
Proof.
  apply (@get_view_by_sheetref_is_placed_viewport FixtureMore.BIP Fixture.DB
           FixtureMore.HOST_APP_sheets None FixtureMore.sheets_doc).
  reflexivity.
Defined.

(** On the fixture: detail 3 of sheet A201 is the plan; other details
    and other sheets give [None]. *)
Example get_view_by_sheetref_on_fixture :
  get_view_by_sheetref FixtureMore.BIP Fixture.DB FixtureMore.HOST_APP_sheets
    (PyStr "A201") (PyStr "3") None = Ok (Some 410)
  /\ get_view_by_sheetref FixtureMore.BIP Fixture.DB
       FixtureMore.HOST_APP_sheets (PyStr "A201") (PyStr "4") None = Ok None
  /\ get_view_by_sheetref FixtureMore.BIP Fixture.DB
       FixtureMore.HOST_APP_sheets (PyStr "A900") (PyStr "3") None = Ok None.
Proof. repeat split; reflexivity. Qed.

Lemma get_sheet_by_number_find (DB : RevitAPI.t) (HOST_APP : HostApp.t)
    (doc : option Document.t) (d : Document.t) (q : pyval) :
  doc_or_active doc HOST_APP = Some d ->
  get_sheet_by_number DB HOST_APP q doc
  = Ok (find (fun x => py_eq (PyStr (ViewSheet.SheetNumber x)) q)
             (Document.Sheets d)).
Proof.
  intros Hdoc. unfold get_sheet_by_number, get_sheets.
  now rewrite doc_or_active_idem, Hdoc.
Qed.

(** X17: a view that carries a sheet number is reported with its own
    sheet name and detail number and no referring view; without one, the
    referencing sheet is looked up in the active document, and a number
    no sheet carries there gives an empty sheet name and no referring
    view; with neither number there is no reference. *)
Theorem get_view_sheetrefinfo_cases
    (BIP : BuiltInParameters.t) (DB : RevitAPI.t) (HOST_APP : HostApp.t)
    (active : Document.t) (view : Element.t)
    (sn name det rsn rdet : option string) :
  HostApp.doc HOST_APP = Some active ->
  Parameter_AsString view (BuiltInParameters.VIEWPORT_SHEET_NUMBER BIP)
  = Ok sn ->
  Parameter_AsString view (BuiltInParameters.VIEWPORT_SHEET_NAME BIP)
  = Ok name ->
  Parameter_AsString view (BuiltInParameters.VIEWPORT_DETAIL_NUMBER BIP)
  = Ok det ->
  Parameter_AsString view (BuiltInParameters.VIEW_REFERENCING_SHEET BIP)
  = Ok rsn ->
  Parameter_AsString view (BuiltInParameters.VIEW_REFERENCING_DETAIL BIP)
  = Ok rdet ->
  (forall c s,
     sn = Some (String c s) ->
     get_view_sheetrefinfo BIP DB HOST_APP view
     = Ok (Some {| sheet_num := String c s; sheet_name := name;
                   detail_num := det; ref_viewid := None |}))
  /\ (forall c s,
        sn = None \/ sn = Some "" ->
        rsn = Some (String c s) ->
        (forall x, In x (Document.Sheets active) ->
                   ViewSheet.SheetNumber x <> String c s) ->
        get_view_sheetrefinfo BIP DB HOST_APP view
        = Ok (Some {| sheet_num := String c s; sheet_name := Some "";
                      detail_num := rdet; ref_viewid := None |}))
  /\ (sn = None \/ sn = Some "" ->
      rsn = None \/ rsn = Some "" ->
      get_view_sheetrefinfo BIP DB HOST_APP view = Ok None).
Proof.
  intros Hdoc Hsn Hname Hdet Hrsn Hrdet.
  assert (doc_or_active None HOST_APP = Some active) as Hact by exact Hdoc.
  unfold get_view_sheetrefinfo. rewrite Hsn, Hname, Hdet. cbn [bind].
  split; [|split].
  - intros c s ->. reflexivity.
  - intros c s Hs -> Hnone.
    rewrite Hrsn, Hrdet. cbn [bind pyval_of_string].
    rewrite (@get_sheet_by_number_find DB HOST_APP None active _ Hact).
    rewrite find_all_false.
    2:{ intros x Hx. cbn. apply String.eqb_neq. now apply Hnone. }
    cbn [bind].
    unfold get_view_by_sheetref, get_viewport_by_number.
    rewrite !doc_or_active_idem, Hact.
    rewrite (@get_sheet_by_number_find DB HOST_APP (Some active) active _
               eq_refl).
    rewrite find_all_false.
    2:{ intros x Hx. cbn. apply String.eqb_neq. now apply Hnone. }
    destruct Hs as [-> | ->]; reflexivity.
  - intros Hs Hr. rewrite Hrsn, Hrdet. cbn [bind].
    rewrite (@get_sheet_by_number_find DB HOST_APP None active _ Hact). cbn [bind].
    assert (exists n,
              match find (fun x => py_eq (PyStr (ViewSheet.SheetNumber x))
                                         (pyval_of_string rsn))
                         (Document.Sheets active) with
              | Some ref_sheet =>
                  n <- get_name DB HOST_APP (ViewSheet.AsElement ref_sheet)
                         false ;;
                  Ok (Some n)
              | None => Ok (Some "")
              end = Ok n) as [n ->].
    { destruct (find _ _) as [ref_sheet|]; [|now eexists].
      destruct (get_name_plain_returns DB HOST_APP
                  (ViewSheet.AsElement ref_sheet)) as [n ->].
      now eexists. }
    cbn [bind].
    destruct Hs as [-> | ->]; destruct Hr as [-> | ->]; reflexivity.
Qed.

Lemma get_view_sheetrefinfo_cases_witness :
  (forall c s,
     @None string = Some (String c s) ->
     get_view_sheetrefinfo FixtureMore.BIP Fixture.DB
       FixtureMore.HOST_APP_sheets FixtureMore.dangling_callout
     = Ok (Some {| sheet_num := String c s; sheet_name := None;
                   detail_num := None; ref_viewid := None |}))
  /\ (forall c s,
        @None string = None \/ @None string = Some "" ->
        Some "A900" = Some (String c s) ->
        (forall x, In x (Document.Sheets FixtureMore.sheets_doc) ->
                   ViewSheet.SheetNumber x <> String c s) ->
        get_view_sheetrefinfo FixtureMore.BIP Fixture.DB
          FixtureMore.HOST_APP_sheets FixtureMore.dangling_callout
        = Ok (Some {| sheet_num := String c s; sheet_name := Some "";
                      detail_num := Some "1"; ref_viewid := None |}))
  /\ (@None string = None \/ @None string = Some "" ->
      Some "A900" = None \/ Some "A900" = Some "" ->
      get_view_sheetrefinfo FixtureMore.BIP Fixture.DB
        FixtureMore.HOST_APP_sheets FixtureMore.dangling_callout = Ok None).
Proof.
  apply (@get_view_sheetrefinfo_cases FixtureMore.BIP Fixture.DB
           FixtureMore.HOST_APP_sheets FixtureMore.sheets_doc
           FixtureMore.dangling_callout None None None (Some "A900")
           (Some "1")); reflexivity.
Defined.

(** On the fixture: the placed plan, the section referenced from detail 3
    of A201 (shown by the plan), the callout whose referencing sheet is
    not in the project, and a view that is on no sheet. *)
Example get_view_sheetrefinfo_on_fixture :
  get_view_sheetrefinfo FixtureMore.BIP Fixture.DB FixtureMore.HOST_APP_sheets
    FixtureMore.placed_plan
  = Ok (Some {| sheet_num := "A201"; sheet_name := Some "Plans";
                detail_num := Some "3"; ref_viewid := None |})
  /\ get_view_sheetrefinfo FixtureMore.BIP Fixture.DB
       FixtureMore.HOST_APP_sheets FixtureMore.referenced_section
     = Ok (Some {| sheet_num := "A201"; sheet_name := Some "A201";
                   detail_num := Some "3"; ref_viewid := Some 410 |})
  /\ get_view_sheetrefinfo FixtureMore.BIP Fixture.DB
       FixtureMore.HOST_APP_sheets FixtureMore.dangling_callout
     = Ok (Some {| sheet_num := "A900"; sheet_name := Some "";
                   detail_num := Some "1"; ref_viewid := None |})
  /\ get_view_sheetrefinfo FixtureMore.BIP Fixture.DB
       FixtureMore.HOST_APP_sheets FixtureMore.loose_view = Ok None.
Proof. repeat split; reflexivity. Qed.

(** ** The closest grid point *)

Lemma SFltb_irrefl (a : spec_float) : SFltb a a = false.
Proof.
  unfold SFltb, SFcompare. destruct a as [s | s | | s m e];
    try destruct s; try reflexivity; compare_cases; cbn;
    try reflexivity; lia.
Qed.

Lemma SFltb_trans (a b c : spec_float) :
  SFltb a b = true -> SFltb b c = true -> SFltb a c = true.
Proof.
  unfold SFltb, SFcompare.
  destruct a as [sa | sa | | sa ma ea], b as [sb | sb | | sb mb eb],
    c as [sc | sc | | sc mc ec];
    try destruct sa; try destruct sb; try destruct sc;
    try discriminate; try reflexivity;
    intros H1 H2; compare_cases; cbn in *;
    try discriminate; try reflexivity; try lia.
Qed.

(** The loop keeps a grid point that is seen or was held, and none of
    those is strictly closer than it. *)
Lemma get_closest_gridpoint_loop_spec {P : Type} (G : GeometryAPI.t P)
    (element : Element.t) (gridpoints seen : list (GridPoint P))
    (held : GridPoint P) :
  In held seen ->
  (forall gp, In gp seen ->
              SFltb (distance_to G element gp) (distance_to G element held)
              = false) ->
  let r := get_closest_gridpoint_loop G element gridpoints
             (distance_to G element held, held) in
  fst r = distance_to G element (snd r)
  /\ In (snd r) (seen ++ gridpoints)%list
  /\ forall gp, In gp (seen ++ gridpoints)%list ->
                SFltb (distance_to G element gp)
                      (distance_to G element (snd r)) = false.
Proof.
  revert seen held.
  induction gridpoints as [|gp rest IH]; intros seen held Hin Hmin.
  - cbn. rewrite app_nil_r. now repeat split.
  - cbn [get_closest_gridpoint_loop fst].
    replace (seen ++ gp :: rest)%list with ((seen ++ [gp]) ++ rest)%list
      by (now rewrite <- app_assoc).
    destruct (SFltb (distance_to G element gp) (distance_to G element held))
      eqn:Hlt.
    + apply IH.
      * apply in_or_app. right. now left.
      * intros x Hx. apply in_app_or in Hx as [Hx | [<- | []]].
        -- destruct (SFltb (distance_to G element x)
                           (distance_to G element gp)) eqn:Hx'; [|reflexivity].
           rewrite <- (Hmin x Hx). symmetry.
           exact (SFltb_trans _ _ _ Hx' Hlt).
        -- apply SFltb_irrefl.
    + apply IH.
      * apply in_or_app. now left.
      * intros x Hx. apply in_app_or in Hx as [Hx | [<- | []]];
          [now apply Hmin | assumption].
Qed.

(** X18: of a non-empty list [get_closest_gridpoint] returns a member,
    and no member is strictly closer to the element than it; of an empty
    list it raises [IndexError]. *)
Theorem get_closest_gridpoint_is_closest {P : Type} (G : GeometryAPI.t P)
    (element : Element.t) (gridpoints : list (GridPoint P)) :
  (gridpoints = [] ->
   get_closest_gridpoint G element gridpoints = Raise IndexError)
  /\ (gridpoints <> [] ->
      exists r,
        get_closest_gridpoint G element gridpoints = Ok r
        /\ In r gridpoints
        /\ forall gp, In gp gridpoints ->
                      SFltb (distance_to G element gp)
                            (distance_to G element r) = false).
Proof.
  split; [now intros ->|].
  destruct gridpoints as [|first rest]; [contradiction|]. intros _.
  unfold get_closest_gridpoint.
  destruct (@get_closest_gridpoint_loop_spec P G element (first :: rest)
              [first] first (or_introl eq_refl)) as [_ [Hin Hmin]].
  { intros gp [<- | []]. apply SFltb_irrefl. }
  eexists. split; [reflexivity|]. split.
  - destruct Hin as [H | H]; [now left | exact H].
  - intros gp Hgp. apply Hmin. now right.
Qed.

Lemma get_closest_gridpoint_is_closest_witness :
  get_closest_gridpoint FixtureMore.G Fixture.wall1 [] = Raise IndexError
  /\ exists r,
       get_closest_gridpoint FixtureMore.G Fixture.wall1
         [FixtureMore.gridpoint 0; FixtureMore.gridpoint 4;
          FixtureMore.gridpoint 2] = Ok r
       /\ In r [FixtureMore.gridpoint 0; FixtureMore.gridpoint 4;
                FixtureMore.gridpoint 2]
       /\ forall gp,
            In gp [FixtureMore.gridpoint 0; FixtureMore.gridpoint 4;
                   FixtureMore.gridpoint 2] ->
            SFltb (distance_to FixtureMore.G Fixture.wall1 gp)
                  (distance_to FixtureMore.G Fixture.wall1 r) = false.
Proof.
  split.
  - apply (proj1 (@get_closest_gridpoint_is_closest XYZ.t FixtureMore.G
                    Fixture.wall1 [])).
    reflexivity.
  - apply (proj2 (@get_closest_gridpoint_is_closest XYZ.t FixtureMore.G
                    Fixture.wall1
                    [FixtureMore.gridpoint 0; FixtureMore.gridpoint 4;
                     FixtureMore.gridpoint 2])).
    discriminate.
Defined.

(** On the fixture the element sits at x = 3: of two grid points at the
    same distance the one met first is kept. *)
Example get_closest_gridpoint_on_fixture :
  get_closest_gridpoint FixtureMore.G Fixture.wall1
    [FixtureMore.gridpoint 0; FixtureMore.gridpoint 4; FixtureMore.gridpoint 2]
  = Ok (FixtureMore.gridpoint 4).
Proof. vm_compute. reflexivity. Qed.

(** ** Categories of elements *)

Lemma dict_set_same_keys {V : Type} (d : list (string * V)) (k : string)
    (v : V) :
  In k (map fst d) -> map fst (dict_set String.eqb d k v) = map fst d.
Proof.
  induction d as [|[k' v'] d IH]; cbn; [intros []|].
  destruct (String.eqb_spec k' k) as [-> | Hne]; [reflexivity|].
  intros [H | H]; [contradiction|]. cbn. now rewrite IH.
Qed.

Lemma dict_set_new_key {V : Type} (d : list (string * V)) (k : string)
    (v : V) :
  ~ In k (map fst d) ->
  dict_set String.eqb d k v = (d ++ [(k, v)])%list.
Proof.
  induction d as [|[k' v'] d IH]; cbn; [reflexivity|].
  intros H. destruct (String.eqb_spec k' k) as [-> | Hne].
  - destruct H. now left.
  - rewrite IH; [reflexivity|]. intros Hk. apply H. now right.
Qed.

Lemma dict_set_NoDup {V : Type} (d : list (string * V)) (k : string) (v : V) :
  NoDup (map fst d) -> NoDup (map fst (dict_set String.eqb d k v)).
Proof.
  intros Hnd. destruct (in_dec string_dec k (map fst d)) as [Hin | Hnin].
  - now rewrite dict_set_same_keys.
  - rewrite dict_set_new_key by assumption. rewrite map_app. cbn.
    apply NoDup_app; [assumption | repeat constructor; intros [] |].
    intros x Hx [<- | []]. contradiction.
Qed.

Lemma dict_set_In {V : Type} (d : list (string * V)) (k : string) (v : V)
    (k0 : string) (v0 : V) :
  In (k0, v0) (dict_set String.eqb d k v) ->
  (k0 = k /\ v0 = v) \/ In (k0, v0) d.
Proof.
  induction d as [|[k' v'] d IH]; cbn.
  - intros [H | []]. injection H as <- <-. now left.
  - destruct (String.eqb_spec k' k) as [-> | Hne]; cbn.
    + intros [H | H]; [injection H as <- <-; now left | right; now right].
    + intros [H | H]; [right; now left|].
      destruct (IH H) as [H' | H']; [now left | right; now right].
Qed.

Lemma dict_set_key_present {V : Type} (d : list (string * V)) (k : string)
    (v : V) (k0 : string) :
  k0 = k \/ In k0 (map fst d) -> In k0 (map fst (dict_set String.eqb d k v)).
Proof.
  destruct (in_dec string_dec k (map fst d)) as [Hin | Hnin].
  - rewrite dict_set_same_keys by assumption. now intros [-> | H].
  - rewrite dict_set_new_key by assumption. rewrite map_app. cbn.
    intros [-> | H]; apply in_or_app; [right; now left | now left].
Qed.

(** The dictionary [{c.Name: c for c in cats}], started from [d]. *)
Lemma catsdict_spec (cats : list Category.t)
    (d : list (string * Category.t)) :
  NoDup (map fst d) ->
  let d' := fold_left (fun d c => dict_set String.eqb d (Category.Name c) c)
                      cats d in
  NoDup (map fst d')
  /\ (forall k c, In (k, c) d' ->
        (In c cats /\ Category.Name c = k) \/ In (k, c) d)
  /\ (forall k, (In k (map fst d) \/ In k (map Category.Name cats)) ->
                In k (map fst d')).
Proof.
  revert d. induction cats as [|a cats IH]; intros d Hnd; cbn.
  - split; [assumption|]. split; [now right | now intros k [H | []]].
  - destruct (IH _ (dict_set_NoDup d (Category.Name a) a Hnd))
      as [H1 [H2 H3]].
    split; [assumption|]. split.
    + intros k c H. destruct (H2 k c H) as [[Hc Hk] | Hd].
      * left. split; [now right | assumption].
      * apply dict_set_In in Hd as [[-> ->] | Hd]; [|now right].
        left. split; [now left | reflexivity].
    + intros k Hk. apply H3.
      destruct Hk as [Hk | [<- | Hk]]; [| |now right]; left;
        apply dict_set_key_present; [now right | now left].
Qed.

Lemma dict_get_member {V : Type} (d : list (string * V)) (k : string) (v : V) :
  NoDup (map fst d) -> In (k, v) d -> dict_get String.eqb d k = Some v.
Proof.
  induction d as [|[k' v'] d IH]; cbn; [intros _ []|].
  intros Hnd [H | H].
  - injection H as -> ->. now rewrite String.eqb_refl.
  - inversion Hnd as [|? ? Hk Hnd']; subst.
    destruct (String.eqb_spec k' k) as [-> | Hne]; [|now apply IH].
    destruct Hk. apply in_map_iff. now exists (k, v).
Qed.

Lemma mapM_attr_categories (elements : list Element.t) :
  Forall has_category elements ->
  exists cats,
    mapM (fun x => attr (Element.Category x) (fun c => c)) elements = Ok cats
    /\ map Some cats = map Element.Category elements.
Proof.
  induction 1 as [|x l Hx _ [cats [IH1 IH2]]]; [now exists []|].
  unfold has_category in Hx.
  destruct (Element.Category x) as [c|] eqn:Hc; [|contradiction].
  exists (c :: cats). cbn [mapM map]. rewrite Hc, IH1, IH2. now split.
Qed.

(** X19: for elements that all have a category,
    [get_element_categories] returns one category per category name: the
    names of the result are pairwise different, each category returned is
    the category of one of the elements, and the category name of every
    element is there.  One element without a category makes it raise
    [AttributeError]. *)
Theorem get_element_categories_one_per_name (elements : list Element.t) :
  (Forall has_category elements ->
   exists cats,
     get_element_categories elements = Ok cats
     /\ NoDup (map Category.Name cats)
     /\ (forall c, In c cats ->
           exists x, In x elements /\ Element.Category x = Some c)
     /\ (forall x c, In x elements -> Element.Category x = Some c ->
           exists c', In c' cats /\ Category.Name c' = Category.Name c))
  /\ (forall x, In x elements -> Element.Category x = None ->
        get_element_categories elements = Raise AttributeError).
Proof.
  split.
  - intros Hcat. unfold get_element_categories.
    destruct (mapM_attr_categories Hcat) as [cats [-> Hcats]]. cbn [bind].
    destruct (@catsdict_spec cats [] (NoDup_nil _)) as [Hnd [Hmem Hkeys]].
    set (d := fold_left _ cats []) in *.
    assert (forall k c, In (k, c) d -> In c cats /\ Category.Name c = k)
      as Hmem'.
    { intros k c H. destruct (Hmem k c H) as [H' | []]. exact H'. }
    set (value := fun k => match dict_get String.eqb d k with
                           | Some c => c
                           | None => Category.Build k 0 []
                           end).
    assert (forall kc, In kc d -> value (fst kc) = snd kc) as Hvalue.
    { intros [k c] H. unfold value. cbn.
      now rewrite (dict_get_member d k c Hnd H). }
    rewrite (@mapM_pure _ _ _ value).
    2:{ intros k Hk. apply in_map_iff in Hk as [[k' c] [<- Hkc]].
        unfold value. cbn. now rewrite (dict_get_member d k' c Hnd Hkc). }
    rewrite map_map.
    rewrite (map_ext_in _ snd) by exact Hvalue.
    exists (map snd d). split; [reflexivity|].
    assert (map Category.Name (map snd d) = map fst d) as Hnames.
    { rewrite map_map. apply map_ext_in. intros [k c] H. cbn.
      now destruct (Hmem' k c H). }
    split; [now rewrite Hnames|]. split.
    + intros c Hc. apply in_map_iff in Hc as [[k c'] [<- Hkc]]. cbn.
      destruct (Hmem' k c' Hkc) as [Hin _].
      assert (In (Some c') (map Element.Category elements)) as Hx.
      { rewrite <- Hcats. now apply in_map. }
      apply in_map_iff in Hx as [x [Hx Hin']]. now exists x.
    + intros x c Hx Hc.
      assert (In c cats) as Hin.
      { assert (In (Some c) (map Some cats)) as H.
        { rewrite Hcats, <- Hc. now apply in_map. }
        apply in_map_iff in H as [c0 [H0 H1]]. now injection H0 as <-. }
      assert (In (Category.Name c) (map fst d)) as Hk.
      { apply Hkeys. right. now apply in_map. }
      apply in_map_iff in Hk as [[k c'] [Hk Hkc]]. cbn in Hk. subst k.
      exists c'. split; [|now destruct (Hmem' _ _ Hkc)].
      apply in_map_iff. now exists (Category.Name c, c').
  - intros x Hx Hnone. unfold get_element_categories.
    assert (mapM (fun x => attr (Element.Category x) (fun c => c)) elements
            = Raise AttributeError) as ->; [|reflexivity].
    induction elements as [|a l IH]; [destruct Hx|]. cbn [mapM].
    destruct Hx as [<- | Hx]; [now rewrite Hnone|].
    destruct (Element.Category a); [|reflexivity]. cbn. now rewrite IH.
Qed.

Lemma get_element_categories_one_per_name_witness :
  exists cats,
    get_element_categories [Fixture.wall1; Fixture.door1; Fixture.wall2]
    = Ok cats
    /\ NoDup (map Category.Name cats)
    /\ (forall c, In c cats ->
          exists x, In x [Fixture.wall1; Fixture.door1; Fixture.wall2]
                    /\ Element.Category x = Some c)
    /\ (forall x c,
          In x [Fixture.wall1; Fixture.door1; Fixture.wall2] ->
          Element.Category x = Some c ->
          exists c', In c' cats /\ Category.Name c' = Category.Name c).
Proof.
  apply (proj1 (get_element_categories_one_per_name
                  [Fixture.wall1; Fixture.door1; Fixture.wall2])).
  repeat constructor; discriminate.
Defined.

(** On the fixture: two walls and a door have two categories. *)
Example get_element_categories_on_fixture :
  get_element_categories [Fixture.wall1; Fixture.door1; Fixture.wall2]
  = Ok [Fixture.walls; Fixture.doors]
  /\ get_element_categories [Fixture.wall1; Fixture.plan]
     = Raise AttributeError.
Proof. split; reflexivity. Qed.

(** ** Schedule filters *)

Lemma get_schedule_filters_loop_spec (field : ScheduleField.t)
    (pre rest : list ScheduleFilter.t) :
  exists idxs fs,
    get_schedule_filters_loop field true (List.length pre) rest
    = map Index idxs
    /\ get_schedule_filters_loop field false (List.length pre) rest
       = map Filter fs
    /\ map (nth_error (pre ++ rest)%list) idxs = map Some fs
    /\ (forall i, In i idxs -> (List.length pre <= i)%nat)
    /\ (forall i f,
          (List.length pre <= i)%nat ->
          nth_error (pre ++ rest)%list i = Some f ->
          (In i idxs <->
           ScheduleFilter.FieldId f = ScheduleField.FieldId field)).
Proof.
  revert pre. induction rest as [|a rest IH]; intros pre.
  - exists [], []. split; [reflexivity|]. split; [reflexivity|].
    split; [reflexivity|]. split; [intros i []|].
    intros i f Hle Hf. rewrite app_nil_r in Hf.
    rewrite (proj2 (nth_error_None pre i) Hle) in Hf. discriminate.
  - destruct (IH (pre ++ [a])%list) as [idxs [fs [H1 [H2 [H3 [H4 H5]]]]]].
    rewrite <- app_assoc in H3, H5. cbn [app] in H3, H5.
    rewrite length_app in H1, H2, H4, H5. cbn [List.length] in H1, H2, H4, H5.
    rewrite Nat.add_1_r in H1, H2, H4, H5.
    assert (nth_error (pre ++ a :: rest)%list (List.length pre) = Some a)
      as Hnth.
    { rewrite nth_error_app2 by lia. now rewrite Nat.sub_diag. }
    cbn [get_schedule_filters_loop].
    destruct (Z.eqb_spec (ScheduleFilter.FieldId a)
                         (ScheduleField.FieldId field)) as [Heq | Hne].
    + exists (List.length pre :: idxs), (a :: fs). cbn [map].
      rewrite H1, H2, H3, Hnth.
      split; [reflexivity|]. split; [reflexivity|]. split; [reflexivity|].
      split.
      * intros i [<- | Hi]; [lia | specialize (H4 i Hi); lia].
      * intros i f Hle Hf.
        destruct (Nat.eq_dec i (List.length pre)) as [-> | Hi].
        -- rewrite Hnth in Hf. injection Hf as <-.
           split; [intros _; assumption | intros _; now left].
        -- rewrite <- (H5 i f) by (assumption || lia).
           split; [intros [H | H]; [congruence | assumption] | now right].
    + exists idxs, fs. rewrite H1, H2, H3.
      split; [reflexivity|]. split; [reflexivity|]. split; [reflexivity|].
      split.
      * intros i Hi. specialize (H4 i Hi). lia.
      * intros i f Hle Hf.
        destruct (Nat.eq_dec i (List.length pre)) as [-> | Hi].
        -- rewrite Hnth in Hf. injection Hf as <-.
           split; [intros H; specialize (H4 _ H); lia | contradiction].
        -- apply H5; [lia | assumption].
Qed.

(** X20: the indices [get_schedule_filters] returns with
    [return_index=True] are the positions, in the schedule's filter list,
    of the filters it returns with [return_index=False], in the same
    order: the positions of exactly the filters on the field of that
    name.  A field name the schedule does not have gives the empty list
    either way. *)
Theorem get_schedule_filters_indices_match_filters
    (schedule : ScheduleDefinition.t) (field_name : string) :
  exists idxs fs,
    get_schedule_filters schedule field_name true = map Index idxs
    /\ get_schedule_filters schedule field_name false = map Filter fs
    /\ map (nth_error (ScheduleDefinition.GetFilters schedule)) idxs
       = map Some fs
    /\ (get_schedule_field schedule field_name = None ->
        idxs = [] /\ fs = [])
    /\ (forall field i f,
          get_schedule_field schedule field_name = Some field ->
          nth_error (ScheduleDefinition.GetFilters schedule) i = Some f ->
          (In i idxs <->
           ScheduleFilter.FieldId f = ScheduleField.FieldId field)).
Proof.
  unfold get_schedule_filters.
  destruct (get_schedule_field schedule field_name) as [field|].
  - destruct (get_schedule_filters_loop_spec field []
                (ScheduleDefinition.GetFilters schedule))
      as [idxs [fs [H1 [H2 [H3 [_ H5]]]]]].
    exists idxs, fs. cbn [List.length app] in *.
    split; [assumption|]. split; [assumption|]. split; [assumption|].
    split; [discriminate|].
    intros field' i f H Hf. injection H as <-.
    apply H5; [lia | assumption].
  - exists [], []. repeat split; try reflexivity; discriminate.
Qed.

Lemma get_schedule_filters_indices_match_filters_witness :
  exists idxs fs,
    get_schedule_filters FixtureMore.door_schedule "Level" true
    = map Index idxs
    /\ get_schedule_filters FixtureMore.door_schedule "Level" false
       = map Filter fs
    /\ map (nth_error (ScheduleDefinition.GetFilters FixtureMore.door_schedule))
           idxs = map Some fs
    /\ (get_schedule_field FixtureMore.door_schedule "Level" = None ->
        idxs = [] /\ fs = [])
    /\ (forall field i f,
          get_schedule_field FixtureMore.door_schedule "Level" = Some field ->
          nth_error (ScheduleDefinition.GetFilters FixtureMore.door_schedule) i
          = Some f ->
          (In i idxs <->
           ScheduleFilter.FieldId f = ScheduleField.FieldId field)).
Proof.
  exact (get_schedule_filters_indices_match_filters FixtureMore.door_schedule
           "Level").
Defined.

(** On the fixture: the filters on "Level" are the first and the third. *)
Example get_schedule_filters_on_fixture :
  get_schedule_filters FixtureMore.door_schedule "Level" true
  = [Index 0; Index 2]
  /\ get_schedule_filters FixtureMore.door_schedule "Height" true = [].
Proof. split; reflexivity. Qed.

(** ** Sub-categories *)

Lemma get_subcategory_loop_sound (category_name subcategory_name : string)
    (cats : list Category.t) (s : Category.t) :
  get_subcategory_loop category_name subcategory_name cats = Some s ->
  exists cat,
    In cat cats /\ Category.Name cat = category_name
    /\ In s (Category.SubCategories cat)
    /\ Category.Name s = subcategory_name.
Proof.
  induction cats as [|cat rest IH]; cbn [get_subcategory_loop];
    [discriminate|].
  assert (get_subcategory_loop category_name subcategory_name rest = Some s ->
          exists cat0,
            In cat0 (cat :: rest) /\ Category.Name cat0 = category_name
            /\ In s (Category.SubCategories cat0)
            /\ Category.Name s = subcategory_name) as Hrest.
  { intros H. destruct (IH H) as [c [H1 H2]]. exists c. split; [now right|].
    exact H2. }
  destruct (String.eqb_spec (Category.Name cat) category_name) as [Hn | Hn];
    [|exact Hrest].
  destruct (find _ (Category.SubCategories cat)) as [sub|] eqn:Hfind;
    [|exact Hrest].
  intros H. injection H as <-. apply find_some in Hfind as [Hin Hs].
  exists cat. split; [now left|]. split; [assumption|].
  split; [assumption | now apply String.eqb_eq].
Qed.

(** X21: the purgable sub-categories are the sub-categories whose id is
    greater than 1, a filter function is applied on top, and a
    sub-category that [get_subcategory] finds is one of those
    [get_subcategories] lists, has the name asked for and belongs to a
    category of the name asked for. *)
Theorem get_subcategories_and_get_subcategory
    (HOST_APP : HostApp.t) (doc : option Document.t) (d : Document.t) :
  doc_or_active doc HOST_APP = Some d ->
  exists all purgable,
    get_subcategories HOST_APP doc false None = Ok all
    /\ get_subcategories HOST_APP doc true None = Ok purgable
    /\ (forall s, In s purgable <-> In s all /\ 1 < Category.Id s)
    /\ (forall f, get_subcategories HOST_APP doc false (Some f)
                  = Ok (filter f all))
    /\ (forall category_name subcategory_name s,
          get_subcategory HOST_APP category_name subcategory_name doc
          = Ok (Some s) ->
          In s all /\ Category.Name s = subcategory_name
          /\ exists cat,
               In cat (Document.Settings_Categories d)
               /\ Category.Name cat = category_name
               /\ In s (Category.SubCategories cat)).
Proof.
  intros Hdoc. unfold get_subcategories, get_subcategory. rewrite Hdoc.
  cbn [attr bind].
  eexists. eexists. split; [reflexivity|]. split; [reflexivity|].
  split; [|split; [reflexivity|]].
  - intros s. rewrite !in_flat_map. split.
    + intros [cat [Hcat Hs]]. apply filter_In in Hs as [Hs Hid].
      apply Z.ltb_lt in Hid. split; [|assumption].
      exists cat. split; [assumption|]. apply filter_In. now split.
    + intros [[cat [Hcat Hs]] Hid]. apply filter_In in Hs as [Hs _].
      exists cat. split; [assumption|]. apply filter_In.
      split; [assumption | now apply Z.ltb_lt].
  - intros cn sn s H. injection H as H.
    apply get_subcategory_loop_sound in H as [cat [H1 [H2 [H3 H4]]]].
    split; [|split; [assumption | now exists cat]].
    apply in_flat_map. exists cat. split; [assumption|].
    apply filter_In. now split.
Qed.

Lemma get_subcategories_and_get_subcategory_witness :
  exists all purgable,
    get_subcategories FixtureMore.HOST_APP_categories None false None = Ok all
    /\ get_subcategories FixtureMore.HOST_APP_categories None true None
       = Ok purgable
    /\ (forall s, In s purgable <-> In s all /\ 1 < Category.Id s)
    /\ (forall f, get_subcategories FixtureMore.HOST_APP_categories None
                    false (Some f) = Ok (filter f all))
    /\ (forall category_name subcategory_name s,
          get_subcategory FixtureMore.HOST_APP_categories category_name
            subcategory_name None = Ok (Some s) ->
          In s all /\ Category.Name s = subcategory_name
          /\ exists cat,
               In cat (Document.Settings_Categories FixtureMore.categories_doc)
               /\ Category.Name cat = category_name
               /\ In s (Category.SubCategories cat)).
Proof.
  apply (@get_subcategories_and_get_subcategory
           FixtureMore.HOST_APP_categories None FixtureMore.categories_doc).
  reflexivity.
Defined.

(** On the fixture: one sub-category can be purged; "Cut" is found under
    the category asked for. *)
Example get_subcategories_on_fixture :
  get_subcategories FixtureMore.HOST_APP_categories None true None
  = Ok [Category.Build "Plaster" 31415 []]
  /\ get_subcategory FixtureMore.HOST_APP_categories "Doors" "Cut" None
     = Ok (Some (FixtureMore.cut (-2000024)))
  /\ get_subcategory FixtureMore.HOST_APP_categories "Doors" "Plaster" None
     = Ok None.
Proof. repeat split; reflexivity. Qed.

(** ** The range of a parameter's values *)

Lemma set_add_inv (values : list pyval) (value v : pyval) :
  In v (set_add values value) -> In v values \/ v = value.
Proof.
  unfold set_add. destruct (existsb _ values); [now left|].
  intros H. apply in_app_or in H as [H | [<- | []]]; [now left | now right].
Qed.

Lemma set_add_keeps (values : list pyval) (value v : pyval) :
  In v values -> In v (set_add values value).
Proof.
  unfold set_add. destruct (existsb _ values); [trivial|].
  intros H. apply in_or_app. now left.
Qed.

Lemma set_add_has (values : list pyval) (value : pyval) :
  exists v', In v' (set_add values value)
             /\ (v' = value \/ py_eq v' value = true).
Proof.
  unfold set_add. destruct (existsb _ values) eqn:H.
  - apply existsb_exists in H as [v' [Hin Heq]]. exists v'. split; auto.
  - exists value. split; [apply in_or_app; right; now left | now left].
Qed.

Lemma in_range_dec (safe_strtype : pyval -> string) (value : pyval) :
  negb (is_None value)
  && negb (String.eqb (lower (safe_strtype value)) "none") = true
  <-> in_range safe_strtype value.
Proof.
  unfold in_range. rewrite andb_true_iff, !negb_true_iff.
  rewrite String.eqb_neq. split; intros [H1 H2]; (split; [|assumption]).
  - intros ->. discriminate.
  - destruct value; try reflexivity. contradiction.
Qed.

Lemma get_value_range_loop_spec (safe_strtype : pyval -> string)
    (n : string) (elements : list Element.t) (acc : list pyval) :
  readable n elements ->
  exists values,
    get_value_range_loop safe_strtype (PyStr n) elements acc = Ok values
    /\ (forall v, In v acc -> In v values)
    /\ (forall v, In v values ->
          In v acc
          \/ exists e, In e elements
                       /\ string_value_of e n = Some (Ok v)
                       /\ in_range safe_strtype v)
    /\ (forall e v, In e elements ->
          string_value_of e n = Some (Ok v) ->
          in_range safe_strtype v ->
          exists v', In v' values /\ (v' = v \/ py_eq v' v = true)).
Proof.
  revert acc. induction elements as [|e els IH]; intros acc Hr.
  - exists acc. split; [reflexivity|]. split; [trivial|].
    split; [now left | intros e v []].
  - pose proof (Hr e) as He.
    assert (forall acc',
              (forall v, In v acc -> In v acc') ->
              (forall v, In v acc' ->
                 In v acc
                 \/ (string_value_of e n = Some (Ok v)
                     /\ in_range safe_strtype v)) ->
              (forall v, string_value_of e n = Some (Ok v) ->
                 in_range safe_strtype v ->
                 exists v', In v' acc' /\ (v' = v \/ py_eq v' v = true)) ->
              exists values,
                get_value_range_loop safe_strtype (PyStr n) els acc'
                = Ok values
                /\ (forall v, In v acc -> In v values)
                /\ (forall v, In v values ->
                      In v acc
                      \/ exists e0, In e0 (e :: els)
                                    /\ string_value_of e0 n = Some (Ok v)
                                    /\ in_range safe_strtype v)
                /\ (forall e0 v, In e0 (e :: els) ->
                      string_value_of e0 n = Some (Ok v) ->
                      in_range safe_strtype v ->
                      exists v', In v' values
                                 /\ (v' = v \/ py_eq v' v = true)))
      as Hstep.
    { intros acc' H1 H2 H3.
      destruct (IH acc' (readable_tail Hr)) as [values [Hv [Ha [Hb Hc]]]].
      exists values. split; [assumption|]. split; [auto|]. split.
      - intros v Hin. destruct (Hb v Hin) as [H | [e0 [H4 H5]]].
        + destruct (H2 v H) as [H' | H']; [now left|].
          right. exists e. split; [now left | assumption].
        + right. exists e0. split; [now right | assumption].
      - intros e0 v [<- | Hin] Hval Hrange; [|now apply (Hc e0)].
        destruct (H3 v Hval Hrange) as [v' [Hin' Hv']].
        exists v'. split; [now apply Ha | assumption]. }
    cbn [get_value_range_loop]. unfold string_value_of in Hstep.
    cbn [LookupParameter bind] in *.
    destruct (find _ (Element.Parameters e)) as [p|] eqn:Hfind.
    2:{ apply Hstep; [trivial | now left | discriminate]. }
    specialize (He p (or_introl eq_refl) eq_refl).
    assert (exists v, get_param_value p = Ok v) as [v Hv].
    { unfold get_param_value.
      destruct (Param.StorageType p); try congruence; cbn; now eexists. }
    rewrite Hv in *. cbn [bind].
    destruct (negb (is_None v)
              && negb (String.eqb (lower (safe_strtype v)) "none"))
      eqn:Hkeep.
    + apply in_range_dec in Hkeep.
      assert (exists values,
                get_value_range_loop safe_strtype (PyStr n) els
                  (set_add acc v) = Ok values
                /\ (forall v0, In v0 acc -> In v0 values)
                /\ (forall v0, In v0 values ->
                      In v0 acc
                      \/ exists e0, In e0 (e :: els)
                                    /\ string_value_of e0 n = Some (Ok v0)
                                    /\ in_range safe_strtype v0)
                /\ (forall e0 v0, In e0 (e :: els) ->
                      string_value_of e0 n = Some (Ok v0) ->
                      in_range safe_strtype v0 ->
                      exists v', In v' values
                                 /\ (v' = v0 \/ py_eq v' v0 = true)))
        as Hadd.
      { apply Hstep.
        - intros v0. apply set_add_keeps.
        - intros v0 H. apply set_add_inv in H as [H | ->]; [now left|].
          right. now split.
        - intros v0 H _. injection H as <-. apply set_add_has. }
      now destruct (isinstance_str v && _).
    + apply Hstep; [trivial | now left|].
      intros v0 H Hrange. injection H as <-.
      apply in_range_dec in Hrange. congruence.
Qed.

(** X22: on a document whose parameters of that name all have a storage
    type other than [None], [get_value_range] returns the values the host
    holds under that name that are not [None] and whose text is not
    "none": every member is such a value of some element, every such
    value is there up to [==], and a text of blanks is kept like any other
    text (the two branches on [isspace] add alike). *)
Theorem get_value_range_members
    (safe_strtype : pyval -> string) (HOST_APP : HostApp.t)
    (doc : option Document.t) (d : Document.t) (n : string) :
  doc_or_active doc HOST_APP = Some d ->
  readable n (Document.Elements d) ->
  exists values,
    get_value_range safe_strtype HOST_APP (PyStr n) doc = Ok values
    /\ (forall v, In v values ->
          exists e, In e (Document.Elements d)
                    /\ element_holds e n v
                    /\ in_range safe_strtype v)
    /\ (forall e v, In e (Document.Elements d) ->
          element_holds e n v ->
          in_range safe_strtype v ->
          exists v', In v' values /\ (v' = v \/ py_eq v' v = true))
    /\ (forall e s, In e (Document.Elements d) ->
          element_holds e n (PyStr s) ->
          lower (safe_strtype (PyStr s)) <> "none" ->
          In (PyStr s) values).
Proof.
  intros Hdoc Hr. unfold get_value_range, get_all_elements.
  rewrite Hdoc. cbn [FilteredElementCollector bind].
  destruct (@get_value_range_loop_spec safe_strtype n (Document.Elements d)
              [] Hr) as [values [Hv [_ [Hb Hc]]]].
  exists values. split; [assumption|]. split; [|split].
  - intros v Hin. destruct (Hb v Hin) as [[] | [e [He [Hval Hrange]]]].
    exists e. split; [assumption|].
    split; [now apply string_value_of_holds | assumption].
  - intros e v Hin Hval. apply string_value_of_holds in Hval.
    now apply (Hc e v).
  - intros e s Hin Hval Hnone. apply string_value_of_holds in Hval.
    destruct (Hc e (PyStr s) Hin Hval) as [v' [Hin' [-> | Heq]]].
    + split; [discriminate | assumption].
    + assumption.
    + destruct v'; try discriminate. cbn in Heq.
      apply String.eqb_eq in Heq. now subst.
Qed.

Lemma get_value_range_members_witness :
  exists values,
    get_value_range FixtureMore.safe_strtype Fixture.HOST_APP
      (PyStr "Comments") (Some FixtureMore.range_doc) = Ok values
    /\ (forall v, In v values ->
          exists e, In e (Document.Elements FixtureMore.range_doc)
                    /\ element_holds e "Comments" v
                    /\ in_range FixtureMore.safe_strtype v)
    /\ (forall e v, In e (Document.Elements FixtureMore.range_doc) ->
          element_holds e "Comments" v ->
          in_range FixtureMore.safe_strtype v ->
          exists v', In v' values /\ (v' = v \/ py_eq v' v = true))
    /\ (forall e s, In e (Document.Elements FixtureMore.range_doc) ->
          element_holds e "Comments" (PyStr s) ->
          lower (FixtureMore.safe_strtype (PyStr s)) <> "none" ->
          In (PyStr s) values).
Proof.
  apply (@get_value_range_members FixtureMore.safe_strtype Fixture.HOST_APP
           (Some FixtureMore.range_doc) FixtureMore.range_doc "Comments").
  - reflexivity.
  - intros e p [<- | [<- | [<- | [<- | [<- | []]]]]] H; vm_compute in H;
      injection H as <-; discriminate.
Defined.

(** On the fixture: the blank comment stays, "NONE" and the repeated
    value do not come (again). *)
Example get_value_range_on_fixture :
  get_value_range FixtureMore.safe_strtype Fixture.HOST_APP (PyStr "Comments")
    (Some FixtureMore.range_doc)
  = Ok [PyStr "wall"; PyStr "   "; PyInt 7].
Proof. reflexivity. Qed.

(** ** Categories by name and by built-in category *)

(** X23: [get_builtincategory] resolves a name to the built-in category
    [b] exactly when the first category of that name, among the categories
    of the active document and then their sub-categories, has the id [b],
    [b] is not 0 and [b] is one of the enumeration; [get_category] called
    with [b] then returns the first category of that id. *)
Theorem get_builtincategory_of_name
    (DB : RevitAPI.t) (HOST_APP : HostApp.t) (active : Document.t)
    (n : string) (b : BuiltInCategory) :
  HostApp.doc HOST_APP = Some active ->
  (get_builtincategory DB HOST_APP (Cat_name n) = Ok (Some b)
   <-> exists cat,
         first_such (fun x => Category.Name x = n)
                    (categories_and_subcategories active) cat
         /\ Category.Id cat = b
         /\ b <> 0%Z
         /\ In b (RevitAPI.BuiltInCategory_GetValues DB))
  /\ (get_builtincategory DB HOST_APP (Cat_name n) = Ok (Some b) ->
      exists cat',
        get_category HOST_APP (Cat_builtin b) = Ok (Some cat')
        /\ first_such (fun x => Category.Id x = b)
                      (categories_and_subcategories active) cat').
Proof.
  intros Hdoc.
  destruct (@get_category_by_name HOST_APP active n Hdoc) as [r [Hr Hspec]].
  assert (get_builtincategory DB HOST_APP (Cat_name n) = Ok (Some b)
          <-> exists cat,
                first_such (fun x => Category.Name x = n)
                           (categories_and_subcategories active) cat
                /\ Category.Id cat = b
                /\ b <> 0%Z
                /\ In b (RevitAPI.BuiltInCategory_GetValues DB)) as Hiff.
  { unfold get_builtincategory. rewrite Hr. cbn [bind].
    destruct r as [cat|]; cbn [option_map].
    - pose proof (proj1 (Hspec cat) eq_refl) as Hfirst.
      rewrite find_the_value.
      destruct (Z.eqb_spec (Category.Id cat) 0) as [Hz | Hnz].
      + split; [discriminate|]. intros [cat0 [H0 [Hid [Hb _]]]].
        rewrite (first_such_functional H0 Hfirst) in Hid. congruence.
      + destruct (existsb (Z.eqb (Category.Id cat)) _) eqn:Hin.
        * apply existsb_exists in Hin as [v [Hv Heq]].
          apply Z.eqb_eq in Heq. subst v. split.
          -- intros H. injection H as <-. exists cat. now repeat split.
          -- intros [cat0 [H0 [Hid _]]].
             rewrite (first_such_functional H0 Hfirst) in Hid.
             now rewrite Hid.
        * split; [discriminate|]. intros [cat0 [H0 [Hid [_ Hv]]]].
          rewrite (first_such_functional H0 Hfirst) in Hid. subst b.
          assert (existsb (Z.eqb (Category.Id cat))
                          (RevitAPI.BuiltInCategory_GetValues DB) = true)
            as Hyes.
          { apply existsb_exists. exists (Category.Id cat).
            split; [assumption | apply Z.eqb_refl]. }
          congruence.
    - split; [discriminate|]. intros [cat0 [H0 _]].
      apply Hspec in H0. discriminate. }
  split; [exact Hiff|].
  intros H. apply Hiff in H as [cat [[before [after [Hl [_ _]]]] [Hid _]]].
  unfold get_category, get_doc_categories. cbn. rewrite Hdoc. cbn.
  fold (categories_and_subcategories active).
  destruct (@find_some_of_member _ (fun c => Z.eqb (Category.Id c) b)
              (categories_and_subcategories active) cat) as [cat' Hcat'].
  { rewrite Hl. apply in_or_app. right. now left. }
  { now apply Z.eqb_eq. }
  exists cat'. rewrite Hcat'. split; [reflexivity|].
  apply find_first_such in Hcat'. revert Hcat'. apply first_such_iff.
  intros y. symmetry. apply Z.eqb_eq.
Qed.

Lemma get_builtincategory_of_name_witness :
  (exists cat,
     first_such (fun x => Category.Name x = "Frame/Mullion")
                (categories_and_subcategories FixtureMore.frames_doc) cat
     /\ Category.Id cat = (-2000025)%Z
     /\ (-2000025)%Z <> 0%Z
     /\ In (-2000025)%Z
           (RevitAPI.BuiltInCategory_GetValues FixtureMore.DB_frames))
  /\ (exists cat',
        get_category FixtureMore.HOST_APP_frames (Cat_builtin (-2000025)%Z)
        = Ok (Some cat')
        /\ first_such (fun x => Category.Id x = (-2000025)%Z)
                      (categories_and_subcategories FixtureMore.frames_doc)
                      cat').
Proof.
  destruct (@get_builtincategory_of_name FixtureMore.DB_frames
              FixtureMore.HOST_APP_frames FixtureMore.frames_doc
              "Frame/Mullion" (-2000025)%Z eq_refl) as [H1 H2].
  split; [apply H1; reflexivity | apply H2; reflexivity].
Defined.

(** On the fixture "Doors" is resolved and "Frame/Mullion" is resolved to
    the sub-category of the doors, the first of that name; a built-in
    category and a category object are not accepted in place of the
    name. *)
Example get_builtincategory_on_fixture :
  get_builtincategory Fixture.DB Fixture.HOST_APP (Cat_name "Doors")
  = Ok (Some Fixture.OST_Doors)
  /\ get_builtincategory FixtureMore.DB_frames FixtureMore.HOST_APP_frames
       (Cat_name "Frame/Mullion")
     = Ok (Some (-2000025)%Z)
  /\ get_category Fixture.HOST_APP (Cat_builtin Fixture.OST_Doors)
     = Ok (Some Fixture.doors)
  /\ get_builtincategory Fixture.DB Fixture.HOST_APP
       (Cat_builtin Fixture.OST_Doors) = Ok None
  /\ get_builtincategory Fixture.DB Fixture.HOST_APP
       (Cat_object Fixture.doors) = Ok None.
Proof. repeat split. Qed.

(** ** Elements by the value of a project parameter *)

(** X24: [get_elements_by_param_value] resolves the name among the project
    parameters of the active document, whichever document is passed.  A
    name that is not there raises [PyRevitException]; the final
    [return []] is never reached, so an empty list means that the parameter
    exists.  A name that is there gives the elements of the document that
    pass the host's filter on the id of the first parameter of the name. *)
Theorem get_elements_by_param_value_unknown_name_raises
    (passes : string_rule_filter) (db : WrapperAPI.t) (HOST_APP : HostApp.t)
    (param_name : string) (param_value : pyval) (inverse : bool)
    (doc : option Document.t)
    (pps : list (WrapperAPI.ProjectParameter db)) :
  get_project_parameters db HOST_APP None = Ok pps ->
  ((forall pp, In pp pps -> WrapperAPI.name db pp <> param_name) ->
   get_elements_by_param_value passes db HOST_APP param_name param_value
     inverse doc
   = Raise (PyRevitException ("Parameter not found: " ++ param_name)))
  /\ (forall pp d,
        first_such (fun x => WrapperAPI.name db x = param_name) pps pp ->
        doc_or_active doc HOST_APP = Some d ->
        get_elements_by_param_value passes db HOST_APP param_name param_value
          inverse doc
        = Ok (filter (passes (WrapperAPI.param_id db pp) param_value inverse)
                     (Document.Elements d)))
  /\ (get_elements_by_param_value passes db HOST_APP param_name param_value
        inverse doc = Ok [] ->
      exists pp, In pp pps /\ WrapperAPI.name db pp = param_name).
Proof.
  intros Hpps. unfold get_elements_by_param_value, get_project_parameter_id.
  rewrite Hpps. cbn [bind]. split; [|split].
  - intros Hnone. rewrite find_all_false; [reflexivity|].
    intros pp Hpp. apply String.eqb_neq. now apply Hnone.
  - intros pp d [before [after [-> [Hname Hb]]]] Hdoc.
    rewrite find_app, find_all_false.
    + cbn [find]. apply String.eqb_eq in Hname. rewrite Hname.
      cbn [bind ElementId_truthy]. rewrite Hdoc. reflexivity.
    + intros x Hx. apply String.eqb_neq. now apply Hb.
  - destruct (find _ pps) as [pp|] eqn:Hfind; [|discriminate].
    intros _. apply find_some in Hfind as [Hin Hname].
    exists pp. split; [assumption | now apply String.eqb_eq].
Qed.

Lemma get_elements_by_param_value_unknown_name_raises_witness :
  get_elements_by_param_value FixtureMore.string_equals Fixture.db
    Fixture.HOST_APP "Acoustic Rating" (PyStr "60") false
    (Some FixtureMore.rated_doc)
  = Raise (PyRevitException "Parameter not found: Acoustic Rating")
  /\ get_elements_by_param_value FixtureMore.string_equals Fixture.db
       Fixture.HOST_APP "Fire Rating" (PyStr "60") false
       (Some FixtureMore.rated_doc)
     = Ok [FixtureMore.rated_door 21 "60"; FixtureMore.rated_door 23 "60"].
Proof.
  split.
  - apply (proj1 (@get_elements_by_param_value_unknown_name_raises
                    FixtureMore.string_equals Fixture.db Fixture.HOST_APP
                    "Acoustic Rating" (PyStr "60") false
                    (Some FixtureMore.rated_doc) [Fixture.fire_rating]
                    eq_refl)).
    intros pp [<- | []]. discriminate.
  - apply (proj1 (proj2 (@get_elements_by_param_value_unknown_name_raises
                           FixtureMore.string_equals Fixture.db
                           Fixture.HOST_APP "Fire Rating" (PyStr "60") false
                           (Some FixtureMore.rated_doc) [Fixture.fire_rating]
                           eq_refl))
             Fixture.fire_rating FixtureMore.rated_doc).
    + exists [], []. split; [reflexivity|].
      split; [reflexivity | intros y []].
    + reflexivity.
Defined.

(** Inverted, the filter gives the other elements; the active document,
    not the one passed, decides whether the name is known. *)
Example get_elements_by_param_value_on_fixture :
  get_elements_by_param_value FixtureMore.string_equals Fixture.db
    Fixture.HOST_APP "Fire Rating" (PyStr "60") true
    (Some FixtureMore.rated_doc)
  = Ok [Fixture.wall1; FixtureMore.rated_door 22 "30"]
  /\ get_elements_by_param_value FixtureMore.string_equals Fixture.db
       FixtureMore.HOST_APP_family "Fire Rating" (PyStr "60") false
       (Some Fixture.doc)
     = Raise (PyRevitException "Parameter not found: Fire Rating").
Proof. split; reflexivity. Qed.

(** ** The first legend *)

(** X25: [find_first_legend] returns the first view of the document, in
    collector order, whose type is Legend, and [None] exactly when no view
    is one.  It looks at every view, so whenever [get_all_views] asked for
    legends reports one, [find_first_legend] finds one too. *)
Theorem find_first_legend_first_legend_view
    (V : ViewAPI.t) (HOST_APP : HostApp.t) (doc : option Document.t)
    (d : Document.t) :
  doc_or_active doc HOST_APP = Some d ->
  exists r,
    find_first_legend V HOST_APP doc = Ok r
    /\ (forall v, r = Some v ->
          first_such (fun x => ViewAPI.ViewType V x = VT_Legend)
                     (views_of d) v)
    /\ (r = None <->
        forall x, In x (views_of d) -> ViewAPI.ViewType V x <> VT_Legend)
    /\ (forall include_nongraphical views x,
          get_all_views V HOST_APP doc (Some [VT_Legend]) include_nongraphical
          = Ok views ->
          In x views -> r <> None).
Proof.
  intros Hdoc. unfold find_first_legend, get_all_views. rewrite Hdoc.
  cbn [FilteredElementCollector bind].
  assert (forall x, ViewType_eqb (ViewAPI.ViewType V x) VT_Legend = true
                    <-> ViewAPI.ViewType V x = VT_Legend) as Heqb.
  { intros x. unfold ViewType_eqb. split.
    - apply internal_ViewType_dec_bl.
    - apply internal_ViewType_dec_lb. }
  assert (find (fun view => ViewType_eqb (ViewAPI.ViewType V view) VT_Legend)
               (views_of d) = None
          <-> forall x, In x (views_of d) ->
                        ViewAPI.ViewType V x <> VT_Legend) as Hnone.
  { split.
    - intros H x Hx Hl. apply Heqb in Hl.
      rewrite (find_none _ _ H x Hx) in Hl. discriminate.
    - intros H. apply find_all_false. intros x Hx.
      destruct (ViewType_eqb (ViewAPI.ViewType V x) VT_Legend) eqn:E;
        [|reflexivity].
      apply Heqb in E. now apply H in E. }
  eexists. split; [reflexivity|]. split; [|split].
  - intros v Hv. apply find_first_such in Hv.
    destruct Hv as [before [after [Hl [Hx Hb]]]].
    exists before, after. split; [assumption|]. split; [now apply Heqb|].
    intros y Hy Hl'. apply Heqb in Hl'. now apply (Hb y Hy).
  - exact Hnone.
  - intros include_nongraphical views x Hviews Hx Hr.
    assert (In x (views_of d) /\ ViewAPI.ViewType V x = VT_Legend) as [H1 H2].
    { remember (views_of d) as vs eqn:Hvs.
      destruct include_nongraphical; cbn [negb] in Hviews;
        injection Hviews as <-;
        repeat (apply filter_In in Hx as [Hx ?]).
      - split; [assumption|].
        match goal with
        | H : _ || false = true |- _ =>
            rewrite orb_false_r in H; now apply Heqb
        end.
      - split; [assumption|].
        match goal with
        | H : _ || false = true |- _ =>
            rewrite orb_false_r in H; now apply Heqb
        end. }
    exact (proj1 Hnone Hr x H1 H2).
Qed.

Lemma find_first_legend_first_legend_view_witness :
  exists r,
    find_first_legend FixtureMore.V FixtureMore.HOST_APP None = Ok r
    /\ (forall v, r = Some v ->
          first_such (fun x => ViewAPI.ViewType FixtureMore.V x = VT_Legend)
                     (views_of FixtureMore.doc) v)
    /\ (r = None <->
        forall x, In x (views_of FixtureMore.doc) ->
                  ViewAPI.ViewType FixtureMore.V x <> VT_Legend)
    /\ (forall include_nongraphical views x,
          get_all_views FixtureMore.V FixtureMore.HOST_APP None
            (Some [VT_Legend]) include_nongraphical = Ok views ->
          In x views -> r <> None).
Proof.
  apply (@find_first_legend_first_legend_view FixtureMore.V
           FixtureMore.HOST_APP None FixtureMore.doc).
  reflexivity.
Defined.

(** On the fixture the legend is found. *)
Example find_first_legend_on_fixture :
  find_first_legend FixtureMore.V FixtureMore.HOST_APP None
  = Ok (Some FixtureMore.legend).
Proof. reflexivity. Qed.

(** ** Grids of a document and of the linked models *)

Lemma in_linked_grids (g : Grid.t) (linked : list (option LinkedDocument.t)) :
  In g (flat_map (fun tdoc => match tdoc with Some x => x | None => [] end)
                 (map (option_map LinkedDocument.Grids) linked))
  <-> exists ld, In (Some ld) linked /\ In g (LinkedDocument.Grids ld).
Proof.
  rewrite in_flat_map. split.
  - intros [tdoc [Hin Hg]]. apply in_map_iff in Hin as [[ld|] [<- Hin]].
    + now exists ld.
    + destruct Hg.
  - intros [ld [Hin Hg]]. exists (Some (LinkedDocument.Grids ld)).
    split; [|assumption].
    apply in_map_iff. exists (Some ld). now split.
Qed.

(** X26: [get_all_grids] returns the grids of the document; with
    [include_linked_models] it adds the grids of the models linked from the
    active document, whichever document is passed, and skips the links
    that are not loaded.  Without an active document that call raises,
    also for a document that is passed. *)
Theorem get_all_grids_links_of_active_document
    (HOST_APP : HostApp.t) (doc : option Document.t) (d : Document.t) :
  doc_or_active doc HOST_APP = Some d ->
  get_all_grids HOST_APP false doc = Ok (Document.Grids d)
  /\ (forall active,
        HostApp.doc HOST_APP = Some active ->
        exists grids,
          get_all_grids HOST_APP true doc = Ok grids
          /\ forall g,
               In g grids
               <-> In g (Document.Grids d)
                   \/ exists ld,
                        In (Some ld) (Document.LinkDocuments active)
                        /\ In g (LinkedDocument.Grids ld))
  /\ (HostApp.doc HOST_APP = None ->
      get_all_grids HOST_APP true doc
      = Raise (HostException "ArgumentNullException" "document")).
Proof.
  intros Hdoc. unfold get_all_grids, get_all_linkeddocs. rewrite Hdoc.
  cbn [doc_or_active]. split; [|split].
  - cbn. now rewrite app_nil_r.
  - intros active Hactive. rewrite Hactive.
    cbn [FilteredElementCollector bind]. eexists. split; [reflexivity|].
    intros g. cbn [flat_map option_map]. rewrite in_app_iff.
    rewrite in_linked_grids.
    now setoid_rewrite (nodup_In same_linked_document).
  - intros Hnone. rewrite Hnone. reflexivity.
Qed.

Lemma get_all_grids_links_of_active_document_witness :
  get_all_grids FixtureMore.HOST_APP_tower false (Some FixtureMore.site_doc)
  = Ok (Document.Grids FixtureMore.site_doc)
  /\ exists grids,
       get_all_grids FixtureMore.HOST_APP_tower true
         (Some FixtureMore.site_doc) = Ok grids
       /\ forall g,
            In g grids
            <-> In g (Document.Grids FixtureMore.site_doc)
                \/ exists ld,
                     In (Some ld)
                        (Document.LinkDocuments FixtureMore.tower_doc)
                     /\ In g (LinkedDocument.Grids ld).
Proof.
  destruct (@get_all_grids_links_of_active_document
              FixtureMore.HOST_APP_tower (Some FixtureMore.site_doc)
              FixtureMore.site_doc eq_refl) as [H1 [H2 _]].
  split; [exact H1 | exact (H2 FixtureMore.tower_doc eq_refl)].
Defined.

(** On the fixture: the site model is passed, the tower is active; the
    grid linked from the tower comes, the one linked from the site does
    not.  With no document at all the plain call returns the empty list. *)
Example get_all_grids_on_fixture :
  get_all_grids FixtureMore.HOST_APP_tower true (Some FixtureMore.site_doc)
  = Ok [Fixture.grid 4; Fixture.grid 3]
  /\ get_all_grids FixtureMore.HOST_APP_idle false None = Ok []
  /\ get_all_grids FixtureMore.HOST_APP_idle true (Some FixtureMore.site_doc)
     = Raise (HostException "ArgumentNullException" "document").
Proof. repeat split. Qed.

(** ** The links of a saved model *)

Lemma get_links_loop_spec (db : WrapperAPI.t) (d : Document.t)
    (trans_data : TransmissionData.t) (linktype : option Z)
    (data : ElementId -> ExternalFileReference.t)
    (wrap : ElementId -> WrapperAPI.ExternalRef db)
    (external_refs : list ElementId)
    (links : list (WrapperAPI.ExternalRef db)) :
  (forall ref_id, In ref_id external_refs ->
     TransmissionData.GetLastSavedReferenceData trans_data ref_id
     = Ok (data ref_id)) ->
  (forall ref_id, In ref_id external_refs ->
     wanted_link linktype (data ref_id) = true ->
     WrapperAPI.ExternalRef_new db (Document.GetElement d ref_id) (data ref_id)
     = Ok (wrap ref_id)) ->
  get_links_loop db d trans_data linktype external_refs links
  = Ok (links
        ++ map wrap
             (filter (fun ref_id => wanted_link linktype (data ref_id))
                     external_refs))%list.
Proof.
  revert links. induction external_refs as [|ref_id rest IH];
    intros links Hdata Hwrap.
  - cbn. now rewrite app_nil_r.
  - cbn [get_links_loop filter].
    rewrite (Hdata ref_id (or_introl eq_refl)). cbn [bind].
    pose proof (Hwrap ref_id (or_introl eq_refl)) as Hw.
    assert (forall links',
              get_links_loop db d trans_data linktype rest links'
              = Ok (links'
                    ++ map wrap
                         (filter (fun r => wanted_link linktype (data r))
                                 rest))%list) as Hrest.
    { intros links'. apply IH.
      - intros r Hr. apply Hdata. now right.
      - intros r Hr. apply Hwrap. now right. }
    destruct (wanted_link linktype (data ref_id)) eqn:Hwanted.
    + specialize (Hw eq_refl).
      assert ((r <- WrapperAPI.ExternalRef_new db
                      (Document.GetElement d ref_id) (data ref_id) ;;
               Ok (links ++ [r])%list)
              = Ok (links ++ [wrap ref_id])%list) as Hadd
        by now rewrite Hw.
      assert (get_links_loop db d trans_data linktype rest
                (links ++ [wrap ref_id])
              = Ok (links
                    ++ map wrap
                         (ref_id
                          :: filter (fun r => wanted_link linktype (data r))
                               rest))%list) as Hgoal.
      { rewrite Hrest. cbn [map]. now rewrite <- app_assoc. }
      destruct linktype as [lt|]; [|now rewrite Hadd].
      unfold wanted_link in Hwanted.
      destruct (enum_truthy lt); [|now rewrite Hadd].
      cbn [negb orb] in Hwanted. rewrite Hwanted. now rewrite Hadd.
    + destruct linktype as [lt|]; [|discriminate].
      unfold wanted_link in Hwanted.
      destruct (enum_truthy lt); [|discriminate].
      cbn [negb orb] in Hwanted. rewrite Hwanted. cbn [bind]. apply Hrest.
Qed.

(** X27: for a saved model whose transmission data the host reads,
    [get_links] returns one wrapper for each reference of the type asked
    for, in the order of the reference ids; with no link type every
    reference is wrapped, so the links of one type are those of the whole
    list whose reference has the type. *)
Theorem get_links_of_type_in_reference_order
    (python_text : exn -> string) (DB : RevitAPI.t) (db : WrapperAPI.t)
    (HOST_APP : HostApp.t)
    (linktype : option Z) (doc : option Document.t) (d : Document.t)
    (model_path : ModelPath.t) (trans_data : TransmissionData.t)
    (external_refs : list ElementId)
    (data : ElementId -> ExternalFileReference.t)
    (wrap : ElementId -> WrapperAPI.ExternalRef db) :
  doc_or_active doc HOST_APP = Some d ->
  str_truthy (Document.PathName d) = true ->
  RevitAPI.ConvertUserVisiblePathToModelPath DB (Document.PathName d)
  = Some model_path ->
  RevitAPI.ReadTransmissionData DB model_path = Ok (Some trans_data) ->
  TransmissionData.GetAllExternalFileReferenceIds trans_data
  = Ok external_refs ->
  (forall ref_id, In ref_id external_refs ->
     TransmissionData.GetLastSavedReferenceData trans_data ref_id
     = Ok (data ref_id)) ->
  (forall ref_id, In ref_id external_refs ->
     WrapperAPI.ExternalRef_new db (Document.GetElement d ref_id) (data ref_id)
     = Ok (wrap ref_id)) ->
  get_links python_text DB db HOST_APP linktype doc
  = Ok (map wrap
          (filter (fun ref_id => wanted_link linktype (data ref_id))
                  external_refs))
  /\ get_links python_text DB db HOST_APP None doc
     = Ok (map wrap external_refs).
Proof.
  intros Hdoc Hpath Hmodel Hread Hrefs Hdata Hwrap.
  assert (forall lt,
            get_links python_text DB db HOST_APP lt doc
            = Ok (map wrap
                    (filter (fun ref_id => wanted_link lt (data ref_id))
                            external_refs))) as H.
  { intros lt. unfold get_links. rewrite Hdoc, Hpath. cbn [negb].
    rewrite Hmodel. unfold get_links_try. rewrite Hread. cbn [bind].
    rewrite Hrefs. cbn [bind].
    rewrite (@get_links_loop_spec db d trans_data lt data wrap external_refs
               [] Hdata (fun r Hr _ => Hwrap r Hr)).
    reflexivity. }
  split; [apply H|].
  rewrite (H None). cbn [wanted_link]. f_equal. f_equal.
  clear. induction external_refs as [|r rest IH]; [reflexivity|].
  cbn. now f_equal.
Qed.

Lemma get_links_of_type_in_reference_order_witness :
  get_links Fixture.python_text FixtureMore.DB_links Fixture.db
    FixtureMore.HOST_APP_tower (Some 1%Z) None
  = Ok (map FixtureMore.wrap_link
          (filter (fun ref_id =>
                     wanted_link (Some 1%Z) (FixtureMore.link_data ref_id))
                  [601; 602; 603]%Z))
  /\ get_links Fixture.python_text FixtureMore.DB_links Fixture.db
       FixtureMore.HOST_APP_tower None None
     = Ok (map FixtureMore.wrap_link [601; 602; 603]%Z).
Proof.
  apply (@get_links_of_type_in_reference_order Fixture.python_text
           FixtureMore.DB_links
           Fixture.db FixtureMore.HOST_APP_tower (Some 1%Z) None
           FixtureMore.tower_doc
           {| ModelPath.ToString := "C:/models/tower.rvt" |}
           FixtureMore.tower_links [601; 602; 603]%Z
           FixtureMore.link_data FixtureMore.wrap_link).
  - reflexivity.
  - reflexivity.
  - reflexivity.
  - reflexivity.
  - reflexivity.
  - intros ref_id _. reflexivity.
  - intros ref_id _. reflexivity.
Defined.

(** On the fixture the CAD link is left out when Revit links are asked
    for. *)
Example get_links_on_fixture :
  get_links Fixture.python_text FixtureMore.DB_links Fixture.db
    FixtureMore.HOST_APP_tower (Some 1%Z) None
  = Ok [FixtureMore.wrap_link 601; FixtureMore.wrap_link 603].
Proof. reflexivity. Qed.
